(** * getData: sampling a Basilisk snapshot on a regular grid

    A shallow embedding of [postProcess/getData.c] and the properties the
    specification states about it.

    - C [double] is IEEE-754 binary64, taken from the Standard Library's
      executable specification [SpecFloat] (precision 53, [emax] 1024,
      round to nearest even).  Every arithmetic operator of the source is
      one rounded operation; no contraction into fused multiply-add.
    - C [int] is a 32-bit two's complement integer carried as a [Z];
      an arithmetic result outside the range, a conversion of a [double]
      that does not fit, and an access outside the sample buffer are
      undefined behaviour, the [None] of the monad [M].
    - The C library ([atoi], [atof]) is modelled after ISO C and glibc.
    - Basilisk's [restore], [interpolate], the allocator behind
      [matrix_new], and libm's [log] are external: they are the variables
      of section [Pipeline].  A restore or an allocation that fails ends
      the process with status 1. *)

From Stdlib Require Import ZArith Lia List String Ascii Bool SpecFloat.
From Stdlib Require Import DecimalString DecimalPos DecimalZ.
From stdpp Require Import base option list strings.

Open Scope Z_scope.

(** ** IEEE-754 binary64 *)

Definition prec : Z := 53.
Definition emax : Z := 1024.

Abbreviation double := spec_float.

Definition fadd : double -> double -> double := SFadd prec emax.
Definition fsub : double -> double -> double := SFsub prec emax.
Definition fmul : double -> double -> double := SFmul prec emax.
Definition fdiv : double -> double -> double := SFdiv prec emax.
Definition fsqrt : double -> double := SFsqrt prec emax.

(** Comparisons, false as soon as an operand is NaN. *)
Definition flt (a b : double) : bool := SFltb a b.
Definition fle (a b : double) : bool := SFleb a b.
Definition fgt (a b : double) : bool := SFltb b a.
Definition fge (a b : double) : bool := SFleb b a.

Definition is_nan (a : double) : bool :=
  match a with S754_nan => true | _ => false end.

Definition is_finite (a : double) : bool :=
  match a with S754_zero _ | S754_finite _ _ _ => true | _ => false end.

(** A value of the format: the mantissa is canonical for its exponent. *)
Definition valid (a : double) : bool := valid_binary prec emax a.

(** *** [int] and the conversions between [int] and [double] *)

Definition INT_MIN : Z := -2147483648.
Definition INT_MAX : Z := 2147483647.

Definition in_int (z : Z) : bool := (INT_MIN <=? z) && (z <=? INT_MAX).

(** [(double) n]: exact for every [int]. *)
Definition of_int (n : Z) : double := binary_normalize prec emax n 0 false.

(** The integral part of a finite value, rounded toward zero. *)
Definition ftrunc (a : double) : option Z :=
  match a with
  | S754_zero _ => Some 0
  | S754_finite s m e => Some (cond_Zopp s (Z.shiftl (Z.pos m) e))
  | _ => None
  end.

(** The largest integer not above a finite value. *)
Definition ffloor (a : double) : option Z :=
  match a with
  | S754_zero _ => Some 0
  | S754_finite s m e => Some (Z.shiftl (cond_Zopp s (Z.pos m)) e)
  | _ => None
  end.

(** [(int) a]: truncation; undefined when the integral part does not fit
    (ISO C 6.3.1.4), in particular for NaN and the infinities. *)
Definition to_int (a : double) : option Z :=
  match ftrunc a with
  | Some z => if in_int z then Some z else None
  | None => None
  end.

(** Squaring, Basilisk's macro [sq(x)]. *)
Definition sq (a : double) : double := fmul a a.

(** ** The C library: [atoi] and [atof] *)

Definition code (c : ascii) : Z := Z.of_N (N_of_ascii c).

Definition isspace (c : ascii) : bool :=
  (code c =? 32) || ((9 <=? code c) && (code c <=? 13)).

Definition tolower (c : ascii) : ascii :=
  if (65 <=? code c) && (code c <=? 90)
  then ascii_of_N (Z.to_N (code c + 32)) else c.

Definition digit_of (c : ascii) : option Z :=
  if (48 <=? code c) && (code c <=? 57) then Some (code c - 48) else None.

Definition xdigit_of (c : ascii) : option Z :=
  let l := code (tolower c) in
  match digit_of c with
  | Some d => Some d
  | None => if (97 <=? l) && (l <=? 102) then Some (l - 87) else None
  end.

Fixpoint skip_space (s : string) : string :=
  match s with
  | String c r => if isspace c then skip_space r else s
  | EmptyString => s
  end.

(** Optional sign: [true] for a leading minus. *)
Definition read_sign (s : string) : bool * string :=
  match s with
  | String c r =>
      if code c =? 45 then (true, r)
      else if code c =? 43 then (false, r) else (false, s)
  | EmptyString => (false, s)
  end.

(** The longest prefix of digits in base [base]: its value continuing
    [acc], the number of digits read, and the rest. *)
Fixpoint read_digits (digit : ascii -> option Z) (base : Z) (s : string)
    (acc : Z) (n : Z) : Z * Z * string :=
  match s with
  | String c r =>
      match digit c with
      | Some d => read_digits digit base r (base * acc + d) (n + 1)
      | None => (acc, n, s)
      end
  | EmptyString => (acc, n, s)
  end.

Definition LONG_MIN : Z := - 2 ^ 63.
Definition LONG_MAX : Z := 2 ^ 63 - 1.

(** [strtol (s, NULL, 10)]: leading white space, a sign, digits; zero when
    there is no digit; clamped to the range of [long]. *)
Definition strtol10 (s : string) : Z :=
  let '(neg, r) := read_sign (skip_space s) in
  let '(v, _, _) := read_digits digit_of 10 r 0 0 in
  Z.max LONG_MIN (Z.min LONG_MAX (if neg then - v else v)).

(** Conversion of a [long] to [int] keeps the low 32 bits. *)
Definition wrap_int (z : Z) : Z := (z + 2 ^ 31) mod 2 ^ 32 - 2 ^ 31.

(** glibc's [atoi] is [(int) strtol (s, NULL, 10)].  ISO C leaves the
    result undefined when the number does not fit; glibc wraps it. *)
Definition atoi (s : string) : Z := wrap_int (strtol10 s).

(** Case-insensitive prefix test, returning the rest. *)
Fixpoint strip_prefix_ci (p s : string) : option string :=
  match p, s with
  | EmptyString, _ => Some s
  | String a p', String c s' =>
      if Ascii.eqb a (tolower c) then strip_prefix_ci p' s' else None
  | String _ _, EmptyString => None
  end.

(** The value [m * 10^k] ([m > 0]) rounded once to binary64. *)
Definition decimal_to_double (neg : bool) (m : Z) (k : Z) : double :=
  match m with
  | Z.pos p =>
      if 0 <=? k then binary_round prec emax neg (Z.to_pos (m * 10 ^ k)) 0
      else
        let '(q, e, l) := SFdiv_core_binary prec emax m 0 (10 ^ (- k)) 0 in
        binary_round_aux prec emax neg q e l
  | _ => S754_zero neg
  end.

(** The value [m * 2^e] rounded once to binary64. *)
Definition binary_to_double (neg : bool) (m : Z) (e : Z) : double :=
  match m with
  | Z.pos p => binary_round prec emax neg p e
  | _ => S754_zero neg
  end.

(** An exponent part [e[+-]ddd] (or [p[+-]ddd]); absent, hence 0, unless
    at least one digit follows. *)
Definition read_exponent (mark : ascii) (s : string) : Z :=
  match s with
  | String c r =>
      if Ascii.eqb (tolower c) mark then
        let '(neg, r') := read_sign r in
        let '(v, n, _) := read_digits digit_of 10 r' 0 0 in
        if 0 <? n then (if neg then - v else v) else 0
      else 0
  | EmptyString => 0
  end.

(** A decimal or hexadecimal significand [ddd.ddd]: value of all its
    digits, number of digits after the point, total number of digits,
    and the rest. *)
Definition read_significand (digit : ascii -> option Z) (base : Z)
    (s : string) : Z * Z * Z * string :=
  let '(v1, n1, r1) := read_digits digit base s 0 0 in
  match r1 with
  | String c r =>
      if code c =? 46 then
        let '(v2, n2, r2) := read_digits digit base r v1 0 in
        (v2, n2, n1 + n2, r2)
      else (v1, 0, n1, r1)
  | EmptyString => (v1, 0, n1, r1)
  end.

Definition strtod_hex (neg : bool) (s : string) : option double :=
  match strip_prefix_ci "0x" s with
  | Some r =>
      let '(v, nfrac, n, r') := read_significand xdigit_of 16 r in
      if 0 <? n
      then Some (binary_to_double neg v (read_exponent "p" r' - 4 * nfrac))
      else None
  | None => None
  end.

Definition strtod_dec (neg : bool) (s : string) : option double :=
  let '(v, nfrac, n, r) := read_significand digit_of 10 s in
  if 0 <? n
  then Some (decimal_to_double neg v (read_exponent "e" r - nfrac))
  else None.

(** [atof (s)] is [strtod (s, NULL)]: leading white space, a sign, then
    an infinity, a NaN, a hexadecimal or a decimal number, correctly
    rounded; [+0.0] when no conversion can be performed (ISO C 7.22.1.3). *)
Definition atof (s : string) : double :=
  let '(neg, r) := read_sign (skip_space s) in
  match strip_prefix_ci "inf" r with
  | Some _ => S754_infinity neg
  | None =>
  match strip_prefix_ci "nan" r with
  | Some _ => S754_nan
  | None =>
  match strtod_hex neg r with
  | Some d => d
  | None =>
  match strtod_dec neg r with
  | Some d => d
  | None => S754_zero false
  end end end end.

(** ** Constants of the source *)

(** The literals [0.], [0.5], [1.] and [2.]. *)
Definition zero : double := S754_zero false.
Definition half : double := Eval vm_compute in atof "0.5".
Definition one : double := Eval vm_compute in atof "1.".
Definition two : double := Eval vm_compute in atof "2.".

(** [2e-2], the viscosity ratio of the gas phase. *)
Definition mu_gas : double := Eval vm_compute in atof "2e-2".

(** [1e-10], the threshold that guards the axis. *)
Definition axis_eps : double := Eval vm_compute in atof "1e-10".

(** The floor value [-10] stored for non-positive arguments of the
    logarithm. *)
Definition floor_value : double := of_int (-10).

(** The line feed that ends every message and every row. *)
Definition nl : string := String (ascii_of_nat 10) EmptyString.

(** ** Data structures *)

Record extraction_config := {
  filename : string;
  xmin : double; ymin : double; xmax : double; ymax : double;
  Deltax : double; Deltay : double;
  nx : Z; ny : Z
}.

Definition set_filename (cfg : extraction_config) (v : string) :=
  {| filename := v; xmin := xmin cfg; ymin := ymin cfg; xmax := xmax cfg;
     ymax := ymax cfg; Deltax := Deltax cfg; Deltay := Deltay cfg;
     nx := nx cfg; ny := ny cfg |}.
Definition set_xmin (cfg : extraction_config) (v : double) :=
  {| filename := filename cfg; xmin := v; ymin := ymin cfg; xmax := xmax cfg;
     ymax := ymax cfg; Deltax := Deltax cfg; Deltay := Deltay cfg;
     nx := nx cfg; ny := ny cfg |}.
Definition set_ymin (cfg : extraction_config) (v : double) :=
  {| filename := filename cfg; xmin := xmin cfg; ymin := v; xmax := xmax cfg;
     ymax := ymax cfg; Deltax := Deltax cfg; Deltay := Deltay cfg;
     nx := nx cfg; ny := ny cfg |}.
Definition set_xmax (cfg : extraction_config) (v : double) :=
  {| filename := filename cfg; xmin := xmin cfg; ymin := ymin cfg; xmax := v;
     ymax := ymax cfg; Deltax := Deltax cfg; Deltay := Deltay cfg;
     nx := nx cfg; ny := ny cfg |}.
Definition set_ymax (cfg : extraction_config) (v : double) :=
  {| filename := filename cfg; xmin := xmin cfg; ymin := ymin cfg;
     xmax := xmax cfg; ymax := v; Deltax := Deltax cfg; Deltay := Deltay cfg;
     nx := nx cfg; ny := ny cfg |}.
Definition set_Deltax (cfg : extraction_config) (v : double) :=
  {| filename := filename cfg; xmin := xmin cfg; ymin := ymin cfg;
     xmax := xmax cfg; ymax := ymax cfg; Deltax := v; Deltay := Deltay cfg;
     nx := nx cfg; ny := ny cfg |}.
Definition set_Deltay (cfg : extraction_config) (v : double) :=
  {| filename := filename cfg; xmin := xmin cfg; ymin := ymin cfg;
     xmax := xmax cfg; ymax := ymax cfg; Deltax := Deltax cfg; Deltay := v;
     nx := nx cfg; ny := ny cfg |}.
Definition set_nx (cfg : extraction_config) (v : Z) :=
  {| filename := filename cfg; xmin := xmin cfg; ymin := ymin cfg;
     xmax := xmax cfg; ymax := ymax cfg; Deltax := Deltax cfg;
     Deltay := Deltay cfg; nx := v; ny := ny cfg |}.
Definition set_ny (cfg : extraction_config) (v : Z) :=
  {| filename := filename cfg; xmin := xmin cfg; ymin := ymin cfg;
     xmax := xmax cfg; ymax := ymax cfg; Deltax := Deltax cfg;
     Deltay := Deltay cfg; nx := nx cfg; ny := v |}.

(** The local [cfg] of [main] before [parse_arguments] fills it.  Its
    content is indeterminate in C; every field is assigned before it is
    read, so the choice made here is never observed. *)
Definition cfg_uninit : extraction_config :=
  {| filename := ""; xmin := zero; ymin := zero; xmax := zero; ymax := zero;
     Deltax := zero; Deltay := zero; nx := 0; ny := 0 |}.

(** The derived scalar fields, [scalar D2c[], vel[]]. *)
Inductive scalar := D2c | vel.

#[global] Instance scalar_eq_dec : EqDecision scalar.
Proof. solve_decision. Defined.

(** A leaf cell of the restored mesh, as the [foreach()] kernels see it:
    its size [Delta], the ordinate [y] of its centre, the volume fraction
    [f[]], and the stencils [u.x[i,j]], [u.y[i,j]] around it. *)
Record cell := {
  Delta : double;             (* [Delta] *)
  cell_y : double;            (* [y] *)
  cell_f : double;            (* [f[]] *)
  u_x : Z -> Z -> double;     (* [u.x[i,j]] *)
  u_y : Z -> Z -> double      (* [u.y[i,j]] *)
}.

(** What is written on a stream: literal text, or a number that the
    conversion [%g] turns into text. *)
Inductive token := Text (s : string) | Num (d : double).

(** The calls a run goes through, in the order they are entered. *)
Inductive step :=
  | StValidate | StPlanGrid | StRegister | StRestore | StCompute
  | StAllocate | StSample | StWrite | StFlush | StClose | StRelease.

#[global] Instance step_eq_dec : EqDecision step.
Proof. solve_decision. Defined.

(** The matrix that [matrix_new (n, p, size)] returns: [n] rows carved
    from one block, [p*size] bytes apart, here counted in [double]s.  A
    slot holds [None] until it is assigned. *)
Record matrix := {
  m_rows : Z;
  m_stride : Z;
  m_data : list (option double)
}.

(** The global state of a run.  The last two fields are ghost state:
    they record what the run did and influence nothing. *)
Record world := {
  stderr : list token;            (* what was written on [stderr] *)
  field_list : list scalar;       (* [scalar * field_list] *)
  grid : list cell;               (* leaf cells, in [foreach()] order *)
  values : scalar -> list double; (* a derived field, one value per cell *)
  calls : list step;              (* steps entered so far *)
  touched : list (Z * Z)          (* accesses [m[i][c]] to the buffer *)
}.

Definition world0 : world :=
  {| stderr := []; field_list := []; grid := []; values := fun _ => [];
     calls := []; touched := [] |}.

(** The world after more output, more accesses and more steps. *)
Definition emit (w : world) (ts : list token) (acc : list (Z * Z))
    (cs : list step) : world :=
  {| stderr := stderr w ++ ts; field_list := field_list w; grid := grid w;
     values := values w; calls := calls w ++ cs;
     touched := touched w ++ acc |}.

(** ** The monad of a run: state, and [None] for undefined behaviour *)

Definition M (A : Type) : Type := world -> option (A * world).

#[global] Instance M_ret : MRet M := fun A a w => Some (a, w).
#[global] Instance M_bind : MBind M := fun A B k m w =>
  match m w with
  | Some (a, w') => k a w'
  | None => None
  end.

Definition undefined {A} : M A := fun _ => None.

Definition get : M world := fun w => Some (w, w).

(** Entering a step. *)
Definition enter (s : step) : M unit := fun w => Some (tt, emit w [] [] [s]).

(** [fprintf (stderr, ...)], also [fprintf (ferr, ...)]. *)
Definition fprintf_stderr (ts : list token) : M unit := fun w =>
  Some (tt, emit w ts [] []).

Definition set_field_list (l : list scalar) : M unit := fun w =>
  Some (tt, {| stderr := stderr w; field_list := l; grid := grid w;
               values := values w; calls := calls w;
               touched := touched w |}).

Definition set_grid (g : list cell) : M unit := fun w =>
  Some (tt, {| stderr := stderr w; field_list := field_list w; grid := g;
               values := values w; calls := calls w;
               touched := touched w |}).

(** Assigning [target[]] in every cell. *)
Definition set_values (target : scalar) (vs : list double) : M unit :=
  fun w =>
  Some (tt, {| stderr := stderr w; field_list := field_list w;
               grid := grid w;
               values := fun s => if decide (s = target) then vs
                                  else values w s;
               calls := calls w; touched := touched w |}).

(** An [int] result: undefined when out of range. *)
Definition int (z : Z) : M Z := if in_int z then mret z else undefined.

(** [argv[i]]. *)
Definition arg (argv : list string) (i : nat) : M string :=
  match argv !! i with
  | Some s => mret s
  | None => undefined
  end.

(** A loop over [l] threading the loop-carried state. *)
Fixpoint for_each {A S : Type} (l : list A) (body : A -> S -> M S) (s : S)
    : M S :=
  match l with
  | [] => mret s
  | a :: l' => s' ← body a s; for_each l' body s'
  end.

(** ** Ending the process *)

(** A call either returns, or ends the process with a status. *)
Inductive outcome (A : Type) :=
  | Returned (a : A)
  | Exited (status : Z).

Arguments Returned {A} a.
Arguments Exited {A} status.

(** Code that may end the process: library calls that are fatal when
    they fail, and what calls them. *)
Record process (A : Type) :=
  Process { run : world -> option (outcome A * world) }.

Arguments Process {A} run.
Arguments run {A} p w.

#[global] Instance process_ret : MRet process := fun A a =>
  Process (fun w => Some (Returned a, w)).
#[global] Instance process_bind : MBind process := fun A B k m =>
  Process (fun w =>
    match run m w with
    | Some (Returned a, w') => run (k a) w'
    | Some (Exited c, w') => Some (Exited c, w')
    | None => None
    end).

(** Code that cannot end the process, inside code that can. *)
Definition lift {A} (m : M A) : process A :=
  Process (fun w =>
    match m w with
    | Some (a, w') => Some (Returned a, w')
    | None => None
    end).

(** [exit (status)]. *)
Definition exit {A} (status : Z) : process A :=
  Process (fun w => Some (Exited status, w)).

(** The body of [main]: returning [c] from [main] and calling [exit (c)]
    end the process alike, with status [c] (ISO C 5.1.2.2.3). *)
Definition finish (body : process Z) : M Z := fun w =>
  match run body w with
  | Some (Returned c, w') | Some (Exited c, w') => Some (c, w')
  | None => None
  end.

(** *** The sample buffer *)

(** A value of type [size_t], 64 bits without sign. *)
Definition size_t (z : Z) : Z := z mod 2 ^ 64.

(** The size of a pointer and of a [double]. *)
Definition sizeof_pointer : Z := 8.
Definition sizeof_double : Z := 8.

(** The matrix of [n] rows carved from one block of [bytes] bytes, the
    rows [p*size] bytes apart, counted in [double]s. *)
Definition block (n p size bytes : Z) : matrix :=
  {| m_rows := n; m_stride := p * (size / 8);
     m_data := replicate (Z.to_nat (bytes / 8)) None |}.

(** The matrix that [matrix_new (n, p, size)] returns when the request
    is granted and no product wraps. *)
Definition matrix_of (n p size : Z) : matrix :=
  {| m_rows := n; m_stride := p * (size / 8);
     m_data := replicate (Z.to_nat (n * (p * (size / 8)))) None |}.

(** The slot that [m[i][c]] designates: row pointer [i] must exist and
    the slot must lie inside the block. *)
Definition matrix_slot (m : matrix) (i c : Z) : option nat :=
  let k := i * m_stride m + c in
  if (0 <=? i) && (i <? m_rows m) && (0 <=? k)
     && (k <? Z.of_nat (length (m_data m)))
  then Some (Z.to_nat k) else None.

(** [m[i][c] = v]. *)
Definition matrix_store (m : matrix) (i c : Z) (v : double) : M matrix :=
  fun w =>
  match matrix_slot m i c with
  | Some k => Some ({| m_rows := m_rows m; m_stride := m_stride m;
                       m_data := <[k := Some v]> (m_data m) |},
                    emit w [] [(i, c)] [])
  | None => None
  end.

(** Reading [m[i][c]]; undefined for a slot never assigned. *)
Definition matrix_load (m : matrix) (i c : Z) : M double := fun w =>
  match matrix_slot m i c with
  | Some k => match m_data m !! k with
              | Some (Some v) => Some (v, emit w [] [(i, c)] [])
              | _ => None
              end
  | None => None
  end.

(** [snprintf (buf, size, "%s", s)]: at most [size - 1] characters. *)
Definition snprintf (size : nat) (s : string) : string :=
  substring 0 (size - 1) s.

(** [(int) a] inside a run. *)
Definition cast_int (a : double) : M Z :=
  match to_int a with
  | Some z => mret z
  | None => undefined
  end.

(** ** The program *)

Section Pipeline.

(** The build-time switch [AXI]: [true] for the axisymmetric geometry. *)
Variable AXI : bool.

(** libm's natural logarithm. *)
Variable log : double -> double.

(** Modelled from the spec: Basilisk's [restore (file = ...)], which is
    not among the sources.  It yields the leaf cells of the snapshot, or
    it fails; a restore that fails is fatal (sections 6 and 7: exit code
    1 on any restore failure). *)
Variable restore : string -> option (list cell).

(** Basilisk's [interpolate (s, x, y)]: the value at a point of the field
    whose cell values are given, on the given mesh. *)
Variable interpolate : list cell -> list double -> double -> double -> double.

(** The allocator: whether a request for that many bytes is granted. *)
Variable grants : Z -> bool.

(** *** Argument parsing *)

Definition parse_arguments (argc : Z) (argv : list string)
    (cfg : extraction_config) : M (Z * extraction_config) :=
  _ ← enter StValidate;
  if negb (argc =? 7) then
    _ ← fprintf_stderr [Text ("Error: Expected 6 arguments" ++ nl)];
    a0 ← arg argv 0;
    _ ← fprintf_stderr
          [Text "Usage: "; Text a0;
           Text (" <filename> <xmin> <ymin> <xmax> <ymax> <ny>" ++ nl)];
    mret (0, cfg)
  else
    a1 ← arg argv 1;
    a2 ← arg argv 2;
    a3 ← arg argv 3;
    a4 ← arg argv 4;
    a5 ← arg argv 5;
    a6 ← arg argv 6;
    let cfg := set_filename cfg (snprintf 4096 a1) in
    let cfg := set_xmin cfg (atof a2) in
    let cfg := set_ymin cfg (atof a3) in
    let cfg := set_xmax cfg (atof a4) in
    let cfg := set_ymax cfg (atof a5) in
    let cfg := set_ny cfg (atoi a6) in
    if ny cfg <=? 0 then
      _ ← fprintf_stderr [Text ("Error: ny must be positive." ++ nl)];
      mret (0, cfg)
    else if fle (xmax cfg) (xmin cfg) || fle (ymax cfg) (ymin cfg) then
      _ ← fprintf_stderr
            [Text ("Error: Bounds must satisfy xmax>xmin and ymax>ymin."
                   ++ nl)];
      mret (0, cfg)
    else mret (1, cfg).

(** *** Grid configuration *)

Definition configure_grid (cfg : extraction_config)
    : M (Z * extraction_config) :=
  _ ← enter StPlanGrid;
  let cfg :=
    set_Deltay cfg (fdiv (fsub (ymax cfg) (ymin cfg)) (of_int (ny cfg))) in
  n ← cast_int (fdiv (fsub (xmax cfg) (xmin cfg)) (Deltay cfg));
  let cfg := set_nx cfg n in
  if nx cfg <=? 0 then
    _ ← fprintf_stderr
          [Text ("Error: Computed nx <= 0. Check the provided bounds."
                 ++ nl)];
    mret (0, cfg)
  else
    let cfg :=
      set_Deltax cfg (fdiv (fsub (xmax cfg) (xmin cfg)) (of_int (nx cfg))) in
    mret (1, cfg).

(** *** Field registration *)

Definition list_add (l : list scalar) (s : scalar) : list scalar := l ++ [s].

Definition register_fields : M unit :=
  _ ← enter StRegister;
  w ← get;
  _ ← set_field_list (list_add (field_list w) D2c);
  w ← get;
  set_field_list (list_add (field_list w) vel).

(** *** The strain-rate kernel, in one cell *)

Definition D11 (c : cell) : double :=
  fdiv (fsub (u_y c 0 1) (u_y c 0 (-1))) (fmul (of_int 2) (Delta c)).

Definition D22 (c : cell) : double :=
  if fgt (cell_y c) axis_eps then fdiv (u_y c 0 0) (cell_y c) else zero.

Definition D33 (c : cell) : double :=
  fdiv (fsub (u_x c 1 0) (u_x c (-1) 0)) (fmul (of_int 2) (Delta c)).

Definition D13 (c : cell) : double :=
  fmul half
    (fdiv (fsub (fadd (fsub (u_y c 1 0) (u_y c (-1) 0)) (u_x c 0 1))
                (u_x c 0 (-1)))
          (fmul (of_int 2) (Delta c))).

Definition D2 (c : cell) : double :=
  if AXI then
    fadd (fadd (fadd (sq (D11 c)) (sq (D22 c))) (sq (D33 c)))
         (fmul two (sq (D13 c)))
  else
    fadd (fadd (sq (D11 c)) (sq (D33 c))) (fmul two (sq (D13 c))).

Definition mu_r (c : cell) : double :=
  fadd (cell_f c) (fmul (fsub one (cell_f c)) mu_gas).

(** The value left in [target[]] by one iteration of the loop. *)
Definition D2c_cell (c : cell) : double :=
  let target := fmul (mu_r c) (D2 c) in
  if fgt target zero then fdiv (log target) (log (of_int 10))
  else floor_value.

Definition compute_D2c_field (target : scalar) : M unit :=
  w ← get;
  set_values target (map D2c_cell (grid w)).

(** *** The velocity kernel *)

Definition velocity_cell (c : cell) : double :=
  fsqrt (fadd (sq (u_x c 0 0)) (sq (u_y c 0 0))).

Definition compute_velocity_field (target : scalar) : M unit :=
  w ← get;
  set_values target (map velocity_cell (grid w)).

Definition compute_fields : M unit :=
  _ ← enter StCompute;
  _ ← compute_D2c_field D2c;
  compute_velocity_field vel.

(** *** Buffer, sampling, writing *)

(** Modelled from the spec: the allocator behind Basilisk's [qmalloc],
    which is not among the sources.  An allocation that fails is fatal
    (section 5: it aborts immediately, without partial output); the
    process then ends with the status 1 of the other failures. *)
Definition malloc (bytes : Z) : process unit :=
  if grants bytes then mret tt else exit 1.

(** Modelled from the spec: Basilisk's [matrix_new (int n, int p,
    size_t size)], which is not among the sources: [n] row pointers into
    one block of [n*p*size] bytes, the rows [p*size] bytes apart.  The
    product [n*p] is formed in [int], and its product with [size] in
    [size_t]. *)
Definition matrix_new (n p size : Z) : process matrix :=
  _ ← malloc (size_t (n * sizeof_pointer));
  np ← lift (int (n * p));
  let bytes := size_t (np * size) in
  _ ← malloc bytes;
  mret (block n p size bytes).

(** The product [registered_fields*sizeof(double)] is formed in
    [size_t]. *)
Definition allocate_field_buffer (cfg : extraction_config)
    (registered_fields : Z) : process matrix :=
  _ ← lift (enter StAllocate);
  p ← lift (int (ny cfg + 1));
  matrix_new (nx cfg) p (size_t (registered_fields * sizeof_double)).

(** Abscissa and ordinate of the centre of column [i], row [j]. *)
Definition grid_x (cfg : extraction_config) (i : Z) : double :=
  fadd (fmul (Deltax cfg) (fadd (of_int i) (fdiv one (of_int 2))))
       (xmin cfg).

Definition grid_y (cfg : extraction_config) (j : Z) : double :=
  fadd (fmul (Deltay cfg) (fadd (of_int j) (fdiv one (of_int 2))))
       (ymin cfg).

Definition sample_fields (cfg : extraction_config) (field_buffer : matrix)
    (registered_fields : Z) : M matrix :=
  _ ← enter StSample;
  for_each (seqZ 0 (nx cfg)) (fun i field_buffer =>
    let x := grid_x cfg i in
    for_each (seqZ 0 (ny cfg)) (fun j field_buffer =>
      let y := grid_y cfg j in
      w ← get;
      '(field_buffer, _) ←
        for_each (field_list w) (fun s '(field_buffer, k) =>
          fj ← int (registered_fields * j);
          c ← int (fj + k);
          k' ← int (k + 1);
          field_buffer ←
            matrix_store field_buffer i c
              (interpolate (grid w) (values w s) x y);
          mret (field_buffer, k')) (field_buffer, 0);
      mret field_buffer) field_buffer) field_buffer.

(** The stream [fp] is [ferr], that is [stderr]. *)
Definition write_fields (cfg : extraction_config) (field_buffer : matrix)
    (registered_fields : Z) : M unit :=
  _ ← enter StWrite;
  for_each (seqZ 0 (nx cfg)) (fun i (_ : unit) =>
    let x := grid_x cfg i in
    for_each (seqZ 0 (ny cfg)) (fun j (_ : unit) =>
      let y := grid_y cfg j in
      _ ← fprintf_stderr [Num x; Text " "; Num y];
      w ← get;
      _ ← for_each (field_list w) (fun s k =>
          fj ← int (registered_fields * j);
          c ← int (fj + k);
          k' ← int (k + 1);
          v ← matrix_load field_buffer i c;
          _ ← fprintf_stderr [Text " "; Num v];
          mret k') 0;
      fprintf_stderr [Text nl]) tt) tt.

Definition cleanup_output (field_buffer : matrix) : M unit :=
  _ ← enter StFlush;
  _ ← enter StClose;
  enter StRelease.

(** *** Main function *)

Definition restore_snapshot (file : string) : process unit :=
  _ ← lift (enter StRestore);
  match restore file with
  | Some g => lift (set_grid g)
  | None => exit 1
  end.

Definition list_len (l : list scalar) : Z := Z.of_nat (length l).

Definition main (argv : list string) : M Z :=
  finish (
    '(ok, cfg) ← lift (parse_arguments (Z.of_nat (length argv)) argv
                         cfg_uninit);
    if ok =? 0 then mret 1 else
    '(ok, cfg) ← lift (configure_grid cfg);
    if ok =? 0 then mret 1 else
    _ ← lift register_fields;
    _ ← restore_snapshot (filename cfg);
    _ ← lift compute_fields;
    w ← lift get;
    let registered_fields := list_len (field_list w) in
    field ← allocate_field_buffer cfg registered_fields;
    field ← lift (sample_fields cfg field registered_fields);
    _ ← lift (write_fields cfg field registered_fields);
    _ ← lift (cleanup_output field);
    mret 0).

End Pipeline.

(** ** What a run is expected to compute *)

(** The configuration that [parse_arguments] leaves for six arguments. *)
Definition parsed_config (a1 a2 a3 a4 a5 a6 : string) : extraction_config :=
  {| filename := snprintf 4096 a1;
     xmin := atof a2; ymin := atof a3; xmax := atof a4; ymax := atof a5;
     Deltax := Deltax cfg_uninit; Deltay := Deltay cfg_uninit;
     nx := nx cfg_uninit; ny := atoi a6 |}.

(** The quotient whose integral part is [nx]. *)
Definition grid_Deltay (cfg : extraction_config) : double :=
  fdiv (fsub (ymax cfg) (ymin cfg)) (of_int (ny cfg)).

Definition grid_quotient (cfg : extraction_config) : double :=
  fdiv (fsub (xmax cfg) (xmin cfg)) (grid_Deltay cfg).

(** The configuration after [configure_grid] computed [nx = n > 0]. *)
Definition planned_config (cfg : extraction_config) (n : Z)
    : extraction_config :=
  {| filename := filename cfg;
     xmin := xmin cfg; ymin := ymin cfg; xmax := xmax cfg; ymax := ymax cfg;
     Deltax := fdiv (fsub (xmax cfg) (xmin cfg)) (of_int n);
     Deltay := grid_Deltay cfg;
     nx := n; ny := ny cfg |}.

(** The messages. *)
Definition msg_usage (argv0 : string) : list token :=
  [Text ("Error: Expected 6 arguments" ++ nl);
   Text "Usage: "; Text argv0;
   Text (" <filename> <xmin> <ymin> <xmax> <ymax> <ny>" ++ nl)].
Definition msg_ny : list token :=
  [Text ("Error: ny must be positive." ++ nl)].
Definition msg_bounds : list token :=
  [Text ("Error: Bounds must satisfy xmax>xmin and ymax>ymin." ++ nl)].
Definition msg_nx : list token :=
  [Text ("Error: Computed nx <= 0. Check the provided bounds." ++ nl)].

(** A token that no message and no row of numbers can be confused with:
    the end of a line. *)
Definition is_newline (t : token) : bool :=
  match t with
  | Text s => String.eqb s nl
  | Num _ => false
  end.

(** The lines of a stream: [cur] is the line being read, reversed. *)
Fixpoint lines_from (cur : list token) (ts : list token)
    : list (list token) :=
  match ts with
  | [] => match cur with [] => [] | _ => [rev cur] end
  | t :: ts' =>
      if is_newline t then rev cur :: lines_from [] ts'
      else lines_from (t :: cur) ts'
  end.

Definition lines (ts : list token) : list (list token) := lines_from [] ts.

(** The numbers of a line, in order. *)
Definition numbers (l : list token) : list double :=
  omap (fun t => match t with Num d => Some d | Text _ => None end) l.

(** Column [n] of a stream, one entry per line. *)
Definition column (n : nat) (ts : list token) : list (option double) :=
  map (fun l => numbers l !! n) (lines ts).

(** The points of the output grid, [i] outer and [j] inner. *)
Definition grid_points (cfg : extraction_config) : list (Z * Z) :=
  flat_map (fun i => map (fun j => (i, j)) (seqZ 0 (ny cfg)))
           (seqZ 0 (nx cfg)).

(** The columns of the sample buffer that belong to grid row [j], each
    with the field it holds: [registered_fields*j + k] for the [k]-th
    field of the list. *)
Definition slot_columns (registered_fields j : Z) (k0 : Z)
    (fl : list scalar) : list (Z * scalar) :=
  imap (fun t s => (registered_fields * j + (k0 + Z.of_nat t), s)) fl.

(** Assignments [m[i][c] = v], without the monad: an assignment outside
    the matrix is skipped. *)
Definition store1 (b : matrix) (e : Z * Z * double) : matrix :=
  match matrix_slot b e.1.1 e.1.2 with
  | Some p => {| m_rows := m_rows b; m_stride := m_stride b;
                 m_data := <[p := Some e.2]> (m_data b) |}
  | None => b
  end.

Definition store_all (b : matrix) (es : list (Z * Z * double)) : matrix :=
  foldl store1 b es.

(** The content of [m[i][c]], zero when there is none. *)
Definition peek (b : matrix) (i c : Z) : double :=
  match matrix_slot b i c with
  | Some p => match m_data b !! p with
              | Some (Some v) => v
              | _ => zero
              end
  | None => zero
  end.

(** [m[i][c]] holds [v]. *)
Definition holds (b : matrix) (i c : Z) (v : double) : Prop :=
  exists p, matrix_slot b i c = Some p /\ m_data b !! p = Some (Some v).

(** [m[i][c]] exists and was never assigned. *)
Definition unassigned (b : matrix) (i c : Z) : Prop :=
  exists p, matrix_slot b i c = Some p /\ m_data b !! p = Some None.

Section Expected.

Variable interpolate : list cell -> list double -> double -> double -> double.
Variable w : world.
Variable cfg : extraction_config.

(** The value of field [s] at the centre of grid cell [(i, j)]. *)
Definition sample_value (i j : Z) (s : scalar) : double :=
  interpolate (grid w) (values w s) (grid_x cfg i) (grid_y cfg j).

(** The assignments of [sample_fields], in order. *)
Definition sample_writes (registered_fields : Z) : list (Z * Z * double) :=
  flat_map (fun i =>
    flat_map (fun j =>
      map (fun cs => (i, cs.1, sample_value i j cs.2))
          (slot_columns registered_fields j 0 (field_list w)))
      (seqZ 0 (ny cfg)))
    (seqZ 0 (nx cfg)).

(** The accesses of one pass over the buffer, in order. *)
Definition pass_accesses (registered_fields : Z) : list (Z * Z) :=
  flat_map (fun i =>
    flat_map (fun j =>
      map (fun cs => (i, cs.1))
          (slot_columns registered_fields j 0 (field_list w)))
      (seqZ 0 (ny cfg)))
    (seqZ 0 (nx cfg)).

(** What [write_fields] prints for grid cell [(i, j)] from buffer [b]. *)
Definition written_row (b : matrix) (registered_fields : Z) (i j : Z)
    : list token :=
  [Num (grid_x cfg i); Text " "; Num (grid_y cfg j)]
  ++ flat_map (fun cs => [Text " "; Num (peek b i cs.1)])
       (slot_columns registered_fields j 0 (field_list w))
  ++ [Text nl].

Definition written_rows (b : matrix) (registered_fields : Z) : list token :=
  flat_map (fun i =>
    flat_map (fun j => written_row b registered_fields i j)
      (seqZ 0 (ny cfg)))
    (seqZ 0 (nx cfg)).

(** The row of grid cell [(i, j)]: [x y field0 field1 ...] and a line
    feed, each field interpolated at [(x, y)]. *)
Definition output_row (i j : Z) : list token :=
  [Num (grid_x cfg i); Text " "; Num (grid_y cfg j)]
  ++ flat_map (fun s => [Text " "; Num (sample_value i j s)]) (field_list w)
  ++ [Text nl].

Definition output_rows : list token :=
  flat_map (fun p => output_row p.1 p.2) (grid_points cfg).

End Expected.

(** ** A small snapshot to run the program on *)

Definition demo_cell (a b : Z) : cell :=
  {| Delta := half; cell_y := of_int b; cell_f := one;
     u_x := fun i j => of_int (a + i * j);
     u_y := fun i j => of_int (a * i + 3 * j + b) |}.

Definition demo_restore (_ : string) : option (list cell) :=
  Some [demo_cell 1 2; demo_cell 3 0].

(** An allocator that grants every request. *)
Definition demo_grants (_ : Z) : bool := true.

(** A stand-in for [interpolate]: the value in the first cell, shifted by
    the abscissa. *)
Definition demo_interpolate (g : list cell) (vs : list double)
    (x y : double) : double :=
  match vs with
  | v :: _ => fadd v x
  | [] => zero
  end.

(** A stand-in for [log]. *)
Definition demo_log (a : double) : double := fsub a one.

Definition demo_main (axi : bool) (argv : list string)
    : option (Z * world) :=
  main axi demo_log demo_restore demo_interpolate demo_grants argv world0.

(** The world a run ends in; the initial one when it is undefined. *)
Definition final_world (r : option (Z * world)) : world :=
  match r with
  | Some (_, w) => w
  | None => world0
  end.

Definition exit_status (r : option (Z * world)) : option Z :=
  match r with
  | Some (c, _) => Some c
  | None => None
  end.

(** The example of the specification: bounds (0,0,1,2) and [ny = 4]. *)
Definition demo_argv : list string :=
  ["getData"; "snapshot"; "0"; "0"; "1"; "2"; "4"]%string.

(** The message of [parse_arguments] for a configuration it rejects. *)
Definition validation_error (cfg : extraction_config) : option (list token) :=
  if ny cfg <=? 0 then Some msg_ny
  else if fle (xmax cfg) (xmin cfg) || fle (ymax cfg) (ymin cfg)
       then Some msg_bounds
  else None.

Section Run.

Variable AXI : bool.
Variable log : double -> double.
Variable restore : string -> option (list cell).
Variable interpolate : list cell -> list double -> double -> double -> double.
Variable grants : Z -> bool.

(** The cells of the snapshot; none when it cannot be restored. *)
Definition snapshot (file : string) : list cell :=
  match restore file with
  | Some g => g
  | None => []
  end.

(** The world in which a restore that fails ends the run: the fields are
    registered, there is no mesh. *)
Definition registered_world : world :=
  {| stderr := [];
     field_list := [D2c; vel];
     grid := [];
     values := fun _ => [];
     calls := [StValidate; StPlanGrid; StRegister; StRestore];
     touched := [] |}.

(** The world once the fields are registered, the snapshot is restored
    and the kernels have run, for a validated and planned [cfg]. *)
Definition ready_world (cfg : extraction_config) : world :=
  {| stderr := [];
     field_list := [D2c; vel];
     grid := snapshot (filename cfg);
     values := fun s =>
       if decide (s = vel) then map velocity_cell (snapshot (filename cfg))
       else if decide (s = D2c)
            then map (D2c_cell AXI log) (snapshot (filename cfg))
       else [];
     calls := [StValidate; StPlanGrid; StRegister; StRestore; StCompute];
     touched := [] |}.

(** The rest of [main]: allocation, sampling, writing, cleanup. *)
Definition extract (cfg : extraction_config) : M Z :=
  finish (
    field ← allocate_field_buffer grants cfg 2;
    field ← lift (sample_fields interpolate cfg field 2);
    _ ← lift (write_fields cfg field 2);
    _ ← lift (cleanup_output field);
    mret 0).

(** The two requests for the buffer of [cfg] are granted. *)
Definition granted (cfg : extraction_config) : bool :=
  grants (size_t (nx cfg * sizeof_pointer))
  && grants (size_t (nx cfg * (ny cfg + 1) * 16)).

(** The buffer of a run after sampling. *)
Definition sampled_buffer (cfg : extraction_config) : matrix :=
  store_all (matrix_of (nx cfg) (ny cfg + 1) 16)
            (sample_writes interpolate (ready_world cfg) cfg 2).

(** The world a successful run ends in. *)
Definition done_world (cfg : extraction_config) : world :=
  emit (ready_world cfg)
       (written_rows (ready_world cfg) cfg (sampled_buffer cfg) 2)
       (pass_accesses (ready_world cfg) cfg 2
        ++ pass_accesses (ready_world cfg) cfg 2)
       [StAllocate; StSample; StWrite; StFlush; StClose; StRelease].

End Run.

(** [a] is a zero, a finite number or an infinity of sign [s]. *)
Definition signed (s : bool) (a : double) : Prop :=
  match a with
  | S754_zero s' | S754_infinity s' | S754_finite s' _ _ => s' = s
  | S754_nan => False
  end.

(** [strtod] can convert a prefix of [s]. *)
Definition numeric (s : string) : bool :=
  let '(neg, r) := read_sign (skip_space s) in
  match strip_prefix_ci "inf" r, strip_prefix_ci "nan" r,
        strtod_hex neg r, strtod_dec neg r with
  | None, None, None, None => false
  | _, _, _, _ => true
  end.

(** A bound as [parse_arguments] gets it: [atof] gives no sign of a token
    that is not a number. *)
Definition read_bound (s : string) : double :=
  if numeric s then atof s else zero.

(** The configuration of a run that passes validation and planning. *)
Definition run_config (argv : list string) : extraction_config :=
  match argv with
  | [_; a1; a2; a3; a4; a5; a6] =>
      let c := parsed_config a1 a2 a3 a4 a5 a6 in
      match to_int (grid_quotient c) with
      | Some n => planned_config c n
      | None => c
      end
  | _ => cfg_uninit
  end.

(** Command lines and configurations used as examples. *)
Definition nan_argv : list string :=
  ["getData"; "snapshot"; "nan"; "0"; "1"; "1"; "4"]%string.
Definition abc_argv : list string :=
  ["getData"; "snapshot"; "abc"; "0"; "1"; "1"; "2"]%string.
Definition wide_argv : list string :=
  ["getData"; "snapshot"; "0"; "0"; "1e10"; "1"; "1"]%string.
Definition odd_argv : list string :=
  ["getData"; "snapshot"; "0"; "0"; "1"; "1"; "49"]%string.
Definition tall_argv : list string :=
  ["getData"; "snapshot"; "0"; "0"; "1e-9"; "1"; "2147483647"]%string.

(** A grid of one column and [2^30 + 1] rows. *)
Definition tall_cfg : extraction_config :=
  {| filename := "snapshot"; xmin := zero; ymin := zero;
     xmax := one; ymax := one; Deltax := one; Deltay := one;
     nx := 1; ny := 1073741825 |}.

(** A cell whose velocity is not a number. *)
Definition nan_cell : cell :=
  {| Delta := one; cell_y := one; cell_f := one;
     u_x := fun _ _ => S754_nan; u_y := fun _ _ => one |}.

(** A cell that differs from [c] in what the azimuthal term reads: the
    ordinate of the centre and the velocity [u.y[]] at the centre. *)
Definition with_axis (c : cell) (yv uyv : double) : cell :=
  {| Delta := Delta c; cell_y := yv; cell_f := cell_f c; u_x := u_x c;
     u_y := fun i j => if (i =? 0) && (j =? 0) then uyv else u_y c i j |}.

(** [s] begins with a decimal digit. *)
Definition digit_head (s : string) : bool :=
  match s with
  | String c _ => match digit_of c with Some _ => true | None => false end
  | EmptyString => false
  end.

(** A cell in a uniform flow along x. *)
Definition uniform_cell : cell :=
  {| Delta := half; cell_y := one; cell_f := one;
     u_x := fun _ _ => of_int 3; u_y := fun _ _ => zero |}.

(** A stand-in for [log] that is constant. *)
Definition flat_log (_ : double) : double := of_int 3.



(** ** Tactics *)

Ltac unfold_m :=
  unfold mbind, M_bind, mret, M_ret, get, enter, fprintf_stderr, undefined,
    set_field_list, set_grid, set_values in *.

Ltac closed :=
  vm_compute; first [reflexivity | discriminate | intro; discriminate].

(** * Properties *)


Lemma emit_nil w : emit w [] [] [] = w.
Proof. destruct w; unfold emit; simpl; by rewrite !app_nil_r. Qed.

Lemma emit_emit w a b c a' b' c' :
  emit (emit w a b c) a' b' c' = emit w (a ++ a') (b ++ b') (c ++ c').
Proof. unfold emit; simpl; by rewrite !app_assoc. Qed.

Lemma parse_arguments_seven a0 a1 a2 a3 a4 a5 a6 w :
  parse_arguments 7 [a0; a1; a2; a3; a4; a5; a6] cfg_uninit w =
  let c := parsed_config a1 a2 a3 a4 a5 a6 in
  Some (match validation_error c with
        | Some m => ((0, c), emit w m [] [StValidate])
        | None => ((1, c), emit w [] [] [StValidate])
        end).
Proof.
  unfold parse_arguments, validation_error; unfold_m; simpl.
  destruct (atoi a6 <=? 0); simpl.
  - by rewrite emit_emit.
  - destruct (fle (atof a4) (atof a2) || fle (atof a5) (atof a3)); simpl;
      [by rewrite emit_emit | done].
Qed.

Lemma parse_arguments_argc argv cfg w :
  length argv ≠ 7%nat ->
  parse_arguments (Z.of_nat (length argv)) argv cfg w =
  match argv with
  | [] => None
  | a0 :: _ => Some ((0, cfg), emit w (msg_usage a0) [] [StValidate])
  end.
Proof.
  intros Hn. unfold parse_arguments; unfold_m.
  destruct (Z.eqb_spec (Z.of_nat (length argv)) 7) as [E|E]; [lia|]. simpl.
  destruct argv as [|a0 argv]; simpl; [done|].
  by rewrite !emit_emit.
Qed.

Lemma configure_grid_eq cfg w :
  configure_grid cfg w =
  match to_int (grid_quotient cfg) with
  | None => None
  | Some n =>
      if n <=? 0
      then Some ((0, set_nx (set_Deltay cfg (grid_Deltay cfg)) n),
                 emit w msg_nx [] [StPlanGrid])
      else Some ((1, planned_config cfg n), emit w [] [] [StPlanGrid])
  end.
Proof.
  unfold configure_grid, cast_int, grid_quotient; unfold_m; simpl.
  fold (grid_Deltay cfg).
  destruct (to_int _) as [n|]; simpl; [|done].
  destruct (n <=? 0); simpl; [by rewrite emit_emit | done].
Qed.

(** ** Loops *)

Lemma for_each_exact {A S : Type} (w0 : world) (l : list A)
    (body : A -> S -> M S) (next : A -> S -> S)
    (T : A -> list token) (Acc : A -> list (Z * Z)) :
  (forall a s ts acc cs s' w', a ∈ l ->
     body a s (emit w0 ts acc cs) = Some (s', w') ->
     s' = next a s /\ w' = emit w0 (ts ++ T a) (acc ++ Acc a) cs) ->
  forall s ts acc cs s' w',
    for_each l body s (emit w0 ts acc cs) = Some (s', w') ->
    s' = foldl (fun s a => next a s) s l /\
    w' = emit w0 (ts ++ flat_map T l) (acc ++ flat_map Acc l) cs.
Proof.
  induction l as [|a l IH]; intros Hbody s ts acc cs s' w' H; simpl in *.
  - unfold mret, M_ret in H. injection H as <- <-. by rewrite !app_nil_r.
  - unfold mbind, M_bind in H.
    destruct (body a s (emit w0 ts acc cs)) as [[s1 w1]|] eqn:Hb; [|done].
    apply Hbody in Hb as [-> ->]; [|left].
    apply IH in H as [-> ->].
    + by rewrite !app_assoc.
    + intros a' s2 ts2 acc2 cs2 s2' w2' Hin. apply Hbody. by right.
Qed.

Lemma for_each_defined {A S : Type} (w0 : world) (l : list A)
    (body : A -> S -> M S) (next : A -> S -> S)
    (T : A -> list token) (Acc : A -> list (Z * Z)) (P : S -> Prop) :
  (forall a s ts acc cs, a ∈ l -> P s ->
     body a s (emit w0 ts acc cs)
     = Some (next a s, emit w0 (ts ++ T a) (acc ++ Acc a) cs)
     /\ P (next a s)) ->
  forall s ts acc cs, P s ->
    for_each l body s (emit w0 ts acc cs)
    = Some (foldl (fun s a => next a s) s l,
            emit w0 (ts ++ flat_map T l) (acc ++ flat_map Acc l) cs)
    /\ P (foldl (fun s a => next a s) s l).
Proof.
  induction l as [|a l IH]; intros Hbody s ts acc cs HP; simpl.
  - unfold mret, M_ret. by rewrite !app_nil_r.
  - unfold mbind, M_bind.
    destruct (Hbody a s ts acc cs) as [-> HP']; [left | done |].
    destruct (IH (fun a' s' ts' acc' cs' Hin => Hbody a' s' ts' acc' cs'
                    (list_elem_of_further _ _ _ Hin))
                 (next a s) (ts ++ T a) (acc ++ Acc a) cs HP') as [-> HP''].
    by rewrite !app_assoc.
Qed.

(** If the body is undefined at some element whatever the state, so is
    the loop. *)
Lemma for_each_undefined {A S : Type} (l : list A) (body : A -> S -> M S)
    (a : A) :
  a ∈ l -> (forall s w, body a s w = None) ->
  forall s w, for_each l body s w = None.
Proof.
  induction l as [|a' l IH]; intros Hin Hnone s w; [by inversion Hin|].
  simpl. unfold mbind, M_bind.
  apply elem_of_cons in Hin as [<-|Hin].
  - by rewrite Hnone.
  - destruct (body a' s w) as [[s1 w1]|]; [by apply IH | done].
Qed.

(** ** The sample buffer *)

Lemma int_Some z w r : int z w = Some r -> r = (z, w) /\ in_int z = true.
Proof.
  unfold int. destruct (in_int z); unfold_m; [|done].
  by intros [= <-].
Qed.

Lemma int_in z w : in_int z = true -> int z w = Some (z, w).
Proof. unfold int. by intros ->. Qed.

Lemma store1_shape b e :
  m_rows (store1 b e) = m_rows b /\ m_stride (store1 b e) = m_stride b /\
  length (m_data (store1 b e)) = length (m_data b).
Proof.
  unfold store1. destruct (matrix_slot _ _ _); simpl; [|done].
  by rewrite length_insert.
Qed.

Lemma matrix_slot_shape b b' i c :
  m_rows b' = m_rows b -> m_stride b' = m_stride b ->
  length (m_data b') = length (m_data b) ->
  matrix_slot b' i c = matrix_slot b i c.
Proof. unfold matrix_slot. by intros -> -> ->. Qed.

Lemma store_all_shape b es :
  m_rows (store_all b es) = m_rows b /\
  m_stride (store_all b es) = m_stride b /\
  length (m_data (store_all b es)) = length (m_data b).
Proof.
  revert b. induction es as [|e es IH]; intros b; [done|].
  unfold store_all in *. simpl.
  destruct (IH (store1 b e)) as (-> & -> & ->). apply store1_shape.
Qed.

Lemma matrix_slot_store_all b es i c :
  matrix_slot (store_all b es) i c = matrix_slot b i c.
Proof.
  destruct (store_all_shape b es) as (? & ? & ?).
  by apply matrix_slot_shape.
Qed.

Lemma store_all_app b es es' :
  store_all b (es ++ es') = store_all (store_all b es) es'.
Proof. apply foldl_app. Qed.

Lemma foldl_store_all {A} (W : A -> list (Z * Z * double)) l b :
  foldl (fun s a => store_all s (W a)) b l = store_all b (flat_map W l).
Proof.
  revert b. induction l as [|a l IH]; intros b; simpl; [done|].
  by rewrite IH, store_all_app.
Qed.

Lemma matrix_store_Some b i c v w r :
  matrix_store b i c v w = Some r ->
  r = (store1 b (i, c, v), emit w [] [(i, c)] []) /\
  is_Some (matrix_slot b i c).
Proof.
  unfold matrix_store, store1. simpl.
  destruct (matrix_slot b i c); [|done]. intros [= <-]. eauto.
Qed.

Lemma matrix_load_Some b i c w r :
  matrix_load b i c w = Some r ->
  r = (peek b i c, emit w [] [(i, c)] []) /\ holds b i c (peek b i c).
Proof.
  unfold matrix_load, peek, holds.
  destruct (matrix_slot b i c) as [p|]; [|done].
  destruct (m_data b !! p) as [[v|]|] eqn:E; [|done..].
  intros [= <-]. split; [done|]. exists p. by rewrite E.
Qed.

Lemma matrix_load_holds b i c v w :
  holds b i c v -> matrix_load b i c w = Some (v, emit w [] [(i, c)] []).
Proof.
  intros (p & Hp & Hv). unfold matrix_load. by rewrite Hp, Hv.
Qed.

Lemma holds_peek b i c v : holds b i c v -> peek b i c = v.
Proof. intros (p & Hp & Hv). unfold peek. by rewrite Hp, Hv. Qed.

Lemma slot_columns_cons R j k0 s fl :
  slot_columns R j k0 (s :: fl)
  = (R * j + k0, s) :: slot_columns R j (k0 + 1) fl.
Proof.
  unfold slot_columns. simpl. f_equal; [f_equal; lia|].
  apply imap_ext. intros t x _. simpl. f_equal. lia.
Qed.

Lemma length_slot_columns R j k0 fl :
  length (slot_columns R j k0 fl) = length fl.
Proof. unfold slot_columns. by rewrite length_imap. Qed.

Section Loops.

Variable interpolate : list cell -> list double -> double -> double -> double.

Lemma bind_Some {A B} (m : M A) (k : A -> M B) w a w1 :
  m w = Some (a, w1) -> (m ≫= k) w = k a w1.
Proof. unfold mbind, M_bind. by intros ->. Qed.

Lemma flat_map_nil {A B} (l : list A) :
  flat_map (fun _ : A => @nil B) l = [].
Proof. by induction l. Qed.

Lemma sample_inner (w : world) (R i j : Z) (x y : double) fl :
  forall k0 b w1 r w',
  for_each fl (fun s '(field_buffer, k) =>
      fj ← int (R * j);
      c ← int (fj + k);
      k' ← int (k + 1);
      field_buffer ←
        matrix_store field_buffer i c
          (interpolate (grid w) (values w s) x y);
      mret (field_buffer, k')) (b, k0) w1 = Some (r, w') ->
  r = (store_all b
         (map (fun cs => (i, cs.1, interpolate (grid w) (values w cs.2) x y))
              (slot_columns R j k0 fl)),
       k0 + Z.of_nat (length fl)) /\
  w' = emit w1 [] (map (fun cs => (i, cs.1)) (slot_columns R j k0 fl)) [].
Proof.
  induction fl as [|s fl IH]; intros k0 b w1 r w' H.
  - simpl in H. unfold_m. injection H as <- <-. simpl.
    rewrite emit_nil. split; [f_equal; lia | done].
  - rewrite slot_columns_cons. simpl in H.
    unfold mbind at 1, M_bind at 1 in H.
    match type of H with
    | match ?m with _ => _ end = _ => destruct m as [[[b1 k1] w2]|] eqn:Hb
    end; [|done].
    unfold mbind, M_bind in Hb.
    destruct (int (R * j) w1) as [[fj w3]|] eqn:H1; [|done].
    apply int_Some in H1 as [[= -> ->] _].
    destruct (int (R * j + k0) w1) as [[c w3]|] eqn:H2; [|done].
    apply int_Some in H2 as [[= -> ->] _].
    destruct (int (k0 + 1) w1) as [[k' w3]|] eqn:H3; [|done].
    apply int_Some in H3 as [[= -> ->] _].
    destruct (matrix_store b i (R * j + k0) _ w1) as [[b2 w3]|] eqn:H4;
      [|done].
    apply matrix_store_Some in H4 as [[= -> ->] _].
    unfold mret, M_ret in Hb. injection Hb as <- <- <-.
    apply IH in H as [-> ->]. simpl. rewrite emit_emit. simpl.
    split; [f_equal; lia | done].
Qed.

Lemma sample_inner_defined (w : world) (R i j : Z) (x y : double) fl :
  in_int (R * j) = true ->
  forall k0 b w1,
  (forall t, 0 <= t < Z.of_nat (length fl) ->
     in_int (R * j + (k0 + t)) = true /\ in_int (k0 + t + 1) = true /\
     is_Some (matrix_slot b i (R * j + (k0 + t)))) ->
  for_each fl (fun s '(field_buffer, k) =>
      fj ← int (R * j);
      c ← int (fj + k);
      k' ← int (k + 1);
      field_buffer ←
        matrix_store field_buffer i c
          (interpolate (grid w) (values w s) x y);
      mret (field_buffer, k')) (b, k0) w1
  = Some ((store_all b
             (map (fun cs =>
                     (i, cs.1, interpolate (grid w) (values w cs.2) x y))
                  (slot_columns R j k0 fl)),
           k0 + Z.of_nat (length fl)),
          emit w1 [] (map (fun cs => (i, cs.1)) (slot_columns R j k0 fl)) []).
Proof.
  intros HRj. induction fl as [|s fl IH]; intros k0 b w1 Hok.
  - simpl. unfold_m. rewrite emit_nil. do 3 f_equal. lia.
  - rewrite slot_columns_cons. simpl.
    destruct (Hok 0) as (Hc & Hk & [p Hp]); [simpl; lia|].
    rewrite Z.add_0_r in Hc, Hp. rewrite Z.add_0_r in Hk.
    erewrite bind_Some; cycle 1.
    { erewrite bind_Some by (by apply int_in).
      erewrite bind_Some by (by apply int_in).
      erewrite bind_Some by (by apply int_in).
      unfold matrix_store, mbind, M_bind. rewrite Hp. reflexivity. }
    rewrite IH.
    + rewrite emit_emit. simpl. unfold store1. simpl. rewrite Hp.
      do 3 f_equal. lia.
    + intros t Ht. destruct (Hok (t + 1)) as (? & ? & ?);
        [simpl length; lia|].
      replace (k0 + 1 + t) with (k0 + (t + 1)) by lia.
      split_and!; [done | done |].
      erewrite matrix_slot_shape; [done | done | done |].
      simpl. by rewrite length_insert.
Qed.

Lemma write_inner (b : matrix) (R i j : Z) fl :
  forall k0 w1 r w',
  for_each fl (fun (s : scalar) k =>
      fj ← int (R * j);
      c ← int (fj + k);
      k' ← int (k + 1);
      v ← matrix_load b i c;
      _ ← fprintf_stderr [Text " "; Num v];
      mret k') k0 w1 = Some (r, w') ->
  r = k0 + Z.of_nat (length fl) /\
  w' = emit w1
         (flat_map (fun cs => [Text " "; Num (peek b i cs.1)])
                   (slot_columns R j k0 fl))
         (map (fun cs => (i, cs.1)) (slot_columns R j k0 fl)) [].
Proof.
  induction fl as [|s fl IH]; intros k0 w1 r w' H.
  - simpl in H. unfold_m. injection H as <- <-. simpl.
    rewrite emit_nil. split; [lia | done].
  - rewrite slot_columns_cons. simpl in H.
    unfold mbind at 1, M_bind at 1 in H.
    match type of H with
    | match ?m with _ => _ end = _ => destruct m as [[k1 w2]|] eqn:Hb
    end; [|done].
    unfold mbind, M_bind in Hb.
    destruct (int (R * j) w1) as [[fj w3]|] eqn:H1; [|done].
    apply int_Some in H1 as [[= -> ->] _].
    destruct (int (R * j + k0) w1) as [[c w3]|] eqn:H2; [|done].
    apply int_Some in H2 as [[= -> ->] _].
    destruct (int (k0 + 1) w1) as [[k' w3]|] eqn:H3; [|done].
    apply int_Some in H3 as [[= -> ->] _].
    destruct (matrix_load b i (R * j + k0) w1) as [[v w3]|] eqn:H4; [|done].
    apply matrix_load_Some in H4 as [[= -> ->] _].
    unfold fprintf_stderr, mret, M_ret in Hb. injection Hb as <- <-.
    apply IH in H as [-> ->]. simpl. rewrite !emit_emit. simpl.
    split; [lia | done].
Qed.

Lemma write_inner_defined (b : matrix) (R i j : Z) fl :
  in_int (R * j) = true ->
  forall k0 w1,
  (forall t, 0 <= t < Z.of_nat (length fl) ->
     in_int (R * j + (k0 + t)) = true /\ in_int (k0 + t + 1) = true /\
     exists v, holds b i (R * j + (k0 + t)) v) ->
  for_each fl (fun (s : scalar) k =>
      fj ← int (R * j);
      c ← int (fj + k);
      k' ← int (k + 1);
      v ← matrix_load b i c;
      _ ← fprintf_stderr [Text " "; Num v];
      mret k') k0 w1
  = Some (k0 + Z.of_nat (length fl),
          emit w1
            (flat_map (fun cs => [Text " "; Num (peek b i cs.1)])
                      (slot_columns R j k0 fl))
            (map (fun cs => (i, cs.1)) (slot_columns R j k0 fl)) []).
Proof.
  intros HRj. induction fl as [|s fl IH]; intros k0 w1 Hok.
  - simpl. unfold_m. rewrite emit_nil. do 2 f_equal. lia.
  - rewrite slot_columns_cons. simpl.
    destruct (Hok 0) as (Hc & Hk & [v Hv]); [simpl; lia|].
    rewrite Z.add_0_r in Hc, Hv. rewrite Z.add_0_r in Hk.
    erewrite bind_Some; cycle 1.
    { erewrite bind_Some by (by apply int_in).
      erewrite bind_Some by (by apply int_in).
      erewrite bind_Some by (by apply int_in).
      erewrite bind_Some by (by apply matrix_load_holds).
      reflexivity. }
    rewrite IH.
    + rewrite !emit_emit. simpl. rewrite (holds_peek _ _ _ _ Hv).
      do 2 f_equal. lia.
    + intros t Ht. destruct (Hok (t + 1)) as (? & ? & ?);
        [simpl length; lia|].
      by replace (k0 + 1 + t) with (k0 + (t + 1)) by lia.
Qed.

End Loops.

Section Passes.

Variable interpolate : list cell -> list double -> double -> double -> double.

Lemma sample_fields_exact cfg b R w b' w' :
  sample_fields interpolate cfg b R w = Some (b', w') ->
  b' = store_all b (sample_writes interpolate w cfg R) /\
  w' = emit w [] (pass_accesses w cfg R) [StSample].
Proof.
  unfold sample_fields. unfold mbind at 1, M_bind at 1, enter. intros H.
  eapply (for_each_exact w _ _
            (fun i s => store_all s
               (flat_map (fun j =>
                  map (fun cs => (i, cs.1, sample_value interpolate w cfg i j cs.2))
                      (slot_columns R j 0 (field_list w)))
                  (seqZ 0 (ny cfg))))
            (fun _ => [])
            (fun i => flat_map (fun j =>
                  map (fun cs => (i, cs.1))
                      (slot_columns R j 0 (field_list w)))
                  (seqZ 0 (ny cfg)))) in H.
  - destruct H as [-> ->]. rewrite flat_map_nil. simpl.
    by rewrite foldl_store_all.
  - clear. intros i s ts acc cs s' w' _ H.
    eapply (for_each_exact w _ _
              (fun j s => store_all s
                 (map (fun cs => (i, cs.1, sample_value interpolate w cfg i j cs.2))
                      (slot_columns R j 0 (field_list w))))
              (fun _ => [])
              (fun j => map (fun cs => (i, cs.1))
                            (slot_columns R j 0 (field_list w)))) in H.
    + destruct H as [-> ->]. rewrite flat_map_nil, app_nil_r.
      by rewrite foldl_store_all.
    + clear. intros j s ts acc cs s' w' _ H.
      unfold mbind at 1, M_bind at 1, get in H.
      unfold mbind at 1, M_bind at 1 in H. simpl in H.
      match type of H with
      | match ?m with _ => _ end = _ =>
          destruct m as [[[b1 k1] w2]|] eqn:Hb
      end; [|done].
      apply sample_inner in Hb as [[= -> ->] ->].
      unfold mret, M_ret in H. injection H as <- <-.
      rewrite emit_emit, !app_nil_r. done.
Qed.

Lemma write_fields_exact cfg b R w r w' :
  write_fields cfg b R w = Some (r, w') ->
  w' = emit w (written_rows w cfg b R) (pass_accesses w cfg R) [StWrite].
Proof.
  unfold write_fields. unfold mbind at 1, M_bind at 1, enter. intros H.
  eapply (for_each_exact w _ _ (fun _ s => s)
            (fun i => flat_map (fun j => written_row w cfg b R i j)
                               (seqZ 0 (ny cfg)))
            (fun i => flat_map (fun j =>
                  map (fun cs => (i, cs.1))
                      (slot_columns R j 0 (field_list w)))
                  (seqZ 0 (ny cfg)))) in H.
  - by destruct H as [_ ->].
  - clear. intros i s ts acc cs s' w' _ H.
    eapply (for_each_exact w _ _ (fun _ s => s)
              (fun j => written_row w cfg b R i j)
              (fun j => map (fun cs => (i, cs.1))
                            (slot_columns R j 0 (field_list w)))) in H.
    + destruct H as [-> ->]. split; [|done].
      by destruct (foldl _ _ _), s.
    + clear. intros j [] ts acc cs s' w' _ H.
      unfold mbind at 1, M_bind at 1, fprintf_stderr at 1 in H.
      unfold mbind at 1, M_bind at 1, get in H.
      unfold mbind at 1, M_bind at 1 in H. simpl in H.
      match type of H with
      | match ?m with _ => _ end = _ => destruct m as [[k1 w2]|] eqn:Hb
      end; [|done].
      apply write_inner in Hb as [-> ->].
      unfold fprintf_stderr in H. injection H as <- <-.
      rewrite !emit_emit, !app_nil_r. split; [done|].
      unfold written_row. simpl. by rewrite <- ?app_assoc.
Qed.

Lemma sample_fields_defined cfg b R w :
  (forall i j t, 0 <= i < nx cfg -> 0 <= j < ny cfg ->
     0 <= t < Z.of_nat (length (field_list w)) ->
     in_int (R * j) = true /\ in_int (R * j + t) = true /\
     in_int (t + 1) = true /\ is_Some (matrix_slot b i (R * j + t))) ->
  field_list w <> [] ->
  sample_fields interpolate cfg b R w
  = Some (store_all b (sample_writes interpolate w cfg R),
          emit w [] (pass_accesses w cfg R) [StSample]).
Proof.
  intros Hok Hne. unfold sample_fields.
  unfold mbind at 1, M_bind at 1, enter.
  set (P := fun s : matrix => forall i c, matrix_slot s i c = matrix_slot b i c).
  lazymatch goal with
  | |- for_each ?l ?body _ _ = _ =>
      destruct (for_each_defined w l body
            (fun i s => store_all s
               (flat_map (fun j =>
                  map (fun cs => (i, cs.1, sample_value interpolate w cfg i j cs.2))
                      (slot_columns R j 0 (field_list w)))
                  (seqZ 0 (ny cfg))))
            (fun _ => [])
            (fun i => flat_map (fun j =>
                  map (fun cs => (i, cs.1))
                      (slot_columns R j 0 (field_list w)))
                  (seqZ 0 (ny cfg))) P) with (s := b) (ts := @nil token)
            (acc := @nil (Z * Z)) (cs := [StSample]) as [-> _]
  end.
  - intros i s ts acc cs Hi HP. apply elem_of_seqZ in Hi.
    lazymatch goal with
    | |- for_each ?l ?body _ _ = _ /\ _ =>
        destruct (for_each_defined w l body
              (fun j s => store_all s
                 (map (fun cs => (i, cs.1, sample_value interpolate w cfg i j cs.2))
                      (slot_columns R j 0 (field_list w))))
              (fun _ => [])
              (fun j => map (fun cs => (i, cs.1))
                            (slot_columns R j 0 (field_list w))) P)
          with (s := s) (ts := ts) (acc := acc) (cs := cs) as [-> HP']
    end.
    + intros j s1 ts1 acc1 cs1 Hj HP1. apply elem_of_seqZ in Hj.
      unfold mbind at 1, M_bind at 1, get.
      erewrite bind_Some; cycle 1.
      { simpl. apply sample_inner_defined.
        - destruct (field_list w) as [|s0 fl] eqn:E; [done|].
          destruct (Hok i j 0) as (? & _); [lia.. | simpl; lia | done].
        - intros t Ht. rewrite HP1. rewrite Z.add_0_l.
          destruct (Hok i j t) as (? & ? & ? & ?); [lia.. | done]. }
      unfold mret, M_ret. rewrite emit_emit, !app_nil_r. split; [done|].
      intros i' c'. by rewrite matrix_slot_store_all.
    + done.
    + rewrite flat_map_nil, app_nil_r, foldl_store_all. split; [done|].
      intros i' c'. by rewrite matrix_slot_store_all.
  - done.
  - rewrite flat_map_nil. simpl. by rewrite foldl_store_all.
Qed.

Lemma write_fields_defined cfg b R w :
  (forall i j t, 0 <= i < nx cfg -> 0 <= j < ny cfg ->
     0 <= t < Z.of_nat (length (field_list w)) ->
     in_int (R * j) = true /\ in_int (R * j + t) = true /\
     in_int (t + 1) = true /\ exists v, holds b i (R * j + t) v) ->
  field_list w <> [] ->
  write_fields cfg b R w
  = Some (tt, emit w (written_rows w cfg b R) (pass_accesses w cfg R)
                [StWrite]).
Proof.
  intros Hok Hne. unfold write_fields.
  unfold mbind at 1, M_bind at 1, enter.
  lazymatch goal with
  | |- for_each ?l ?body _ _ = _ =>
      destruct (for_each_defined w l body (fun _ s => s)
            (fun i => flat_map (fun j => written_row w cfg b R i j)
                               (seqZ 0 (ny cfg)))
            (fun i => flat_map (fun j =>
                  map (fun cs => (i, cs.1))
                      (slot_columns R j 0 (field_list w)))
                  (seqZ 0 (ny cfg))) (fun _ => True)) with (s := tt)
            (ts := @nil token) (acc := @nil (Z * Z)) (cs := [StWrite])
        as [-> _]
  end.
  - intros i s ts acc cs Hi _. apply elem_of_seqZ in Hi. split; [|done].
    destruct s. cbv beta zeta.
    lazymatch goal with
    | |- for_each ?l ?body _ _ = _ =>
        destruct (for_each_defined w l body (fun _ s => s)
              (fun j => written_row w cfg b R i j)
              (fun j => map (fun cs => (i, cs.1))
                            (slot_columns R j 0 (field_list w)))
              (fun _ => True))
          with (s := tt) (ts := ts) (acc := acc) (cs := cs) as [-> _]
    end.
    + intros j [] ts1 acc1 cs1 Hj _. apply elem_of_seqZ in Hj.
      split; [|done].
      unfold mbind at 1, M_bind at 1, fprintf_stderr at 1.
      unfold mbind at 1, M_bind at 1, get.
      erewrite bind_Some; cycle 1.
      { simpl. apply write_inner_defined.
        - destruct (field_list w) as [|s0 fl] eqn:E; [done|].
          destruct (Hok i j 0) as (? & _); [lia.. | simpl; lia | done].
        - intros t Ht. rewrite Z.add_0_l.
          destruct (Hok i j t) as (? & ? & ? & ?); [lia.. | done]. }
      unfold fprintf_stderr. rewrite !emit_emit, !app_nil_r.
      unfold written_row. simpl. by rewrite <- ?app_assoc.
    + done.
    + by destruct (foldl _ _ _).
  - done.
  - by destruct (foldl _ _ _).
Qed.

End Passes.

(** ** Content of the buffer after a sequence of assignments *)

Lemma store_all_snoc b es e :
  store_all b (es ++ [e]) = store1 (store_all b es) e.
Proof. unfold store_all. by rewrite foldl_app. Qed.

Lemma store_all_untouched b es p :
  (forall e, e ∈ es -> matrix_slot b e.1.1 e.1.2 <> Some p) ->
  m_data (store_all b es) !! p = m_data b !! p.
Proof.
  induction es as [|e es IH] using rev_ind; intros Hne; [done|].
  rewrite store_all_snoc. unfold store1.
  rewrite matrix_slot_store_all.
  destruct (matrix_slot b e.1.1 e.1.2) as [q|] eqn:Hq; simpl.
  - rewrite list_lookup_insert_ne.
    + apply IH. intros e' He'. apply Hne, elem_of_app. by left.
    + intros ->. eapply Hne; [|done]. apply elem_of_app. right. by left.
  - apply IH. intros e' He'. apply Hne, elem_of_app. by left.
Qed.

Lemma store_all_holds b es :
  (forall e, e ∈ es -> is_Some (matrix_slot b e.1.1 e.1.2)) ->
  (forall e e', e ∈ es -> e' ∈ es ->
     matrix_slot b e.1.1 e.1.2 = matrix_slot b e'.1.1 e'.1.2 ->
     e.2 = e'.2) ->
  forall e, e ∈ es -> holds (store_all b es) e.1.1 e.1.2 e.2.
Proof.
  induction es as [|x es IH] using rev_ind; intros Hdef Hcons e He;
    [by inversion He|].
  rewrite store_all_snoc. unfold holds.
  destruct (store1_shape (store_all b es) x) as (S1 & S2 & S3).
  rewrite (matrix_slot_shape _ _ _ _ S1 S2 S3), matrix_slot_store_all.
  clear S1 S2 S3. unfold store1. rewrite matrix_slot_store_all.
  destruct (Hdef x) as [q Hq]; [apply elem_of_app; right; by left|].
  rewrite Hq. simpl.
  assert (Hlen : (q < length (m_data (store_all b es)))%nat).
  { destruct (store_all_shape b es) as (_ & _ & ->).
    unfold matrix_slot in Hq.
    destruct (_ && _) eqn:E in Hq; [|done]. injection Hq as <-.
    apply andb_prop in E as [E1 E2]. apply andb_prop in E1 as [E1 E3].
    apply Z.ltb_lt in E2. apply Z.leb_le in E3. lia. }
  destruct (Hdef e He) as [p Hp]. exists p. split; [done|].
  destruct (decide (p = q)) as [->|Hpq].
  - rewrite list_lookup_insert_eq by done.
    do 2 f_equal. symmetry. apply Hcons; [done | | congruence].
    apply elem_of_app. right. by left.
  - rewrite list_lookup_insert_ne by done.
    apply elem_of_app in He as [He|He].
    + destruct (IH (fun e' H' => Hdef e' (proj2 (elem_of_app _ _ _) (or_introl H')))
                   (fun e1 e2 H1 H2 => Hcons e1 e2
                      (proj2 (elem_of_app _ _ _) (or_introl H1))
                      (proj2 (elem_of_app _ _ _) (or_introl H2)))
                   e He) as (p' & Hp' & Hv).
      rewrite matrix_slot_store_all in Hp'. congruence.
    + apply list_elem_of_singleton in He as ->. congruence.
Qed.

(** ** Positions *)

Lemma matrix_of_slot n p size i c :
  0 <= i < n -> 0 <= c < p * (size / 8) ->
  matrix_slot (matrix_of n p size) i c
  = Some (Z.to_nat (i * (p * (size / 8)) + c)).
Proof.
  intros Hi Hc. unfold matrix_slot, matrix_of. simpl.
  rewrite length_replicate.
  assert (0 <= i * (p * (size / 8)) + c < n * (p * (size / 8))) by nia.
  rewrite Z2Nat.id by lia.
  replace (0 <=? i) with true by (symmetry; apply Z.leb_le; lia).
  replace (i <? n) with true by (symmetry; apply Z.ltb_lt; lia).
  replace (0 <=? _) with true by (symmetry; apply Z.leb_le; lia).
  replace (_ <? _) with true by (symmetry; apply Z.ltb_lt; lia).
  done.
Qed.

Lemma position_inj stride i c i' c' :
  0 <= c < stride -> 0 <= c' < stride ->
  i * stride + c = i' * stride + c' -> i = i' /\ c = c'.
Proof. intros Hc Hc' E. assert (i = i') by nia. subst. lia. Qed.

Lemma elem_of_flat_map {A B} (f : A -> list B) (l : list A) (b : B) :
  b ∈ flat_map f l <-> exists a, a ∈ l /\ b ∈ f a.
Proof.
  rewrite list_elem_of_In, in_flat_map.
  split; intros (a & Ha & Hb); exists a.
  - by rewrite !list_elem_of_In.
  - by rewrite <- !list_elem_of_In.
Qed.

Lemma elem_of_slot_columns R j k0 fl c s :
  (c, s) ∈ slot_columns R j k0 fl <->
  exists t : nat, fl !! t = Some s /\ c = R * j + (k0 + Z.of_nat t).
Proof.
  unfold slot_columns. rewrite elem_of_lookup_imap.
  split.
  - intros (t & s' & [= -> ->] & H). eauto.
  - intros (t & H & ->). eauto.
Qed.

Section Content.

Variable interpolate : list cell -> list double -> double -> double -> double.

Lemma elem_of_sample_writes w cfg R e :
  e ∈ sample_writes interpolate w cfg R <->
  exists i j (t : nat) s,
    0 <= i < nx cfg /\ 0 <= j < ny cfg /\ field_list w !! t = Some s /\
    e = (i, R * j + Z.of_nat t, sample_value interpolate w cfg i j s).
Proof.
  unfold sample_writes. rewrite elem_of_flat_map. split.
  - intros (i & Hi & He). apply elem_of_flat_map in He as (j & Hj & He).
    apply list_elem_of_fmap in He as ([c s] & -> & Hcs).
    apply elem_of_slot_columns in Hcs as (t & Ht & ->).
    apply elem_of_seqZ in Hi, Hj. exists i, j, t, s. simpl.
    split_and!; try lia; try done.
  - intros (i & j & t & s & Hi & Hj & Ht & ->).
    exists i. split; [apply elem_of_seqZ; lia|].
    apply elem_of_flat_map. exists j. split; [apply elem_of_seqZ; lia|].
    apply list_elem_of_fmap. exists (R * j + Z.of_nat t, s). split; [done|].
    apply elem_of_slot_columns. eauto.
Qed.

(** After sampling into a fresh matrix with [ny + 1] slots of
    [length (field_list w)] values in each of [nx] rows, the slot of grid
    cell [(i, j)] and field [t] holds the interpolated value. *)
Lemma sampled_holds w cfg size (i j : Z) (t : nat) s :
  let R := Z.of_nat (length (field_list w)) in
  size / 8 = R ->
  0 <= i < nx cfg -> 0 <= j < ny cfg -> field_list w !! t = Some s ->
  holds (store_all (matrix_of (nx cfg) (ny cfg + 1) size)
                   (sample_writes interpolate w cfg R))
        i (R * j + Z.of_nat t) (sample_value interpolate w cfg i j s).
Proof.
  intros R Hsize Hi Hj Ht.
  set (b := matrix_of (nx cfg) (ny cfg + 1) size).
  assert (Hslot : forall i' j' (t' : nat) s',
            0 <= i' < nx cfg -> 0 <= j' < ny cfg ->
            field_list w !! t' = Some s' ->
            0 <= R * j' + Z.of_nat t' < (ny cfg + 1) * R /\
            matrix_slot b i' (R * j' + Z.of_nat t')
            = Some (Z.to_nat (i' * ((ny cfg + 1) * R)
                              + (R * j' + Z.of_nat t')))).
  { intros i' j' t' s' Hi' Hj' Ht'. apply lookup_lt_Some in Ht'.
    assert (0 <= R * j' + Z.of_nat t' < (ny cfg + 1) * R) by (unfold R; nia).
    split; [done|]. unfold b. rewrite matrix_of_slot; rewrite ?Hsize; done. }
  apply (store_all_holds b _) with
    (e := (i, R * j + Z.of_nat t, sample_value interpolate w cfg i j s)).
  - intros e He. apply elem_of_sample_writes in He
      as (i' & j' & t' & s' & Hi' & Hj' & Ht' & ->). simpl.
    destruct (Hslot i' j' t' s') as [_ ->]; done.
  - intros e e' He He'.
    apply elem_of_sample_writes in He
      as (i1 & j1 & t1 & s1 & Hi1 & Hj1 & Ht1 & ->).
    apply elem_of_sample_writes in He'
      as (i2 & j2 & t2 & s2 & Hi2 & Hj2 & Ht2 & ->). simpl.
    destruct (Hslot i1 j1 t1 s1) as [Hc1 ->]; [done..|].
    destruct (Hslot i2 j2 t2 s2) as [Hc2 ->]; [done..|].
    intros [= E]. apply Z2Nat.inj in E; [|nia..].
    apply position_inj in E as [-> E]; [|done..].
    pose proof (lookup_lt_Some _ _ _ Ht1). pose proof (lookup_lt_Some _ _ _ Ht2).
    assert (j1 = j2) by (unfold R in *; nia). subst j2.
    assert (t1 = t2) by lia. subst t2. congruence.
  - apply elem_of_sample_writes. exists i, j, t, s. done.
Qed.

(** The extra slot of every row is left as allocated. *)
Lemma sampled_unassigned w cfg size (i : Z) (t : nat) :
  let R := Z.of_nat (length (field_list w)) in
  size / 8 = R ->
  0 <= i < nx cfg -> 0 <= ny cfg -> (t < length (field_list w))%nat ->
  unassigned (store_all (matrix_of (nx cfg) (ny cfg + 1) size)
                        (sample_writes interpolate w cfg R))
             i (R * ny cfg + Z.of_nat t).
Proof.
  intros R Hsize Hi Hny Ht.
  set (b := matrix_of (nx cfg) (ny cfg + 1) size).
  assert (Hc : 0 <= R * ny cfg + Z.of_nat t < (ny cfg + 1) * R)
    by (unfold R; nia).
  exists (Z.to_nat (i * ((ny cfg + 1) * R) + (R * ny cfg + Z.of_nat t))).
  rewrite matrix_slot_store_all. unfold b.
  rewrite matrix_of_slot by (rewrite ?Hsize; done). rewrite Hsize.
  split; [done|].
  rewrite store_all_untouched.
  - simpl. rewrite Hsize. apply lookup_replicate_2. nia.
  - intros e He. apply elem_of_sample_writes in He
      as (i' & j' & t' & s' & Hi' & Hj' & Ht' & ->). simpl.
    apply lookup_lt_Some in Ht'.
    assert (0 <= R * j' + Z.of_nat t' < (ny cfg + 1) * R) by (unfold R; nia).
    rewrite matrix_of_slot by (rewrite ?Hsize; done). rewrite Hsize.
    intros [= E]. apply Z2Nat.inj in E; [|nia..].
    apply position_inj in E as [-> E]; [|done..].
    unfold R in *. nia.
Qed.

End Content.

(** ** Running a process *)

Lemma run_bind {A B} (m : process A) (k : A -> process B) w :
  run (m ≫= k) w =
  match run m w with
  | Some (Returned a, w') => run (k a) w'
  | Some (Exited c, w') => Some (Exited c, w')
  | None => None
  end.
Proof. reflexivity. Qed.

Lemma run_lift {A} (m : M A) w :
  run (lift m) w =
  match m w with
  | Some (a, w') => Some (Returned a, w')
  | None => None
  end.
Proof. reflexivity. Qed.

Lemma run_ret {A} (a : A) w : run (mret a) w = Some (Returned a, w).
Proof. reflexivity. Qed.

Lemma run_exit {A} c w : run (@exit A c) w = Some (Exited c, w).
Proof. reflexivity. Qed.

(** No wrap: the block has the room of [n] rows. *)
Lemma block_matrix_of n p size :
  0 <= n * p * size < 2 ^ 64 -> (8 | size) ->
  block n p size (size_t (n * p * size)) = matrix_of n p size.
Proof.
  intros Hb [q ->]. unfold block, matrix_of, size_t.
  rewrite Z.mod_small by done. do 3 f_equal.
  rewrite Z.div_mul by lia.
  replace (n * p * (q * 8)) with (n * (p * q) * 8) by lia.
  by rewrite Z.div_mul by lia.
Qed.

Section MainProps.

Variable AXI : bool.
Variable log : double -> double.
Variable restore : string -> option (list cell).
Variable interpolate : list cell -> list double -> double -> double -> double.
Variable grants : Z -> bool.


(** [allocate_field_buffer], case by case: the sum and the product in
    [int], and the two requests. *)
Lemma allocate_field_buffer_eq cfg R w :
  run (allocate_field_buffer grants cfg R) w =
  if in_int (ny cfg + 1) then
    if grants (size_t (nx cfg * sizeof_pointer)) then
      if in_int (nx cfg * (ny cfg + 1)) then
        if grants (size_t (nx cfg * (ny cfg + 1)
                           * size_t (R * sizeof_double)))
        then Some (Returned
                     (block (nx cfg) (ny cfg + 1) (size_t (R * sizeof_double))
                        (size_t (nx cfg * (ny cfg + 1)
                                 * size_t (R * sizeof_double)))),
                   emit w [] [] [StAllocate])
        else Some (Exited 1, emit w [] [] [StAllocate])
      else None
    else Some (Exited 1, emit w [] [] [StAllocate])
  else None.
Proof.
  unfold allocate_field_buffer, matrix_new, malloc, int.
  rewrite !run_bind, run_lift. unfold enter. cbv iota beta.
  rewrite run_bind, run_lift.
  destruct (in_int (ny cfg + 1)); [|done]. unfold mret at 1, M_ret at 1.
  cbv iota beta. rewrite run_bind.
  destruct (grants (size_t _)); [|done]. rewrite run_ret. cbv iota beta.
  rewrite run_bind, run_lift.
  destruct (in_int (nx cfg * _)); [|done]. unfold mret at 1, M_ret at 1.
  cbv iota beta zeta. rewrite run_bind.
  destruct (grants (size_t _)); done.
Qed.

(** [main] on seven arguments, case by case. *)
Lemma main_seven a0 a1 a2 a3 a4 a5 a6 :
  main AXI log restore interpolate grants [a0; a1; a2; a3; a4; a5; a6] world0 =
  let c := parsed_config a1 a2 a3 a4 a5 a6 in
  match validation_error c with
  | Some m => Some (1, emit world0 m [] [StValidate])
  | None =>
      match to_int (grid_quotient c) with
      | None => None
      | Some n =>
          if n <=? 0
          then Some (1, emit world0 msg_nx [] [StValidate; StPlanGrid])
          else
            match restore (filename c) with
            | None => Some (1, registered_world)
            | Some _ =>
                extract interpolate grants (planned_config c n)
                        (ready_world AXI log restore (planned_config c n))
            end
      end
  end.
Proof.
  unfold main, finish.
  change (Z.of_nat (length [a0; a1; a2; a3; a4; a5; a6])) with 7.
  rewrite run_bind, run_lift, parse_arguments_seven. cbv zeta.
  destruct (validation_error _) as [m|]; [done|].
  cbv iota beta. change (1 =? 0) with false. cbv iota.
  rewrite run_bind, run_lift, configure_grid_eq.
  destruct (to_int _) as [n|]; [|done].
  destruct (n <=? 0) eqn:Hn; [by rewrite emit_emit|].
  cbv iota beta. change (1 =? 0) with false. cbv iota.
  unfold restore_snapshot, extract, finish, ready_world, snapshot.
  change (filename (planned_config (parsed_config a1 a2 a3 a4 a5 a6) n))
    with (filename (parsed_config a1 a2 a3 a4 a5 a6)).
  destruct (restore _) as [g|]; reflexivity.
Qed.

Lemma main_argc argv :
  length argv ≠ 7%nat ->
  main AXI log restore interpolate grants argv world0 =
  match argv with
  | [] => None
  | a0 :: _ => Some (1, emit world0 (msg_usage a0) [] [StValidate])
  end.
Proof.
  intros Hn. unfold main, finish. rewrite run_bind, run_lift.
  rewrite parse_arguments_argc by done.
  by destruct argv.
Qed.

End MainProps.

(** ** Lists of rows *)

Lemma flat_map_ext_elem {A B} (f g : A -> list B) (l : list A) :
  (forall a, a ∈ l -> f a = g a) -> flat_map f l = flat_map g l.
Proof.
  induction l as [|a l IH]; intros H; simpl; [done|].
  rewrite H by left. rewrite IH; [done|]. intros a' Ha'. apply H. by right.
Qed.

Lemma flat_map_pairs {A B C} (f : A -> B -> list C) (la : list A)
    (lb : list B) :
  flat_map (fun p => f p.1 p.2)
           (flat_map (fun a => map (fun b => (a, b)) lb) la)
  = flat_map (fun a => flat_map (fun b => f a b) lb) la.
Proof.
  induction la as [|a la IH]; simpl; [done|].
  rewrite flat_map_app, IH. f_equal.
  clear. induction lb as [|b lb IH]; simpl; [done|]. by rewrite IH.
Qed.

Lemma length_grid_points cfg :
  0 <= nx cfg -> 0 <= ny cfg ->
  Z.of_nat (length (grid_points cfg)) = nx cfg * ny cfg.
Proof.
  intros Hx Hy. unfold grid_points.
  assert (H : forall l : list Z,
            length (flat_map (fun i => map (fun j => (i, j))
                                           (seqZ 0 (ny cfg))) l)
            = (length l * Z.to_nat (ny cfg))%nat).
  { induction l as [|a l IH]; simpl; [done|].
    by rewrite length_app, IH, length_map, length_seqZ. }
  rewrite H, length_seqZ. nia.
Qed.

Lemma elem_of_grid_points cfg i j :
  (i, j) ∈ grid_points cfg <-> 0 <= i < nx cfg /\ 0 <= j < ny cfg.
Proof.
  unfold grid_points. rewrite elem_of_flat_map. split.
  - intros (a & Ha & Hb). apply list_elem_of_fmap in Hb as (b & [= -> ->] & Hb).
    apply elem_of_seqZ in Ha, Hb. lia.
  - intros [Hi Hj]. exists i. split; [apply elem_of_seqZ; lia|].
    apply list_elem_of_fmap. exists j. split; [done|]. apply elem_of_seqZ; lia.
Qed.

Lemma flat_map_slot_columns {B} (g : Z * scalar -> list B)
    (h : scalar -> list B) R j fl :
  forall k0,
  (forall (t : nat) s, fl !! t = Some s ->
     g (R * j + (k0 + Z.of_nat t), s) = h s) ->
  flat_map g (slot_columns R j k0 fl) = flat_map h fl.
Proof.
  induction fl as [|s fl IH]; intros k0 H; [done|].
  rewrite slot_columns_cons. simpl. f_equal.
  - rewrite <- (H 0%nat s eq_refl). do 2 f_equal. simpl. lia.
  - apply IH. intros t s' Ht. rewrite <- (H (S t) s' Ht). do 2 f_equal. lia.
Qed.

(** ** Lines of a stream *)

Lemma lines_from_app cur r rest :
  Forall (fun t => is_newline t = false) r ->
  lines_from cur (r ++ Text nl :: rest)
  = (rev cur ++ r) :: lines_from [] rest.
Proof.
  revert cur. induction r as [|t r IH]; intros cur Hr; simpl.
  - by rewrite app_nil_r.
  - inversion Hr as [|? ? Ht Hr']; subst. rewrite Ht, IH by done.
    simpl. by rewrite <- app_assoc.
Qed.

Lemma lines_rows {A} (f : A -> list token) (l : list A) :
  (forall a, a ∈ l -> Forall (fun t => is_newline t = false) (f a)) ->
  lines (flat_map (fun a => f a ++ [Text nl]) l) = map f l.
Proof.
  unfold lines. induction l as [|a l IH]; intros H; simpl; [done|].
  rewrite <- app_assoc. simpl. rewrite lines_from_app by (apply H; left).
  simpl. f_equal. apply IH. intros a' Ha'. apply H. by right.
Qed.

Lemma cleanup_output_eq b w :
  cleanup_output b w = Some (tt, emit w [] [] [StFlush; StClose; StRelease]).
Proof. unfold cleanup_output; unfold_m. by rewrite !emit_emit. Qed.

Lemma in_int_nonneg z : 0 <= z -> in_int z = true -> 0 <= z <= INT_MAX.
Proof. unfold in_int. intros ? [? ?]%andb_prop. lia. Qed.

(** The size of two [double]s, and the block of a grid that fits. *)
Lemma two_fields_size : size_t (2 * sizeof_double) = 16.
Proof. reflexivity. Qed.

Lemma block_of_grid n p :
  0 <= n * p <= INT_MAX ->
  block n p 16 (size_t (n * p * 16)) = matrix_of n p 16.
Proof.
  unfold INT_MAX. intros H. apply block_matrix_of; [|by exists 2].
  change (2 ^ 64) with 18446744073709551616. lia.
Qed.

Section Extract.

Variable AXI : bool.
Variable log : double -> double.
Variable restore : string -> option (list cell).
Variable interpolate : list cell -> list double -> double -> double -> double.
Variable grants : Z -> bool.


(** The rest of [main], case by case. *)
Lemma extract_eq cfg w :
  extract interpolate grants cfg w =
  if in_int (ny cfg + 1) then
    if grants (size_t (nx cfg * sizeof_pointer)) then
      if in_int (nx cfg * (ny cfg + 1)) then
        if grants (size_t (nx cfg * (ny cfg + 1) * 16)) then
          match sample_fields interpolate cfg
                  (block (nx cfg) (ny cfg + 1) 16
                     (size_t (nx cfg * (ny cfg + 1) * 16))) 2
                  (emit w [] [] [StAllocate]) with
          | Some (b, w2) =>
              match write_fields cfg b 2 w2 with
              | Some (_, w3) =>
                  Some (0, emit w3 [] [] [StFlush; StClose; StRelease])
              | None => None
              end
          | None => None
          end
        else Some (1, emit w [] [] [StAllocate])
      else None
    else Some (1, emit w [] [] [StAllocate])
  else None.
Proof.
  unfold extract, finish. rewrite run_bind, allocate_field_buffer_eq.
  rewrite two_fields_size.
  destruct (in_int (ny cfg + 1)); [|done].
  destruct (grants (size_t (nx cfg * sizeof_pointer))); [|done].
  destruct (in_int (nx cfg * _)); [|done].
  destruct (grants (size_t (nx cfg * _ * 16))); [|done].
  rewrite run_bind, run_lift.
  destruct (sample_fields _ _ _ _ _) as [[b w2]|]; [|done].
  rewrite run_bind, run_lift.
  destruct (write_fields _ _ _ _) as [[[] w3]|]; [|done].
  rewrite run_bind, run_lift, cleanup_output_eq. reflexivity.
Qed.

Lemma extract_exact cfg r w :
  0 <= nx cfg -> 0 <= ny cfg ->
  extract interpolate grants cfg (ready_world AXI log restore cfg) = Some (r, w) ->
  in_int (ny cfg + 1) = true /\
  ((r = 1 /\ w = emit (ready_world AXI log restore cfg) [] [] [StAllocate] /\
    granted grants cfg = false) \/
   (r = 0 /\ w = done_world AXI log restore interpolate cfg /\
    in_int (nx cfg * (ny cfg + 1)) = true /\ granted grants cfg = true /\
    (exists w2,
       sample_fields interpolate cfg (matrix_of (nx cfg) (ny cfg + 1) 16) 2
         (emit (ready_world AXI log restore cfg) [] [] [StAllocate])
       = Some (sampled_buffer AXI log restore interpolate cfg, w2)) /\
    (exists w2 w3,
       write_fields cfg (sampled_buffer AXI log restore interpolate cfg) 2 w2 = Some (tt, w3)))).
Proof.
  intros Hx Hy. rewrite extract_eq. unfold granted.
  destruct (in_int (ny cfg + 1)) eqn:E1; [|done].
  destruct (grants (size_t (nx cfg * sizeof_pointer))) eqn:G1.
  2:{ intros [= <- <-]. split; [done|]. by left. }
  destruct (in_int (nx cfg * _)) eqn:E2; [|done].
  destruct (grants (size_t (nx cfg * _ * 16))) eqn:G2.
  2:{ intros [= <- <-]. split; [done|]. by left. }
  rewrite block_of_grid by (apply in_int_nonneg; [nia | done]).
  destruct (sample_fields _ _ _ _ _) as [[b w2]|] eqn:Hs; [|done].
  pose proof Hs as Hs'.
  apply sample_fields_exact in Hs as [-> ->].
  destruct (write_fields _ _ _ _) as [[[] w3]|] eqn:Hw; [|done].
  pose proof Hw as Hw'.
  apply write_fields_exact in Hw as ->.
  intros [= <- <-]. rewrite !emit_emit, !app_nil_r.
  split; [done|]. right. split_and!; [reflexivity.. | |].
  - eexists. reflexivity.
  - eexists _, _. exact Hw'.
Qed.

(** The buffer of a grid that fits, when its requests are granted. *)
Lemma allocate_field_buffer_granted cfg w :
  0 <= nx cfg -> 0 <= ny cfg -> in_int (ny cfg + 1) = true ->
  in_int (nx cfg * (ny cfg + 1)) = true -> granted grants cfg = true ->
  run (allocate_field_buffer grants cfg 2) w
  = Some (Returned (matrix_of (nx cfg) (ny cfg + 1) 16),
          emit w [] [] [StAllocate]).
Proof.
  intros Hx Hy E1 E2 [G1 G2]%andb_prop.
  rewrite allocate_field_buffer_eq, two_fields_size, E1, G1, E2, G2.
  rewrite block_of_grid by (apply in_int_nonneg; [nia | done]). done.
Qed.

Lemma extract_defined cfg :
  0 <= nx cfg -> 0 <= ny cfg -> ny cfg <= 1073741824 ->
  nx cfg * (ny cfg + 1) <= INT_MAX ->
  granted grants cfg = true ->
  extract interpolate grants cfg (ready_world AXI log restore cfg) = Some (0, done_world AXI log restore interpolate cfg).
Proof.
  intros Hx Hy Hmax Hnp [G1 G2]%andb_prop. unfold INT_MAX in *.
  assert (Hint : forall z, 0 <= z <= 2147483647 -> in_int z = true).
  { intros z Hz. unfold in_int, INT_MIN, INT_MAX.
    apply andb_true_intro. split; apply Z.leb_le; lia. }
  rewrite extract_eq, G1, G2, !Hint by nia.
  rewrite block_of_grid by (unfold INT_MAX; nia).
  rewrite sample_fields_defined; cycle 1.
  { intros i j t Hi Hj Ht. simpl in Ht.
    split_and!; try (apply Hint; lia).
    rewrite matrix_of_slot; [done | done |].
    change (16 / 8) with 2. lia. }
  { done. }
  rewrite write_fields_defined; cycle 1.
  { intros i j t Hi Hj Ht. simpl in Ht.
    split_and!; try (apply Hint; lia).
    assert (exists s, [D2c; vel] !! Z.to_nat t = Some s) as [s Hs].
    { apply lookup_lt_is_Some. simpl. lia. }
    eexists.
    pose proof (sampled_holds interpolate
                  (emit (ready_world AXI log restore cfg) [] [] [StAllocate]) cfg 16 i j
                  (Z.to_nat t) s eq_refl Hi Hj Hs) as H.
    simpl in H. rewrite Z2Nat.id in H by lia. exact H. }
  { done. }
  rewrite !emit_emit, !app_nil_r. reflexivity.
Qed.

(** The rows written from the sampled buffer are the rows of interpolated
    values. *)
Lemma written_rows_output cfg :
  written_rows (ready_world AXI log restore cfg) cfg (sampled_buffer AXI log restore interpolate cfg) 2
  = output_rows interpolate (ready_world AXI log restore cfg) cfg.
Proof.
  unfold written_rows, output_rows, grid_points.
  rewrite (flat_map_pairs (output_row interpolate (ready_world AXI log restore cfg) cfg)).
  apply flat_map_ext_elem. intros i Hi. apply elem_of_seqZ in Hi.
  apply flat_map_ext_elem. intros j Hj. apply elem_of_seqZ in Hj.
  unfold written_row, output_row. do 2 f_equal.
  apply flat_map_slot_columns. intros t s Ht. simpl. do 3 f_equal.
  apply holds_peek.
  exact (sampled_holds interpolate (ready_world AXI log restore cfg) cfg 16 i j t s
           eq_refl ltac:(lia) ltac:(lia) Ht).
Qed.

End Extract.

Section Runs.

Variable AXI : bool.
Variable log : double -> double.
Variable restore : string -> option (list cell).
Variable interpolate : list cell -> list double -> double -> double -> double.
Variable grants : Z -> bool.


Lemma validation_error_ny c : validation_error c = None -> 0 < ny c.
Proof.
  unfold validation_error. destruct (Z.leb_spec (ny c) 0); [done | lia].
Qed.

(** A run that returns 0 went through validation and planning, restored
    the snapshot, was granted its buffer, and ends in [done_world]. *)
Lemma main_success argv w :
  main AXI log restore interpolate grants argv world0 = Some (0, w) ->
  exists a0 a1 a2 a3 a4 a5 a6 n,
    argv = [a0; a1; a2; a3; a4; a5; a6] /\
    validation_error (parsed_config a1 a2 a3 a4 a5 a6) = None /\
    to_int (grid_quotient (parsed_config a1 a2 a3 a4 a5 a6)) = Some n /\
    0 < n /\
    w = done_world AXI log restore interpolate (planned_config (parsed_config a1 a2 a3 a4 a5 a6) n) /\
    in_int (atoi a6 + 1) = true /\
    (exists w2,
      sample_fields interpolate
        (planned_config (parsed_config a1 a2 a3 a4 a5 a6) n)
        (matrix_of n (atoi a6 + 1) 16) 2
        (emit (ready_world AXI log restore
                 (planned_config (parsed_config a1 a2 a3 a4 a5 a6) n))
              [] [] [StAllocate])
      = Some (sampled_buffer AXI log restore interpolate
                (planned_config (parsed_config a1 a2 a3 a4 a5 a6) n), w2)) /\
    (exists g, restore (snprintf 4096 a1) = Some g) /\
    in_int (n * (atoi a6 + 1)) = true /\
    granted grants (planned_config (parsed_config a1 a2 a3 a4 a5 a6) n) = true.
Proof.
  intros H. destruct (decide (length argv = 7%nat)) as [E|E].
  - destruct argv as [|a0 [|a1 [|a2 [|a3 [|a4 [|a5 [|a6 [|a7 l]]]]]]]];
      try discriminate E.
    rewrite main_seven in H. cbv zeta in H.
    destruct (validation_error _) eqn:Hv; [done|].
    destruct (to_int _) as [n|] eqn:Hq; [|done].
    destruct (Z.leb_spec n 0) as [Hn|Hn]; [done|].
    destruct (restore _) as [g|] eqn:Hg; [|done].
    pose proof (validation_error_ny _ Hv) as Hy.
    apply extract_exact in H
      as (Hny & [(? & _) | (_ & -> & Hnp & Hgr & Hs & _)]);
      [done | | simpl; lia | simpl in *; lia].
    exists a0, a1, a2, a3, a4, a5, a6, n. split_and!; try done. by exists g.
  - rewrite main_argc in H by done. by destruct argv.
Qed.

(** The stream of a successful run. *)
Lemma done_world_stderr cfg :
  stderr (done_world AXI log restore interpolate cfg) = output_rows interpolate (ready_world AXI log restore cfg) cfg.
Proof.
  unfold done_world. simpl. apply written_rows_output.
Qed.


End Runs.

(** ** The lines of the stream of a successful run *)

Section Lines.

Variable AXI : bool.
Variable log : double -> double.
Variable restore : string -> option (list cell).
Variable interpolate : list cell -> list double -> double -> double -> double.


Lemma done_world_lines cfg :
  lines (stderr (done_world AXI log restore interpolate cfg))
  = map (fun p =>
           [Num (grid_x cfg p.1); Text " "; Num (grid_y cfg p.2);
            Text " ";
            Num (sample_value interpolate (ready_world AXI log restore cfg) cfg p.1 p.2 D2c);
            Text " ";
            Num (sample_value interpolate (ready_world AXI log restore cfg) cfg p.1 p.2 vel)])
        (grid_points cfg).
Proof.
  rewrite done_world_stderr. unfold output_rows.
  rewrite <- lines_rows.
  - f_equal.
  - intros p _. by repeat constructor.
Qed.

Lemma done_world_column cfg n :
  column n (stderr (done_world AXI log restore interpolate cfg))
  = map (fun p =>
           [grid_x cfg p.1; grid_y cfg p.2;
            sample_value interpolate (ready_world AXI log restore cfg) cfg p.1 p.2 D2c;
            sample_value interpolate (ready_world AXI log restore cfg) cfg p.1 p.2 vel] !! n)
        (grid_points cfg).
Proof.
  unfold column. rewrite done_world_lines, map_map. done.
Qed.

End Lines.

Lemma for_each_undefined_emit {A S : Type} (w0 : world) (l : list A)
    (body : A -> S -> M S) (a : A) :
  a ∈ l ->
  (forall s ts acc cs, body a s (emit w0 ts acc cs) = None) ->
  (forall a' s ts acc cs s' w', body a' s (emit w0 ts acc cs) = Some (s', w') ->
     exists ts' acc' cs', w' = emit w0 ts' acc' cs') ->
  forall s ts acc cs, for_each l body s (emit w0 ts acc cs) = None.
Proof.
  induction l as [|a' l IH]; intros Hin Hnone Hemit s ts acc cs;
    [by inversion Hin|].
  simpl. unfold mbind, M_bind.
  destruct (body a' s (emit w0 ts acc cs)) as [[s1 w1]|] eqn:Hb; [|done].
  apply elem_of_cons in Hin as [<-|Hin]; [by rewrite Hnone in Hb|].
  apply Hemit in Hb as (ts' & acc' & cs' & ->). by apply IH.
Qed.

Section Overflow.

Variable interpolate : list cell -> list double -> double -> double -> double.

(** With two fields, the index [registered_fields*j] leaves the range of
    [int] in row [j = 2^30]: sampling is undefined as soon as the grid has
    a column and more than [2^30] rows. *)
Lemma sample_fields_index_overflow cfg b w :
  0 < nx cfg -> 1073741824 < ny cfg -> field_list w = [D2c; vel] ->
  sample_fields interpolate cfg b 2 w = None.
Proof.
  intros Hx Hy Hfl. unfold sample_fields.
  unfold mbind at 1, M_bind at 1, enter.
  apply for_each_undefined_emit with (a := 0).
  - apply elem_of_seqZ. lia.
  - intros s ts acc cs.
    apply for_each_undefined_emit with (a := 1073741824).
    + apply elem_of_seqZ. lia.
    + intros s1 ts1 acc1 cs1.
      unfold mbind at 1, M_bind at 1, get.
      cbn [field_list emit]. rewrite Hfl. reflexivity.
    + intros j s1 ts1 acc1 cs1 s' w' H.
      unfold mbind at 1, M_bind at 1, get in H.
      unfold mbind at 1, M_bind at 1 in H.
      match type of H with
      | match ?m with _ => _ end = _ =>
          destruct m as [[[b1 k1] w2]|] eqn:Hb
      end; [|done].
      apply sample_inner in Hb as [_ ->].
      unfold mret, M_ret in H. injection H as <- <-.
      rewrite emit_emit. eauto.
  - intros i s ts acc cs s' w' H.
    eapply (for_each_exact w _ _
              (fun j s => store_all s
                 (map (fun cs => (i, cs.1, sample_value interpolate w cfg i j cs.2))
                      (slot_columns 2 j 0 (field_list w))))
              (fun _ => [])
              (fun j => map (fun cs => (i, cs.1))
                            (slot_columns 2 j 0 (field_list w)))) in H.
    + destruct H as [_ ->]. eauto.
    + clear. intros j s ts acc cs s' w' _ H.
      unfold mbind at 1, M_bind at 1, get in H.
      unfold mbind at 1, M_bind at 1 in H. simpl in H.
      match type of H with
      | match ?m with _ => _ end = _ =>
          destruct m as [[[b1 k1] w2]|] eqn:Hb
      end; [|done].
      apply sample_inner in Hb as [[= -> ->] ->].
      unfold mret, M_ret in H. injection H as <- <-.
      rewrite emit_emit, !app_nil_r. done.
Qed.

End Overflow.

(** ** Signs of rounded results *)

Lemma shr_1_nonneg mrs : 0 <= shr_m mrs -> 0 <= shr_m (shr_1 mrs).
Proof.
  destruct mrs as [m r s]. simpl.
  destruct m as [|[p|p|]|[p|p|]]; simpl; lia.
Qed.

Lemma iter_pos_shr_1_nonneg n mrs :
  0 <= shr_m mrs -> 0 <= shr_m (SpecFloat.iter_pos shr_1 n mrs).
Proof.
  revert mrs. induction n as [n IH|n IH|]; intros mrs H; simpl.
  - apply IH, IH. by apply shr_1_nonneg.
  - by apply IH, IH.
  - by apply shr_1_nonneg.
Qed.

Lemma shr_nonneg mrs e n : 0 <= shr_m mrs -> 0 <= shr_m (shr mrs e n).1.
Proof.
  intros H. unfold shr. destruct n; simpl; [done | | done].
  by apply iter_pos_shr_1_nonneg.
Qed.

Lemma shr_fexp_nonneg p x m e l :
  0 <= m -> 0 <= shr_m (shr_fexp p x m e l).1.
Proof.
  intros H. unfold shr_fexp. apply shr_nonneg.
  by destruct l as [|[]].
Qed.

Lemma round_nearest_even_nonneg m l : 0 <= m -> 0 <= round_nearest_even m l.
Proof.
  intros H. unfold round_nearest_even.
  destruct l as [|[]]; try done; [destruct (Z.even m)|]; lia.
Qed.

Lemma binary_round_aux_signed s m e l :
  0 <= m -> signed s (binary_round_aux prec emax s m e l).
Proof.
  intros H. unfold binary_round_aux.
  pose proof (shr_fexp_nonneg prec emax m e l H) as H1.
  destruct (shr_fexp prec emax m e l) as [mrs' e'].
  simpl in H1.
  pose proof (shr_fexp_nonneg prec emax _ e' loc_Exact
                (round_nearest_even_nonneg _ (loc_of_shr_record mrs') H1))
    as H2.
  destruct (shr_fexp prec emax (round_nearest_even _ _) e' loc_Exact)
    as [mrs'' e''].
  simpl in H2. destruct (shr_m mrs''); [done | | lia].
  by destruct (_ <=? _).
Qed.

Lemma binary_round_signed s m e :
  signed s (binary_round prec emax s m e).
Proof.
  unfold binary_round. destruct (shl_align _ _ _) as [mz ez].
  by apply binary_round_aux_signed.
Qed.

Lemma of_int_signed n : 0 <= n -> signed false (of_int n).
Proof.
  intros H. unfold of_int, binary_normalize.
  destruct n; [done | apply binary_round_signed | lia].
Qed.

Lemma sq_signed a : is_nan a = false -> signed false (sq a).
Proof.
  intros H. unfold sq, fmul. destruct a as [s|s| |s m e]; simpl.
  - by destruct s.
  - by destruct s.
  - done.
  - replace (xorb s s) with false by by destruct s.
    by apply binary_round_aux_signed.
Qed.

Lemma fadd_signed a b :
  signed false a -> signed false b -> signed false (fadd a b).
Proof.
  unfold fadd.
  destruct a as [sa|sa| |sa ma ea], b as [sb|sb| |sb mb eb]; simpl;
    try done; intros -> ->; try done.
  simpl. unfold binary_normalize.
  destruct (shl_align ma ea _) as [ma' ea'], (shl_align mb eb _) as [mb' eb'].
  simpl. apply binary_round_signed.
Qed.

Lemma fdiv_signed a b :
  signed false a -> signed false b ->
  is_nan (fdiv a b) = true \/ signed false (fdiv a b).
Proof.
  unfold fdiv.
  destruct a as [sa|sa| |sa ma ea], b as [sb|sb| |sb mb eb]; simpl;
    try done; intros -> ->; simpl; auto.
  right. unfold SFdiv_core_binary.
  set (m' := match _ with Z.pos _ => _ | 0 => _ | Z.neg _ => _ end).
  assert (Hm' : 0 <= m').
  { subst m'. destruct (_ - _ - _); [lia | | lia].
    rewrite Z.shiftl_mul_pow2 by lia. lia. }
  pose proof (Z_div_mod m' (Z.pos mb) ltac:(lia)) as Hd.
  destruct (Z.div_eucl m' (Z.pos mb)) as [q r].
  apply binary_round_aux_signed. destruct Hd as [Hd Hr]. nia.
Qed.

Lemma fsqrt_signed a : signed false a -> signed false (fsqrt a).
Proof.
  unfold fsqrt. destruct a as [s|s| |s m e]; simpl; try done;
    intros ->; try done.
  unfold SFsqrt_core_binary.
  set (m' := match _ with Z.pos _ => _ | 0 => _ | Z.neg _ => _ end).
  pose proof (Z.sqrtrem_spec m') as Hs.
  destruct (Z.sqrtrem m') as [q r].
  apply binary_round_aux_signed.
  assert (Hm' : 0 <= m').
  { subst m'. destruct (_ - _); [lia | | lia].
    rewrite Z.shiftl_mul_pow2 by lia. lia. }
  destruct (Hs Hm') as [_ Hq]. lia.
Qed.

Lemma signed_fle_zero a : signed false a -> fle zero a = true.
Proof. destruct a as [s|s| |s m e]; simpl; try done; by intros ->. Qed.

Lemma signed_floor a : signed false a -> ffloor a = ftrunc a.
Proof. destruct a as [s|s| |s m e]; simpl; try done; by intros ->. Qed.

(** ** Comparisons *)

Lemma SFcompare_antisym a b :
  SFcompare b a = option_map CompOpp (SFcompare a b).
Proof.
  destruct a as [sa|sa| |sa ma ea], b as [sb|sb| |sb mb eb]; simpl;
    try done; try (by destruct sa); try (by destruct sb);
    try (by destruct sa, sb).
  destruct sa, sb; simpl; try done.
  - rewrite (Z.compare_antisym ea eb).
    destruct (ea ?= eb); simpl; try done.
    rewrite !Pos.compare_cont_spec, (Pos.compare_antisym ma mb). simpl.
    by destruct (ma ?= mb)%positive.
  - rewrite (Z.compare_antisym ea eb).
    destruct (ea ?= eb); simpl; try done.
    rewrite !Pos.compare_cont_spec, (Pos.compare_antisym ma mb). simpl.
    by destruct (ma ?= mb)%positive.
Qed.

(** Away from NaN, [b <= a] fails exactly when [a < b]. *)
Lemma fle_false_flt a b :
  is_nan a = false -> is_nan b = false ->
  fle b a = negb (flt a b).
Proof.
  intros Ha Hb. unfold fle, flt, SFleb, SFltb.
  rewrite (SFcompare_antisym a b).
  destruct (SFcompare a b) as [[]|] eqn:E; simpl; try done.
  destruct a, b; simpl in *; try done; by destruct s.
Qed.

(** A value above the threshold of the axis is positive. *)
Lemma above_eps_positive a : fgt a axis_eps = true -> fgt a zero = true.
Proof.
  unfold fgt, SFltb, axis_eps, zero.
  destruct a as [s|s| |s m e]; simpl; try done; by destruct s.
Qed.

(** ** The difference of two ordered values *)

Lemma digits2_pos_bounds m :
  2 ^ (Z.pos (digits2_pos m) - 1) <= Z.pos m < 2 ^ Z.pos (digits2_pos m).
Proof.
  induction m as [m IH|m IH|]; simpl digits2_pos.
  - rewrite Pos2Z.inj_succ.
    replace (Z.succ (Z.pos (digits2_pos m)) - 1)
      with (Z.succ (Z.pos (digits2_pos m) - 1)) by lia.
    rewrite !Z.pow_succ_r by lia. lia.
  - rewrite Pos2Z.inj_succ.
    replace (Z.succ (Z.pos (digits2_pos m)) - 1)
      with (Z.succ (Z.pos (digits2_pos m) - 1)) by lia.
    rewrite !Z.pow_succ_r by lia. lia.
  - simpl. lia.
Qed.

Lemma iter_xO_value m d : Z.pos (Pos.iter xO m d) = Z.pos m * 2 ^ Z.pos d.
Proof.
  induction d as [|d IH] using Pos.peano_ind.
  - simpl. lia.
  - rewrite Pos.iter_succ, Pos2Z.inj_xO, IH, Pos2Z.inj_succ.
    rewrite Z.pow_succ_r by lia. lia.
Qed.

Lemma shl_align_value m e ez :
  ez <= e -> Z.pos (shl_align m e ez).1 = Z.pos m * 2 ^ (e - ez).
Proof.
  intros H. unfold shl_align.
  destruct (ez - e) as [|d|d] eqn:E; simpl.
  - replace (e - ez) with 0 by lia. simpl. lia.
  - lia.
  - rewrite iter_xO_value. do 2 f_equal. lia.
Qed.

(** Of two finite values of the format, the one with the smaller exponent
    is the smaller one. *)
Lemma canonical_exponent_lt m1 e1 m2 e2 :
  bounded prec emax m1 e1 = true -> bounded prec emax m2 e2 = true ->
  e1 < e2 -> Z.pos m1 < Z.pos m2 * 2 ^ (e2 - e1).
Proof.
  unfold bounded, canonical_mantissa, fexp, SpecFloat.emin, prec, emax.
  intros H1 H2 He.
  apply andb_prop in H1 as [H1 _]. apply andb_prop in H2 as [H2 _].
  apply Z.eqb_eq in H1, H2.
  pose proof (digits2_pos_bounds m1) as [_ B1].
  pose proof (digits2_pos_bounds m2) as [B2 _].
  assert (D1 : Z.pos (digits2_pos m1) <= 53) by lia.
  assert (D2 : Z.pos (digits2_pos m2) = 53) by lia.
  rewrite D2 in B2.
  assert (Z.pos m1 < 2 ^ 53).
  { eapply Z.lt_le_trans; [exact B1|]. apply Z.pow_le_mono_r; lia. }
  assert (2 ^ 1 <= 2 ^ (e2 - e1)) by (apply Z.pow_le_mono_r; lia).
  change (2 ^ (53 - 1)) with 4503599627370496 in B2.
  change (2 ^ 53) with 9007199254740992 in *. change (2 ^ 1) with 2 in *.
  nia.
Qed.

Lemma fsub_signed a b :
  valid a = true -> valid b = true -> flt a b = true ->
  signed false (fsub b a).
Proof.
  unfold valid, flt, SFltb, fsub.
  destruct a as [sa|sa| |sa ma ea], b as [sb|sb| |sb mb eb]; simpl;
    try done; try (by destruct sa); try (by destruct sb);
    try (by destruct sa, sb).
  intros Va Vb Hlt.
  pose proof (shl_align_value mb eb (Z.min eb ea) ltac:(lia)) as Eb.
  pose proof (shl_align_value ma ea (Z.min eb ea) ltac:(lia)) as Ea.
  set (B := (shl_align mb eb (Z.min eb ea)).1) in *.
  set (A := (shl_align ma ea (Z.min eb ea)).1) in *.
  assert (HD : 0 <= cond_Zopp sb (Z.pos B) - cond_Zopp sa (Z.pos A)).
  { destruct sa, sb; simpl in Hlt; try done; unfold cond_Zopp; try lia.
    - (* both negative *)
      destruct (Z.compare_spec ea eb) as [E|E|E]; try done.
      + subst eb. rewrite Z.min_id, Z.sub_diag in *.
        rewrite Pos.compare_cont_spec in Hlt. simpl in Hlt.
        destruct (Pos.compare_spec ma mb); try done. lia.
      + pose proof (canonical_exponent_lt _ _ _ _ Vb Va E).
        rewrite Z.min_l in * by lia. rewrite Z.sub_diag in Eb. lia.
    - (* both positive *)
      destruct (Z.compare_spec ea eb) as [E|E|E]; try done.
      + subst eb. rewrite Z.min_id, Z.sub_diag in *.
        rewrite Pos.compare_cont_spec in Hlt. simpl in Hlt.
        destruct (Pos.compare_spec ma mb); try done. lia.
      + pose proof (canonical_exponent_lt _ _ _ _ Va Vb E).
        rewrite Z.min_r in * by lia. rewrite Z.sub_diag in Ea. lia. }
  change (signed false (binary_normalize prec emax
            (cond_Zopp sb (Z.pos B) - cond_Zopp sa (Z.pos A))
            (Z.min eb ea) false)).
  unfold binary_normalize.
  destruct (cond_Zopp sb (Z.pos B) - cond_Zopp sa (Z.pos A));
    [done | apply binary_round_signed | lia].
Qed.

Lemma elem_of_pass_accesses w cfg R i c :
  (i, c) ∈ pass_accesses w cfg R <->
  exists j (t : nat) s,
    0 <= i < nx cfg /\ 0 <= j < ny cfg /\ field_list w !! t = Some s /\
    c = R * j + Z.of_nat t.
Proof.
  unfold pass_accesses. rewrite elem_of_flat_map. split.
  - intros (i' & Hi & He). apply elem_of_flat_map in He as (j & Hj & He).
    apply list_elem_of_fmap in He as ([c' s] & [= -> ->] & Hcs).
    apply elem_of_slot_columns in Hcs as (t & Ht & ->).
    apply elem_of_seqZ in Hi, Hj. exists j, t, s. simpl.
    split_and!; try lia; done.
  - intros (j & t & s & Hi & Hj & Ht & ->).
    exists i. split; [apply elem_of_seqZ; lia|].
    apply elem_of_flat_map. exists j. split; [apply elem_of_seqZ; lia|].
    apply list_elem_of_fmap. exists (R * j + Z.of_nat t, s). split; [done|].
    apply elem_of_slot_columns. eauto.
Qed.

(** C9 (as amended): when [ny+1], [nx*(ny+1)] and the last index
    [fieldCount*ny - 1] stay within [int], the size of the block stays
    within [size_t] and the allocator grants the two requests of
    [matrix_new], the buffer is allocated with [nx] rows of
    [(ny+1)*fieldCount] doubles, sampling and writing both run to
    completion and access exactly the positions [[i][fieldCount*j + k]]
    with [0 <= i < nx], [0 <= j < ny] and [0 <= k < fieldCount], each of
    them inside the allocation, and the slots [fieldCount*ny + k] that
    end every row are never written and never read. *)
Theorem buffer_accesses_in_bounds
    (interpolate : list cell -> list double -> double -> double -> double)
    (grants : Z -> bool) (cfg : extraction_config) (w : world) :
  0 <= nx cfg -> 0 <= ny cfg -> 0 < list_len (field_list w) <= INT_MAX ->
  ny cfg + 1 <= INT_MAX -> nx cfg * (ny cfg + 1) <= INT_MAX ->
  list_len (field_list w) * ny cfg - 1 <= INT_MAX ->
  nx cfg * (ny cfg + 1) * (list_len (field_list w) * 8) < 2 ^ 64 ->
  grants (size_t (nx cfg * 8)) = true ->
  grants (size_t (nx cfg * (ny cfg + 1) * (list_len (field_list w) * 8)))
  = true ->
  exists b0 b w3,
    run (allocate_field_buffer grants cfg (list_len (field_list w))) w
    = Some (Returned b0, emit w [] [] [StAllocate]) /\
    m_rows b0 = nx cfg /\
    m_stride b0 = (ny cfg + 1) * list_len (field_list w) /\
    Z.of_nat (length (m_data b0))
    = nx cfg * ((ny cfg + 1) * list_len (field_list w)) /\
    sample_fields interpolate cfg b0 (list_len (field_list w))
      (emit w [] [] [StAllocate])
    = Some (b, emit w [] (pass_accesses w cfg (list_len (field_list w)))
                 [StAllocate; StSample]) /\
    write_fields cfg b (list_len (field_list w))
      (emit w [] (pass_accesses w cfg (list_len (field_list w)))
         [StAllocate; StSample])
    = Some (tt, w3) /\
    touched w3
    = touched w ++ pass_accesses w cfg (list_len (field_list w))
      ++ pass_accesses w cfg (list_len (field_list w)) /\
    (forall i c, (i, c) ∈ pass_accesses w cfg (list_len (field_list w)) ->
       0 <= i < nx cfg /\
       (exists j k, 0 <= j < ny cfg /\ 0 <= k < list_len (field_list w) /\
                    c = list_len (field_list w) * j + k) /\
       is_Some (matrix_slot b0 i c)) /\
    (forall i k, 0 <= i < nx cfg -> 0 <= k < list_len (field_list w) ->
       unassigned b i (list_len (field_list w) * ny cfg + k) /\
       (i, list_len (field_list w) * ny cfg + k)
         ∉ pass_accesses w cfg (list_len (field_list w))).
Proof.
  unfold list_len, INT_MAX. set (R := Z.of_nat (length (field_list w))).
  intros Hx Hy HR Hp Hnp Hidx Hbytes G1 G2.
  assert (Hint : forall z, 0 <= z <= 2147483647 -> in_int z = true).
  { intros z Hz. unfold in_int, INT_MIN, INT_MAX.
    apply andb_true_intro. split; apply Z.leb_le; lia. }
  assert (E8 : size_t (R * sizeof_double) = R * 8).
  { unfold size_t, sizeof_double. apply Z.mod_small.
    change (2 ^ 64) with 18446744073709551616. lia. }
  assert (Hsize : R * 8 / 8 = R) by (apply Z.div_mul; lia).
  set (b0 := matrix_of (nx cfg) (ny cfg + 1) (R * 8)).
  assert (Hne : field_list w <> []).
  { intros E. unfold R in HR. rewrite E in HR. simpl in HR. lia. }
  assert (Hslot : forall i j t, 0 <= i < nx cfg -> 0 <= j <= ny cfg ->
            0 <= t < R ->
            matrix_slot b0 i (R * j + t)
            = Some (Z.to_nat (i * ((ny cfg + 1) * R) + (R * j + t)))).
  { intros i j t Hi Hj Ht. unfold b0.
    rewrite matrix_of_slot; rewrite ?Hsize; [done | done | nia]. }
  exists b0, (store_all b0 (sample_writes interpolate w cfg R)).
  eexists. split_and!.
  - rewrite allocate_field_buffer_eq, E8. unfold sizeof_pointer.
    rewrite G1, G2, !Hint by nia.
    rewrite block_matrix_of; [done | nia | by exists R].
  - done.
  - unfold b0. simpl. by rewrite Hsize.
  - unfold b0. simpl. rewrite length_replicate, Hsize. nia.
  - rewrite sample_fields_defined; [by rewrite emit_emit | | done].
    intros i j t Hi Hj Ht. cbn [field_list emit] in Ht. fold R in Ht.
    split_and!; try (apply Hint; nia).
    rewrite Hslot by lia. done.
  - rewrite write_fields_defined; [done | | done].
    intros i j t Hi Hj Ht. cbn [field_list emit] in Ht. fold R in Ht.
    split_and!; try (apply Hint; nia).
    assert (exists s, field_list w !! Z.to_nat t = Some s) as [s Hs].
    { apply lookup_lt_is_Some. unfold R in Ht. lia. }
    eexists.
    pose proof (sampled_holds interpolate w cfg (R * 8) i j
                  (Z.to_nat t) s Hsize Hi Hj Hs) as H.
    rewrite Z2Nat.id in H by lia. exact H.
  - simpl. by rewrite <- app_assoc.
  - intros i c Hic. apply elem_of_pass_accesses in Hic
      as (j & t & s & Hi & Hj & Ht & ->).
    apply lookup_lt_Some in Ht.
    split_and!; [lia.. | |].
    + exists j, (Z.of_nat t). unfold R. split_and!; lia.
    + rewrite Hslot; [done | lia | lia | unfold R; lia].
  - intros i k Hi Hk. split.
    + pose proof (sampled_unassigned interpolate w cfg (R * 8)
                    i (Z.to_nat k) Hsize Hi Hy) as H.
      rewrite Z2Nat.id in H by lia. apply H. unfold R in Hk. lia.
    + intros Hin. apply elem_of_pass_accesses in Hin
        as (j & t & s & _ & Hj & Ht & E).
      apply lookup_lt_Some in Ht. unfold R in *. nia.
Qed.

(** ** Rounding yields values of the format *)

Lemma Zdigits2_bounds m :
  0 < m -> 2 ^ (Zdigits2 m - 1) <= m < 2 ^ Zdigits2 m.
Proof. destruct m; try lia. intros _. apply digits2_pos_bounds. Qed.

Lemma Zdigits2_nonneg m : 0 <= Zdigits2 m.
Proof. destruct m; simpl; lia. Qed.

Lemma Zdigits2_pos m : 0 < m -> 0 < Zdigits2 m.
Proof. destruct m; simpl; lia. Qed.

(** The number of digits is determined by the bounds. *)
Lemma Zdigits2_unique m d :
  0 < m -> 2 ^ (d - 1) <= m < 2 ^ d -> Zdigits2 m = d.
Proof.
  intros Hm [Hl Hu]. pose proof (Zdigits2_bounds m Hm) as [Bl Bu].
  pose proof (Zdigits2_pos m Hm).
  assert (0 < d).
  { destruct (Z.lt_ge_cases 0 d); [done|].
    assert (2 ^ d <= 2 ^ 0) by (apply Z.pow_le_mono_r; lia).
    change (2 ^ 0) with 1 in *. lia. }
  destruct (Z.lt_trichotomy (Zdigits2 m) d) as [L|[E|G]]; [|done|].
  - assert (2 ^ Zdigits2 m <= 2 ^ (d - 1)) by (apply Z.pow_le_mono_r; lia).
    lia.
  - assert (2 ^ d <= 2 ^ (Zdigits2 m - 1)) by (apply Z.pow_le_mono_r; lia).
    lia.
Qed.

Lemma shr_1_div2 mrs : 0 <= shr_m mrs -> shr_m (shr_1 mrs) = shr_m mrs / 2.
Proof.
  destruct mrs as [m r s]. simpl. intros H.
  destruct m as [|[p|p|]|p]; simpl; try lia.
  - reflexivity.
  - rewrite (Pos2Z.inj_xI p). apply (Z.div_unique _ _ _ 1); lia.
  - rewrite (Pos2Z.inj_xO p). apply (Z.div_unique _ _ _ 0); lia.
  - reflexivity.
Qed.

Lemma iter_pos_shr_1_div p : forall mrs,
  0 <= shr_m mrs ->
  shr_m (SpecFloat.iter_pos shr_1 p mrs) = shr_m mrs / 2 ^ Z.pos p.
Proof.
  induction p as [p IH|p IH|]; intros mrs H; simpl SpecFloat.iter_pos.
  - rewrite IH, IH, shr_1_div2 by
      (try apply iter_pos_shr_1_nonneg; try apply shr_1_nonneg; done).
    rewrite !Z.div_div by lia. f_equal.
    rewrite Pos2Z.inj_xI. rewrite <- !Z.pow_add_r by lia.
    replace (2 * Z.pos p + 1) with (1 + Z.pos p + Z.pos p) by lia.
    rewrite !Z.pow_add_r by lia. change (2 ^ 1) with 2. lia.
  - rewrite IH, IH by (try apply iter_pos_shr_1_nonneg; done).
    rewrite !Z.div_div by lia. f_equal.
    rewrite Pos2Z.inj_xO. rewrite <- Z.pow_add_r by lia. f_equal. lia.
  - rewrite shr_1_div2 by done. done.
Qed.

(** [shr_fexp] divides the mantissa by the power of two that brings the
    exponent up to [fexp]. *)
Lemma shr_fexp_value m e l :
  0 <= m ->
  let n := Z.max 0 (fexp prec emax (Zdigits2 m + e) - e) in
  shr_m (shr_fexp prec emax m e l).1 = m / 2 ^ n /\
  (shr_fexp prec emax m e l).2 = e + n.
Proof.
  intros Hm n. unfold shr_fexp, shr. subst n.
  destruct (fexp prec emax (Zdigits2 m + e) - e) as [|p|p] eqn:E; simpl.
  - rewrite Z.div_1_r. split; [by destruct l as [|[]] | lia].
  - rewrite iter_pos_shr_1_div by (by destruct l as [|[]]).
    split; [by destruct l as [|[]] | lia].
  - rewrite Z.div_1_r. split; [by destruct l as [|[]] | lia].
Qed.

Lemma round_nearest_even_cases m l :
  round_nearest_even m l = m \/ round_nearest_even m l = m + 1.
Proof.
  unfold round_nearest_even. destruct l as [|[]]; auto.
  destruct (Z.even m); auto.
Qed.

(** Digits of a quotient by a power of two. *)
Lemma Zdigits2_div_pow2 m n :
  0 < m -> 0 <= n < Zdigits2 m ->
  0 < m / 2 ^ n /\ Zdigits2 (m / 2 ^ n) = Zdigits2 m - n.
Proof.
  intros Hm Hn. pose proof (Zdigits2_bounds m Hm) as [Bl Bu].
  set (d := Zdigits2 m) in *.
  assert (P : 0 < 2 ^ n) by (apply Z.pow_pos_nonneg; lia).
  assert (E1 : 2 ^ (d - 1) = 2 ^ (d - n - 1) * 2 ^ n).
  { rewrite <- Z.pow_add_r by lia. f_equal. lia. }
  assert (E2 : 2 ^ d = 2 ^ (d - n) * 2 ^ n).
  { rewrite <- Z.pow_add_r by lia. f_equal. lia. }
  assert (L : 2 ^ (d - n - 1) <= m / 2 ^ n).
  { apply Z.div_le_lower_bound; lia. }
  assert (U : m / 2 ^ n < 2 ^ (d - n)).
  { apply Z.div_lt_upper_bound; lia. }
  assert (0 < 2 ^ (d - n - 1)) by (apply Z.pow_pos_nonneg; lia).
  split; [lia|]. apply Zdigits2_unique; [lia|]. done.
Qed.

Lemma div_pow2_small m n :
  0 <= m -> Zdigits2 m <= n -> m / 2 ^ n = 0.
Proof.
  intros Hm Hn. destruct (Z.eq_dec m 0) as [->|Hz].
  { apply Z.div_0_l. pose proof (Zdigits2_nonneg 0).
    assert (0 < 2 ^ n) by (apply Z.pow_pos_nonneg; simpl in *; lia). lia. }
  pose proof (Zdigits2_bounds m ltac:(lia)) as [_ Bu].
  pose proof (Zdigits2_nonneg m).
  assert (2 ^ Zdigits2 m <= 2 ^ n) by (apply Z.pow_le_mono_r; lia).
  apply Z.div_small. lia.
Qed.

Lemma fexp_eq x : fexp prec emax x = Z.max (x - 53) (-1074).
Proof. reflexivity. Qed.

Lemma Zdigits2_pow2 d : 0 <= d -> Zdigits2 (2 ^ d) = d + 1.
Proof.
  intros Hd. assert (0 < 2 ^ d) by (apply Z.pow_pos_nonneg; lia).
  apply Zdigits2_unique; [done|].
  replace (d + 1 - 1) with d by lia. rewrite Z.pow_add_r by lia.
  change (2 ^ 1) with 2. lia.
Qed.

(** Digits of the successor: the same number, unless the successor is a
    power of two. *)
Lemma Zdigits2_succ m :
  0 < m ->
  Zdigits2 (m + 1) = Zdigits2 m \/
  (m + 1 = 2 ^ Zdigits2 m /\ Zdigits2 (m + 1) = Zdigits2 m + 1).
Proof.
  intros Hm. pose proof (Zdigits2_bounds m Hm) as [Bl Bu].
  pose proof (Zdigits2_pos m Hm).
  destruct (Z.eq_dec (m + 1) (2 ^ Zdigits2 m)) as [E|E].
  - right. split; [done|]. rewrite E. apply Zdigits2_pow2. lia.
  - left. apply Zdigits2_unique; lia.
Qed.

(** After the two shifts of [binary_round_aux] the mantissa is canonical
    for the exponent. *)
Lemma round_canonical m e m1 :
  0 <= m -> e <= fexp prec emax (Zdigits2 m + e) ->
  let n := fexp prec emax (Zdigits2 m + e) - e in
  m1 = m / 2 ^ n \/ m1 = m / 2 ^ n + 1 ->
  let n' := Z.max 0 (fexp prec emax (Zdigits2 m1 + (e + n)) - (e + n)) in
  0 < m1 / 2 ^ n' ->
  fexp prec emax (Zdigits2 (m1 / 2 ^ n') + (e + n + n')) = e + n + n'.
Proof.
  intros Hm He n Hm1 n' Hpos.
  assert (Hn : n = Z.max (Zdigits2 m + e - 53) (-1074) - e) by reflexivity.
  assert (Hn' : n' = Z.max 0 (Z.max (Zdigits2 m1 + (e + n) - 53) (-1074)
                              - (e + n))) by reflexivity.
  clearbody n n'. rewrite !fexp_eq in *.
  pose proof (Zdigits2_nonneg m) as Hd.
  destruct (Z.le_gt_cases (Zdigits2 m) n) as [Hsmall|Hbig].
  - (* everything is shifted out: the mantissa is 0 or 1 *)
    rewrite (div_pow2_small m n Hm Hsmall) in Hm1.
    assert (m1 = 1) as ->.
    { destruct Hm1 as [-> | ->]; [|done]. subst n'.
      rewrite Z.div_0_l in Hpos; [lia|].
      apply Z.pow_nonzero; lia. }
    change (Zdigits2 1) with 1 in *.
    assert (n' = 0) as -> by lia.
    change (2 ^ 0) with 1. rewrite Z.div_1_r.
    change (Zdigits2 1) with 1. lia.
  - assert (Hm0 : 0 < m) by (destruct m; simpl in *; lia).
    destruct (Zdigits2_div_pow2 m n Hm0 ltac:(lia)) as [P0 D0].
    set (m0 := m / 2 ^ n) in *.
    assert (Hcan : Z.max (Zdigits2 m0 + (e + n) - 53) (-1074) = e + n).
    { rewrite D0. lia. }
    assert (Hsame : forall x, 0 < x -> Zdigits2 x = Zdigits2 m0 ->
              let k := Z.max 0 (Z.max (Zdigits2 x + (e + n) - 53) (-1074)
                                - (e + n)) in
              Z.max (Zdigits2 (x / 2 ^ k) + (e + n + k) - 53) (-1074)
              = e + n + k).
    { intros x Hx Dx k. assert (k = 0) as -> by (subst k; lia).
      change (2 ^ 0) with 1. rewrite Z.div_1_r. lia. }
    destruct Hm1 as [-> | ->]; [subst n'; by apply Hsame|].
    destruct (Zdigits2_succ m0 P0) as [Ds|[Ep Ds]];
      [subst n'; apply Hsame; lia|].
    rewrite Ds in *. subst n'.
    destruct (Z.le_gt_cases (-1074) (Zdigits2 m0 + (e + n) - 53)) as [N|S].
    + (* normal: one more shift *)
      assert (D53 : Zdigits2 m0 = 53) by lia.
      replace (Z.max 0 _) with 1 by lia.
      rewrite Ep, D53. change (2 ^ 53 / 2 ^ 1) with (2 ^ 52).
      rewrite Zdigits2_pow2 by lia. lia.
    + (* subnormal: no shift *)
      replace (Z.max 0 _) with 0 by lia.
      change (2 ^ 0) with 1. rewrite Z.div_1_r, Ds. lia.
Qed.

Lemma binary_round_aux_valid s m e l :
  0 <= m -> e <= fexp prec emax (Zdigits2 m + e) ->
  valid (binary_round_aux prec emax s m e l) = true.
Proof.
  intros Hm He. unfold binary_round_aux.
  pose proof (shr_fexp_value m e l Hm) as [V1 V2]. cbv zeta in V1, V2.
  pose proof (shr_fexp_nonneg prec emax m e l Hm) as N1.
  destruct (shr_fexp prec emax m e l) as [mrs' e']. simpl in V1, V2, N1.
  set (m1 := round_nearest_even (shr_m mrs') (loc_of_shr_record mrs')).
  assert (N2 : 0 <= m1) by by apply round_nearest_even_nonneg.
  pose proof (shr_fexp_value m1 e' loc_Exact N2) as [W1 W2].
  cbv zeta in W1, W2.
  destruct (shr_fexp prec emax m1 e' loc_Exact) as [mrs'' e''].
  simpl in W1, W2.
  destruct (shr_m mrs'') as [|m2|m2] eqn:E2; [done| |done].
  destruct (Z.leb_spec e'' (emax - prec)) as [Hb|Hb]; [|done].
  unfold valid. simpl. unfold bounded, canonical_mantissa.
  apply andb_true_intro. split; [|by apply Z.leb_le].
  apply Z.eqb_eq.
  assert (En : Z.max 0 (fexp prec emax (Zdigits2 m + e) - e)
               = fexp prec emax (Zdigits2 m + e) - e) by lia.
  rewrite En in V1, V2.
  pose proof (round_canonical m e m1 Hm He) as R. cbv zeta in R.
  rewrite <- V2 in R. rewrite <- V1 in R.
  specialize (R (round_nearest_even_cases _ _)).
  rewrite <- W1 in R. specialize (R ltac:(lia)).
  change (Z.pos (digits2_pos m2)) with (Zdigits2 (Z.pos m2)).
  by rewrite W2.
Qed.

Lemma shl_align_digits m e e' :
  e' <= e ->
  Zdigits2 (Z.pos (shl_align m e e').1) = Zdigits2 (Z.pos m) + (e - e') /\
  (shl_align m e e').2 = e'.
Proof.
  intros H. pose proof (shl_align_value m e e' H) as V.
  split.
  - pose proof (Zdigits2_bounds (Z.pos m) ltac:(lia)) as [Bl Bu].
    pose proof (Zdigits2_pos (Z.pos m) ltac:(lia)).
    assert (0 < 2 ^ (e - e')) by (apply Z.pow_pos_nonneg; lia).
    apply Zdigits2_unique; [lia|]. rewrite V.
    replace (Zdigits2 (Z.pos m) + (e - e') - 1)
      with (Zdigits2 (Z.pos m) - 1 + (e - e')) by lia.
    rewrite !Z.pow_add_r by lia. nia.
  - unfold shl_align. destruct (e' - e) eqn:E; simpl; lia.
Qed.

Lemma binary_round_valid s m e : valid (binary_round prec emax s m e) = true.
Proof.
  unfold binary_round.
  set (e' := fexp prec emax (Z.pos (digits2_pos m) + e)).
  destruct (Z.le_gt_cases e' e) as [L|G].
  - destruct (shl_align_digits m e e' L) as [D E].
    destruct (shl_align m e e') as [mz ez]. cbn [fst snd] in D, E. subst ez.
    apply binary_round_aux_valid; [lia|]. rewrite D.
    replace (Zdigits2 (Z.pos m) + (e - e') + e')
      with (Z.pos (digits2_pos m) + e) by (simpl; lia).
    fold e'. lia.
  - unfold shl_align. destruct (e' - e) eqn:E; try lia.
    apply binary_round_aux_valid; [lia|]. simpl Zdigits2. fold e'. lia.
Qed.

Lemma of_int_valid n : valid (of_int n) = true.
Proof.
  unfold of_int, binary_normalize.
  destruct n; [done | apply binary_round_valid..].
Qed.

Lemma pow2_lt_inj a b : 0 <= b -> 2 ^ a < 2 ^ b -> a < b.
Proof.
  intros Hb H. destruct (Z.lt_ge_cases a b) as [|G]; [done|].
  assert (2 ^ b <= 2 ^ a) by (apply Z.pow_le_mono_r; lia). lia.
Qed.

(** The quotient has at least as many digits as the dividend has more
    than the divisor. *)
Lemma Zdigits2_div a b :
  0 < a -> 0 < b -> Zdigits2 a - Zdigits2 b <= Zdigits2 (a / b).
Proof.
  intros Ha Hb.
  pose proof (Zdigits2_bounds a Ha) as [Al Au].
  pose proof (Zdigits2_bounds b Hb) as [Bl Bu].
  pose proof (Zdigits2_pos a Ha). pose proof (Zdigits2_pos b Hb).
  pose proof (Zdigits2_nonneg (a / b)) as Hq.
  pose proof (Z.div_mod a b ltac:(lia)) as E.
  pose proof (Z.mod_pos_bound a b Hb) as R.
  assert (Q : 0 <= a / b) by (apply Z.div_pos; lia).
  assert (Hu : a / b < 2 ^ Zdigits2 (a / b)).
  { destruct (Z.eq_dec (a / b) 0) as [->|Hz]; [done|].
    apply Zdigits2_bounds. lia. }
  assert (a < 2 ^ (Zdigits2 (a / b) + Zdigits2 b)).
  { rewrite Z.pow_add_r by lia. nia. }
  assert (2 ^ (Zdigits2 a - 1) < 2 ^ (Zdigits2 (a / b) + Zdigits2 b)) by lia.
  apply pow2_lt_inj in H2; lia.
Qed.

Lemma Zdigits2_shiftl m s :
  0 < m -> 0 <= s -> Zdigits2 (m * 2 ^ s) = Zdigits2 m + s.
Proof.
  intros Hm Hs. pose proof (Zdigits2_bounds m Hm) as [Bl Bu].
  pose proof (Zdigits2_pos m Hm).
  assert (0 < 2 ^ s) by (apply Z.pow_pos_nonneg; lia).
  apply Zdigits2_unique; [lia|].
  replace (Zdigits2 m + s - 1) with (Zdigits2 m - 1 + s) by lia.
  rewrite !Z.pow_add_r by lia. nia.
Qed.

Lemma SFdiv_core_binary_ready m1 e1 m2 e2 :
  0 < m1 -> 0 < m2 ->
  0 <= (SFdiv_core_binary prec emax m1 e1 m2 e2).1.1 /\
  (SFdiv_core_binary prec emax m1 e1 m2 e2).1.2
  <= fexp prec emax
       (Zdigits2 (SFdiv_core_binary prec emax m1 e1 m2 e2).1.1
        + (SFdiv_core_binary prec emax m1 e1 m2 e2).1.2).
Proof.
  intros H1 H2. unfold SFdiv_core_binary.
  set (e' := Z.min (fexp prec emax (Zdigits2 m1 + e1 - (Zdigits2 m2 + e2)))
                   (e1 - e2)).
  set (m' := match e1 - e2 - e' with
             | Z.pos _ => Z.shiftl m1 (e1 - e2 - e')
             | 0 => m1
             | Z.neg _ => 0
             end).
  assert (Hm' : m' = m1 * 2 ^ (e1 - e2 - e')).
  { subst m'. destruct (e1 - e2 - e') eqn:E; [simpl; lia | | lia].
    rewrite Z.shiftl_mul_pow2 by lia. done. }
  assert (Hs : 0 <= e1 - e2 - e') by lia.
  assert (P : 0 < 2 ^ (e1 - e2 - e')) by (apply Z.pow_pos_nonneg; lia).
  pose proof (Z_div_mod m' m2 ltac:(lia)) as Hd.
  assert (Hq : Z.div_eucl m' m2 = (m' / m2, m' mod m2)).
  { unfold Z.div, Z.modulo. by destruct (Z.div_eucl m' m2). }
  rewrite Hq. cbn [fst snd].
  assert (0 < m') by nia.
  split; [apply Z.div_pos; lia|].
  pose proof (Zdigits2_div m' m2 ltac:(lia) H2) as D.
  rewrite Hm', Zdigits2_shiftl in D by lia. rewrite <- Hm' in D.
  clearbody m'. subst e'. rewrite !fexp_eq in *. lia.
Qed.

Lemma decimal_to_double_valid neg m k :
  valid (decimal_to_double neg m k) = true.
Proof.
  unfold decimal_to_double. destruct m as [|p|p]; [done | | done].
  destruct (Z.leb_spec 0 k) as [|Hk]; [apply binary_round_valid|].
  assert (Hten : 0 < 10 ^ (- k)) by (apply Z.pow_pos_nonneg; lia).
  pose proof (SFdiv_core_binary_ready (Z.pos p) 0 (10 ^ (- k)) 0
                ltac:(lia) Hten) as [Hq He].
  destruct (SFdiv_core_binary prec emax (Z.pos p) 0 (10 ^ (- k)) 0)
    as [[q e] l].
  by apply binary_round_aux_valid.
Qed.

Lemma binary_to_double_valid neg m e :
  valid (binary_to_double neg m e) = true.
Proof.
  unfold binary_to_double. destruct m; [done | apply binary_round_valid | done].
Qed.

(** [atof] returns a value of the format, whatever the string. *)
Lemma atof_valid s : valid (atof s) = true.
Proof.
  unfold atof. destruct (read_sign (skip_space s)) as [neg r].
  destruct (strip_prefix_ci "inf" r); [done|].
  destruct (strip_prefix_ci "nan" r); [done|].
  destruct (strtod_hex neg r) as [d|] eqn:Eh.
  { unfold strtod_hex in Eh. destruct (strip_prefix_ci "0x" r); [|done].
    destruct (read_significand xdigit_of 16 _) as [[[v nf] n] r'].
    destruct (0 <? n); [|done]. injection Eh as <-.
    apply binary_to_double_valid. }
  destruct (strtod_dec neg r) as [d|] eqn:Ed; [|done].
  unfold strtod_dec in Ed.
  destruct (read_significand digit_of 10 r) as [[[v nf] n] r'].
  destruct (0 <? n); [|done]. injection Ed as <-.
  apply decimal_to_double_valid.
Qed.

(** ** Quotients that do not overflow *)

(** Rounding a number below [2^1023] gives a finite number. *)
Lemma binary_round_aux_finite s m e l :
  0 <= m -> e <= fexp prec emax (Zdigits2 m + e) -> Zdigits2 m + e <= 1023 ->
  is_finite (binary_round_aux prec emax s m e l) = true.
Proof.
  intros Hm He Hd. unfold binary_round_aux.
  pose proof (shr_fexp_value m e l Hm) as [V1 V2]. cbv zeta in V1, V2.
  pose proof (shr_fexp_nonneg prec emax m e l Hm) as N1.
  destruct (shr_fexp prec emax m e l) as [mrs' e']. simpl in V1, V2, N1.
  set (m1 := round_nearest_even (shr_m mrs') (loc_of_shr_record mrs')).
  assert (N2 : 0 <= m1) by by apply round_nearest_even_nonneg.
  assert (C1 : m1 = shr_m mrs' \/ m1 = shr_m mrs' + 1)
    by apply round_nearest_even_cases.
  pose proof (shr_fexp_value m1 e' loc_Exact N2) as [W1 W2].
  cbv zeta in W1, W2.
  destruct (shr_fexp prec emax m1 e' loc_Exact) as [mrs'' e''].
  simpl in W1, W2.
  assert (P2 : forall k, 0 <= m1 / 2 ^ k).
  { intros k. destruct (Z.le_gt_cases 0 k).
    - apply Z.div_pos; [done|]. apply Z.pow_pos_nonneg; lia.
    - rewrite Z.pow_neg_r by lia. by rewrite Z.div_0_r. }
  destruct (shr_m mrs'') as [|m2|m2] eqn:E2; [done | | specialize (P2
    (Z.max 0 (fexp prec emax (Zdigits2 m1 + e') - e'))); lia].
  destruct (Z.leb_spec e'' (emax - prec)) as [Hb|Hb]; [done|]. exfalso.
  unfold emax, prec in Hb. rewrite !fexp_eq in *.
  set (n0 := Z.max 0 (Z.max (Zdigits2 m + e - 53) (-1074) - e)) in *.
  assert (D1 : Zdigits2 m1 + e' <= 1024 /\ e' <= 970).
  { pose proof (Zdigits2_nonneg m).
    destruct (Z.le_gt_cases (Zdigits2 m) n0) as [Hs|Hl].
    - rewrite (div_pow2_small m n0 Hm Hs) in V1.
      assert (Zdigits2 m1 <= 1).
      { destruct C1 as [-> | ->]; rewrite V1; simpl; lia. }
      lia.
    - assert (Hm0 : 0 < m) by (destruct m; simpl in *; lia).
      destruct (Zdigits2_div_pow2 m n0 Hm0 ltac:(lia)) as [P0 D0].
      rewrite <- V1 in P0, D0.
      assert (Zdigits2 m1 <= Zdigits2 (shr_m mrs') + 1).
      { destruct C1 as [-> | ->]; [lia|].
        destruct (Zdigits2_succ _ P0) as [-> | [_ ->]]; lia. }
      lia. }
  lia.
Qed.

(** The quotient has at most one digit more than the dividend has more
    than the divisor. *)
Lemma Zdigits2_div_upper a b :
  0 < a -> 0 < b -> 0 < a / b ->
  Zdigits2 (a / b) <= Zdigits2 a - Zdigits2 b + 1.
Proof.
  intros Ha Hb Hq.
  pose proof (Zdigits2_bounds a Ha) as [Al Au].
  pose proof (Zdigits2_bounds b Hb) as [Bl Bu].
  pose proof (Zdigits2_bounds (a / b) Hq) as [Ql Qu].
  pose proof (Zdigits2_pos a Ha). pose proof (Zdigits2_pos b Hb).
  pose proof (Zdigits2_pos (a / b) Hq).
  pose proof (Z.mul_div_le a b Hb) as Hle.
  assert (2 ^ (Zdigits2 (a / b) - 1 + (Zdigits2 b - 1)) < 2 ^ Zdigits2 a).
  { rewrite Z.pow_add_r by lia.
    assert (0 < 2 ^ (Zdigits2 b - 1)) by (apply Z.pow_pos_nonneg; lia).
    assert (0 < 2 ^ (Zdigits2 (a / b) - 1)) by (apply Z.pow_pos_nonneg; lia).
    nia. }
  apply pow2_lt_inj in H2; lia.
Qed.

Lemma valid_finite s m e :
  valid (S754_finite s m e) = true ->
  fexp prec emax (Zdigits2 (Z.pos m) + e) = e /\ e <= 971.
Proof.
  unfold valid, valid_binary, bounded, canonical_mantissa.
  intros [H1 H2]%andb_prop. apply Z.eqb_eq in H1. apply Z.leb_le in H2.
  unfold emax, prec in *. by split.
Qed.

(** A number that is at least 2 has an exponent of at least [-51]. *)
Lemma at_least_two s m e :
  fle (of_int 2) (S754_finite s m e) = true -> s = false /\ -51 <= e.
Proof.
  change (of_int 2) with (S754_finite false 4503599627370496 (-51)).
  unfold fle, SFleb, SFcompare. destruct s; [done|].
  destruct (Z.compare_spec (-51) e); try done; lia.
Qed.

(** Dividing a finite number by a number that is at least 2 does not
    overflow. *)
Lemma fdiv_finite sa ma ea sb mb eb :
  valid (S754_finite sa ma ea) = true ->
  valid (S754_finite sb mb eb) = true ->
  fle (of_int 2) (S754_finite sb mb eb) = true ->
  is_finite (fdiv (S754_finite sa ma ea) (S754_finite sb mb eb)) = true.
Proof.
  intros Va Vb H2. apply valid_finite in Va as [Ca Ea], Vb as [Cb Eb].
  apply at_least_two in H2 as [-> Hb]. unfold fdiv, SFdiv.
  pose proof (SFdiv_core_binary_ready (Z.pos ma) ea (Z.pos mb) eb
                ltac:(lia) ltac:(lia)) as [Hq He].
  assert (Hd : Zdigits2 (SFdiv_core_binary prec emax (Z.pos ma) ea
                           (Z.pos mb) eb).1.1
               + (SFdiv_core_binary prec emax (Z.pos ma) ea
                    (Z.pos mb) eb).1.2 <= 1023).
  { clear Hq He. unfold SFdiv_core_binary.
    set (e' := Z.min (fexp prec emax (Zdigits2 (Z.pos ma) + ea
                                      - (Zdigits2 (Z.pos mb) + eb)))
                     (ea - eb)).
    set (m' := match ea - eb - e' with
               | Z.pos _ => Z.shiftl (Z.pos ma) (ea - eb - e')
               | 0 => Z.pos ma
               | Z.neg _ => 0
               end).
    assert (Hm' : m' = Z.pos ma * 2 ^ (ea - eb - e')).
    { subst m'. destruct (ea - eb - e') eqn:E; [simpl; lia | | lia].
      rewrite Z.shiftl_mul_pow2 by lia. done. }
    assert (Hs : 0 <= ea - eb - e') by lia.
    assert (Hq : Z.div_eucl m' (Z.pos mb) = (m' / Z.pos mb, m' mod Z.pos mb)).
    { unfold Z.div, Z.modulo. by destruct (Z.div_eucl m' (Z.pos mb)). }
    rewrite Hq. cbn [fst snd].
    assert (P : 0 < 2 ^ (ea - eb - e')) by (apply Z.pow_pos_nonneg; lia).
    assert (Pm : 0 < m') by nia.
    assert (Dm : Zdigits2 m' = Zdigits2 (Z.pos ma) + (ea - eb - e')).
    { rewrite Hm'. apply Zdigits2_shiftl; lia. }
    rewrite !fexp_eq in *.
    assert (Q0 : 0 <= m' / Z.pos mb) by (apply Z.div_pos; lia).
    destruct (Z.eq_dec (m' / Z.pos mb) 0) as [-> | Hz].
    - simpl Zdigits2. lia.
    - pose proof (Zdigits2_div_upper m' (Z.pos mb) Pm ltac:(lia) ltac:(lia)).
      clearbody m' e'. lia. }
  destruct (SFdiv_core_binary prec emax (Z.pos ma) ea (Z.pos mb) eb)
    as [[q e] l].
  by apply binary_round_aux_finite.
Qed.

(** Dividing by a finite number that is at least 2 keeps what is neither
    NaN nor the negative infinity that way. *)
Lemma fdiv_by_two_or_more a b :
  valid a = true -> valid b = true ->
  is_nan a = false -> a <> S754_infinity true ->
  is_finite b = true -> fle (of_int 2) b = true ->
  is_nan (fdiv a b) = false /\ fdiv a b <> S754_infinity true.
Proof.
  intros Va Vb Na Ia Fb Hb.
  destruct b as [sb|sb| |sb mb eb]; try done.
  destruct (at_least_two _ _ _ Hb) as [-> _].
  destruct a as [sa|sa| |sa ma ea]; try done.
  - by destruct sa.
  - pose proof (fdiv_finite _ _ _ _ _ _ Va Vb Hb) as F.
    by destruct (fdiv _ _).
Qed.

Lemma flt_not_nan a b :
  flt a b = true -> is_nan a = false /\ is_nan b = false.
Proof. unfold flt, SFltb. by destruct a, b. Qed.

Lemma validation_error_None c :
  0 < ny c -> flt (xmin c) (xmax c) = true -> flt (ymin c) (ymax c) = true ->
  validation_error c = None.
Proof.
  intros Hn Hx Hy. unfold validation_error.
  destruct (Z.leb_spec (ny c) 0); [lia|].
  destruct (flt_not_nan _ _ Hx), (flt_not_nan _ _ Hy).
  rewrite !fle_false_flt, Hx, Hy by done. done.
Qed.

Lemma grid_quotient_floor c n :
  valid (xmin c) = true -> valid (ymin c) = true ->
  valid (xmax c) = true -> valid (ymax c) = true ->
  flt (xmin c) (xmax c) = true -> flt (ymin c) (ymax c) = true ->
  0 < ny c -> to_int (grid_quotient c) = Some n ->
  ffloor (grid_quotient c) = Some n.
Proof.
  intros Vx0 Vy0 Vx1 Vy1 Hx Hy Hn Hq.
  pose proof (fsub_signed _ _ Vx0 Vx1 Hx) as Sx.
  pose proof (fsub_signed _ _ Vy0 Vy1 Hy) as Sy.
  pose proof (of_int_signed (ny c) ltac:(lia)) as Sn.
  unfold grid_quotient, grid_Deltay in *.
  destruct (fdiv_signed _ _ Sy Sn) as [Hnan|Sd].
  - destruct (fdiv (fsub (ymax c) (ymin c)) (of_int (ny c))); try done.
    by destruct (fsub (xmax c) (xmin c)).
  - destruct (fdiv_signed _ _ Sx Sd) as [Hnan|Sq].
    + by destruct (fdiv (fsub (xmax c) (xmin c)) _).
    + rewrite (signed_floor _ Sq). unfold to_int in Hq.
      destruct (ftrunc _) as [z|]; [|done].
      destruct (in_int z); [|done]. congruence.
Qed.

Section Claims.

Variable AXI : bool.
Variable log : double -> double.
Variable restore : string -> option (list cell).
Variable interpolate : list cell -> list double -> double -> double -> double.
Variable grants : Z -> bool.


(** C1 (as amended): for six arguments with [xmin < xmax], [ymin < ymax]
    and [ny > 0] whose quotient [(xmax-xmin)/Deltay] converts to an [int]
    [n], validation passes, [Deltay] is the rounded quotient
    [(ymax-ymin)/ny], [n] is the floor of [(xmax-xmin)/Deltay]; when
    [n <= 0] the run ends with status 1 and only the message about [nx]
    on the stream, and otherwise [nx = n] and [Deltax] is the rounded
    quotient [(xmax-xmin)/nx], the bounds and [ny] being left as
    parsed. *)
Theorem grid_planning (a0 a1 a2 a3 a4 a5 a6 : string) (n : Z) :
  let c := parsed_config a1 a2 a3 a4 a5 a6 in
  flt (xmin c) (xmax c) = true -> flt (ymin c) (ymax c) = true ->
  0 < ny c ->
  to_int (fdiv (fsub (xmax c) (xmin c))
               (fdiv (fsub (ymax c) (ymin c)) (of_int (ny c)))) = Some n ->
  parse_arguments 7 [a0; a1; a2; a3; a4; a5; a6] cfg_uninit world0
  = Some ((1, c), emit world0 [] [] [StValidate]) /\
  ffloor (fdiv (fsub (xmax c) (xmin c))
               (fdiv (fsub (ymax c) (ymin c)) (of_int (ny c)))) = Some n /\
  if n <=? 0 then
    main AXI log restore interpolate grants [a0; a1; a2; a3; a4; a5; a6] world0
    = Some (1, emit world0 msg_nx [] [StValidate; StPlanGrid])
  else
    exists cfg,
      configure_grid c (emit world0 [] [] [StValidate])
      = Some ((1, cfg), emit world0 [] [] [StValidate; StPlanGrid]) /\
      Deltay cfg = fdiv (fsub (ymax c) (ymin c)) (of_int (ny c)) /\
      nx cfg = n /\
      Deltax cfg = fdiv (fsub (xmax c) (xmin c)) (of_int n) /\
      xmin cfg = xmin c /\ ymin cfg = ymin c /\ xmax cfg = xmax c /\
      ymax cfg = ymax c /\ ny cfg = ny c.
Proof.
  intros c Hx Hy Hn Hq.
  pose proof (validation_error_None c Hn Hx Hy) as Hv.
  split_and!.
  - rewrite parse_arguments_seven. cbv zeta. fold c. by rewrite Hv.
  - apply (grid_quotient_floor c n); try done; apply atof_valid.
  - destruct (n <=? 0) eqn:E.
    + rewrite main_seven. cbv zeta. fold c. rewrite Hv.
      unfold grid_quotient, grid_Deltay. by rewrite Hq, E.
    + exists (planned_config c n). rewrite configure_grid_eq.
      unfold grid_quotient, grid_Deltay. rewrite Hq, E, emit_emit.
      split_and!; done.
Qed.

(** C7: [D22] is [u.y[]/y] when [y > 1e-10] and zero otherwise; a [y]
    that passes the guard is positive, the threshold itself and both
    zeros do not pass it, whatever [u.y[]] is; the planar [D2] has no
    [D22] term, and the planar value of a cell does not depend on what
    the azimuthal term would read. *)
Theorem axis_guard (c : cell) (s : bool) (yv uyv : double) :
  D22 c = (if fgt (cell_y c) axis_eps
           then fdiv (u_y c 0 0) (cell_y c) else zero) /\
  implb (fgt (cell_y c) axis_eps) (fgt (cell_y c) zero) = true /\
  fgt axis_eps axis_eps = false /\
  axis_eps = atof "1e-10" /\
  D22 (with_axis c (S754_zero s) uyv) = zero /\
  D22 (with_axis c axis_eps uyv) = zero /\
  D2 false c
  = fadd (fadd (sq (D11 c)) (sq (D33 c))) (fmul two (sq (D13 c))) /\
  D2c_cell false log (with_axis c yv uyv) = D2c_cell false log c.
Proof.
  split_and!; try reflexivity.
  - destruct (fgt (cell_y c) axis_eps) eqn:E; [|done].
    simpl. by apply above_eps_positive.
Qed.

End Claims.

Section StrainRate.

Variable AXI : bool.
Variable log : double -> double.

(** What the kernel needs of libm's [log]: on a positive argument it
    returns a number of the format that is neither NaN nor the negative
    infinity, and [log(10)] is finite and at least 2. *)
Hypothesis log_of_positive : forall t,
  fgt t zero = true ->
  valid (log t) = true /\ is_nan (log t) = false /\
  log t <> S754_infinity true.
Hypothesis log_of_ten :
  valid (log (of_int 10)) = true /\ is_finite (log (of_int 10)) = true /\
  fle (of_int 2) (log (of_int 10)) = true.

(** C2: [compute_fields] stores one value of [D2c] per cell of the mesh,
    the result of the kernel in that cell.  In binary64 arithmetic, with
    the constants written out: [D11], [D33] and [D13] are central
    differences over [2*Delta], [D13] with the factor [0.5];
    [D22 = u.y[]/y] behind the guard [y > 1e-10];
    [D2 = D11^2 + D33^2 + 2*D13^2], with [D22^2] added after [D11^2] in
    the axisymmetric build only; [mu_r = f + (1-f)*0.02]; the value is
    [log(mu_r*D2)/log(10)] when [mu_r*D2 > 0] and the floor [-10]
    otherwise.  It is never NaN and never the negative infinity. *)
Theorem strain_rate_kernel (w : world) (c : cell) :
  let add := SFadd 53 1024 in
  let sub := SFsub 53 1024 in
  let mul := SFmul 53 1024 in
  let div := SFdiv 53 1024 in
  let c_half := S754_finite false 4503599627370496 (-53) in
  let c_one := S754_finite false 4503599627370496 (-52) in
  let c_two := S754_finite false 4503599627370496 (-51) in
  let c_ten := S754_finite false 5629499534213120 (-49) in
  let c_gas := S754_finite false 5764607523034235 (-58) in
  let c_eps := S754_finite false 7737125245533627 (-86) in
  let c_floor := S754_finite true 5629499534213120 (-49) in
  let two_Delta := mul c_two (Delta c) in
  let d11 := div (sub (u_y c 0 1) (u_y c 0 (-1))) two_Delta in
  let d22 :=
    if SFltb c_eps (cell_y c) then div (u_y c 0 0) (cell_y c)
    else S754_zero false in
  let d33 := div (sub (u_x c 1 0) (u_x c (-1) 0)) two_Delta in
  let d13 :=
    mul c_half
      (div (sub (add (sub (u_y c 1 0) (u_y c (-1) 0)) (u_x c 0 1))
                (u_x c 0 (-1)))
           two_Delta) in
  let d2 :=
    if AXI
    then add (add (add (mul d11 d11) (mul d22 d22)) (mul d33 d33))
             (mul c_two (mul d13 d13))
    else add (add (mul d11 d11) (mul d33 d33)) (mul c_two (mul d13 d13)) in
  let m := add (cell_f c) (mul (sub c_one (cell_f c)) c_gas) in
  let target := mul m d2 in
  match compute_fields AXI log w with
  | Some (_, w') =>
      values w' D2c = map (D2c_cell AXI log) (grid w) /\
      length (values w' D2c) = length (grid w)
  | None => False
  end /\
  D2c_cell AXI log c
  = (if SFltb (S754_zero false) target
     then div (log target) (log c_ten) else c_floor) /\
  is_nan (D2c_cell AXI log c) = false /\
  D2c_cell AXI log c <> S754_infinity true /\
  (c_half = atof "0.5" /\ c_one = atof "1." /\ c_two = atof "2." /\
   c_two = of_int 2 /\ c_ten = of_int 10 /\ c_gas = atof "2e-2" /\
   c_gas = atof "0.02" /\ c_eps = atof "1e-10" /\ c_floor = of_int (-10)).
Proof.
  cbv zeta.
  assert (E : D2c_cell AXI log c
    = (if SFltb (S754_zero false)
            (fmul (mu_r c) (D2 AXI c))
       then fdiv (log (fmul (mu_r c) (D2 AXI c))) (log (of_int 10))
       else of_int (-10))) by reflexivity.
  split_and!.
  - unfold compute_fields, compute_D2c_field, compute_velocity_field,
      mbind, M_bind, get, enter, set_values.
    simpl. split; [reflexivity | apply length_map].
  - exact E.
  - rewrite E. destruct (SFltb _ _) eqn:G; [|done].
    destruct (log_of_positive _ G) as (V & N & I).
    destruct log_of_ten as (V10 & F10 & L10).
    by apply fdiv_by_two_or_more.
  - rewrite E. destruct (SFltb _ _) eqn:G; [|done].
    destruct (log_of_positive _ G) as (V & N & I).
    destruct log_of_ten as (V10 & F10 & L10).
    by apply fdiv_by_two_or_more.
  - vm_compute; reflexivity.
  - vm_compute; reflexivity.
  - vm_compute; reflexivity.
  - vm_compute; reflexivity.
  - vm_compute; reflexivity.
  - vm_compute; reflexivity.
  - vm_compute; reflexivity.
  - vm_compute; reflexivity.
  - vm_compute; reflexivity.
Qed.

End StrainRate.

(** C6 (as amended): [compute_fields] stores in [vel] the value
    [sqrt(u.x[]^2 + u.y[]^2)] of every cell, by a formula in which the
    geometry switch does not occur; the value is NaN when a component is
    NaN and is [>= 0] otherwise. *)
Theorem velocity_kernel (AXI : bool) (log : double -> double) (w : world)
    (c : cell) :
  match compute_fields AXI log w with
  | Some (_, w') => values w' vel = map velocity_cell (grid w)
  | None => False
  end /\
  velocity_cell c = fsqrt (fadd (sq (u_x c 0 0)) (sq (u_y c 0 0))) /\
  if is_nan (u_x c 0 0) || is_nan (u_y c 0 0)
  then is_nan (velocity_cell c) = true
  else fge (velocity_cell c) zero = true.
Proof.
  split_and!; [done.. |].
  unfold velocity_cell.
  destruct (is_nan (u_x c 0 0)) eqn:Ex.
  { destruct (u_x c 0 0); done. }
  destruct (is_nan (u_y c 0 0)) eqn:Ey; simpl.
  { destruct (u_y c 0 0); try done. unfold fadd.
    by destruct (sq (u_x c 0 0)). }
  apply signed_fle_zero, fsqrt_signed, fadd_signed; by apply sq_signed.
Qed.

Lemma atof_not_numeric s : numeric s = false -> atof s = zero.
Proof.
  unfold numeric, atof. destruct (read_sign (skip_space s)) as [neg r].
  destruct (strip_prefix_ci "inf" r); [done|].
  destruct (strip_prefix_ci "nan" r); [done|].
  destruct (strtod_hex neg r); [done|].
  by destruct (strtod_dec neg r).
Qed.

Lemma read_bound_atof s : read_bound s = atof s.
Proof.
  unfold read_bound. destruct (numeric s) eqn:E; [done|].
  by rewrite atof_not_numeric.
Qed.

Lemma run_shape r c : exit_status r = Some c -> r = Some (c, final_world r).
Proof. destruct r as [[c' w]|]; simpl; [|done]. by intros [= ->]. Qed.

(** The centre of column [i] and of row [j], in binary64 arithmetic with
    the constant [1./2] written out. *)
Lemma grid_x_eq cfg i :
  grid_x cfg i
  = SFadd 53 1024
      (SFmul 53 1024 (Deltax cfg)
         (SFadd 53 1024 (binary_normalize 53 1024 i 0 false)
            (S754_finite false 4503599627370496 (-53))))
      (xmin cfg).
Proof. reflexivity. Qed.

Lemma grid_y_eq cfg j :
  grid_y cfg j
  = SFadd 53 1024
      (SFmul 53 1024 (Deltay cfg)
         (SFadd 53 1024 (binary_normalize 53 1024 j 0 false)
            (S754_finite false 4503599627370496 (-53))))
      (ymin cfg).
Proof. reflexivity. Qed.

Lemma map_flat_map_pairs {A B C} (f : A * B -> C) (la : list A)
    (lb : list B) :
  map f (flat_map (fun a => map (fun b => (a, b)) lb) la)
  = flat_map (fun a => map (fun b => f (a, b)) lb) la.
Proof.
  induction la as [|a la IH]; [done|].
  cbn [flat_map]. by rewrite map_app, IH, map_map.
Qed.

Section RunClaims.

Variable AXI : bool.
Variable log : double -> double.
Variable restore : string -> option (list cell).
Variable interpolate : list cell -> list double -> double -> double -> double.
Variable grants : Z -> bool.


(** C3: a run that ends with status 0 passed validation and planning,
    registered [D2c] then [vel], restored the mesh and ran the kernels
    on it, and wrote on the stream exactly the rows of the grid points,
    [i] outer and [j] inner, [nx*ny] lines in all, each ended by a line
    feed; the line of [(i, j)] is [x y D2c vel] with
    [x = Deltax*(i + 0.5) + xmin], [y = Deltay*(j + 0.5) + ymin] in
    binary64 arithmetic and each field interpolated at [(x, y)], the
    value that sampling left in the buffer at [[i][2*j + k]] for the
    [k]-th field. *)
Theorem rows_of_successful_run (argv : list string) (w : world) :
  main AXI log restore interpolate grants argv world0 = Some (0, w) ->
  let cfg := run_config argv in
  let centre := fun (Delta : double) (i : Z) (min : double) =>
    SFadd 53 1024
      (SFmul 53 1024 Delta
         (SFadd 53 1024 (binary_normalize 53 1024 i 0 false)
            (S754_finite false 4503599627370496 (-53))))
      min in
  let x := fun i => centre (Deltax cfg) i (xmin cfg) in
  let y := fun j => centre (Deltay cfg) j (ymin cfg) in
  let value := fun s i j => interpolate (grid w) (values w s) (x i) (y j) in
  (exists c0 w1 w2,
     parse_arguments (Z.of_nat (length argv)) argv cfg_uninit world0
     = Some ((1, c0), w1) /\
     configure_grid c0 w1 = Some ((1, cfg), w2)) /\
  0 < nx cfg /\ 0 < ny cfg /\
  field_list w = [D2c; vel] /\
  restore (filename cfg) = Some (grid w) /\
  values w D2c = map (D2c_cell AXI log) (grid w) /\
  values w vel = map velocity_cell (grid w) /\
  stderr w
  = flat_map (fun i =>
      flat_map (fun j =>
        [Num (x i); Text " "; Num (y j);
         Text " "; Num (value D2c i j); Text " "; Num (value vel i j);
         Text (String (ascii_of_nat 10) EmptyString)])
        (seqZ 0 (ny cfg)))
      (seqZ 0 (nx cfg)) /\
  lines (stderr w)
  = flat_map (fun i =>
      map (fun j =>
        [Num (x i); Text " "; Num (y j);
         Text " "; Num (value D2c i j); Text " "; Num (value vel i j)])
        (seqZ 0 (ny cfg)))
      (seqZ 0 (nx cfg)) /\
  Z.of_nat (length (lines (stderr w))) = nx cfg * ny cfg /\
  S754_finite false 4503599627370496 (-53) = atof "0.5" /\
  exists w0 b0 field_buffer w4,
    run (allocate_field_buffer grants cfg 2) w0
    = Some (Returned b0, emit w0 [] [] [StAllocate]) /\
    sample_fields interpolate cfg b0 2 (emit w0 [] [] [StAllocate])
    = Some (field_buffer, w4) /\
    forall i j (k : nat) s,
      0 <= i < nx cfg -> 0 <= j < ny cfg -> field_list w !! k = Some s ->
      holds field_buffer i (2 * j + Z.of_nat k) (value s i j).
Proof.
  intros H.
  apply main_success in H
    as (a0 & a1 & a2 & a3 & a4 & a5 & a6 & n & -> & Hv & Hq & Hn & -> & Hny
        & [w4 Hs] & [g Hg] & Hnp & Hgr).
  cbv zeta. unfold run_config. rewrite Hq.
  set (c := parsed_config a1 a2 a3 a4 a5 a6) in *.
  set (cfg := planned_config c n) in *.
  pose proof (validation_error_ny _ Hv) as Hy.
  assert (Hlines : lines (stderr (done_world AXI log restore interpolate cfg))
    = map (fun p =>
        [Num (grid_x cfg p.1); Text " "; Num (grid_y cfg p.2); Text " ";
         Num (sample_value interpolate (ready_world AXI log restore cfg) cfg
                p.1 p.2 D2c); Text " ";
         Num (sample_value interpolate (ready_world AXI log restore cfg) cfg
                p.1 p.2 vel)]) (grid_points cfg))
    by apply done_world_lines.
  assert (Hsnap : snapshot restore (filename cfg) = g).
  { unfold snapshot. change (filename cfg) with (snprintf 4096 a1).
    by rewrite Hg. }
  split_and!.
  - exists c, (emit world0 [] [] [StValidate]),
      (emit world0 [] [] [StValidate; StPlanGrid]). split.
    + change (Z.of_nat _) with 7. rewrite parse_arguments_seven. cbv zeta.
      fold c. by rewrite Hv.
    + rewrite configure_grid_eq, Hq.
      destruct (Z.leb_spec n 0); [lia|]. by rewrite emit_emit.
  - done.
  - done.
  - done.
  - change (grid _) with (snapshot restore (filename cfg)).
    rewrite Hsnap. exact Hg.
  - done.
  - done.
  - rewrite done_world_stderr. unfold output_rows, grid_points.
    rewrite (flat_map_pairs
               (output_row interpolate (ready_world AXI log restore cfg) cfg)).
    reflexivity.
  - rewrite Hlines. unfold grid_points. rewrite map_flat_map_pairs.
    reflexivity.
  - rewrite Hlines, length_map.
    apply length_grid_points; change (ny cfg) with (ny c);
      change (nx cfg) with n; lia.
  - vm_compute. reflexivity.
  - exists (ready_world AXI log restore cfg),
      (matrix_of (nx cfg) (ny cfg + 1) 16),
      (sampled_buffer AXI log restore interpolate cfg), w4.
    split_and!.
    + apply allocate_field_buffer_granted; try done;
        change (ny cfg) with (ny c); change (nx cfg) with n; lia.
    + exact Hs.
    + intros i j k s Hi Hj Hk.
      exact (sampled_holds interpolate (ready_world AXI log restore cfg) cfg 16
               i j k s eq_refl Hi Hj Hk).
Qed.

End RunClaims.

Section Geometry.

Variable log : double -> double.
Variable restore : string -> option (list cell).
Variable interpolate : list cell -> list double -> double -> double -> double.
Variable grants : Z -> bool.

(** C5: two runs on the same arguments and the same snapshot, one in the
    axisymmetric and one in the planar build, end with the same status
    and write the same number of lines with the same coordinates and
    the same velocity column. *)
Theorem velocity_column_geometry_independent (argv : list string)
    (c1 c2 : Z) (w1 w2 : world) :
  main true log restore interpolate grants argv world0 = Some (c1, w1) ->
  main false log restore interpolate grants argv world0 = Some (c2, w2) ->
  c1 = c2 /\
  column 3 (stderr w1) = column 3 (stderr w2) /\
  column 0 (stderr w1) = column 0 (stderr w2) /\
  column 1 (stderr w1) = column 1 (stderr w2) /\
  length (lines (stderr w1)) = length (lines (stderr w2)).
Proof.
  intros H1 H2. destruct (decide (length argv = 7%nat)) as [E|E].
  - destruct argv as [|a0 [|a1 [|a2 [|a3 [|a4 [|a5 [|a6 [|a7 l]]]]]]]];
      try discriminate E.
    rewrite main_seven in H1, H2. cbv zeta in H1, H2.
    destruct (validation_error _) eqn:Hv; [by simplify_eq|].
    destruct (to_int _) as [n|]; [|done].
    destruct (Z.leb_spec n 0) as [Hn|Hn]; [by simplify_eq|].
    destruct (restore _) as [g|]; [|by simplify_eq].
    pose proof (validation_error_ny _ Hv) as Hy.
    apply extract_exact in H1
      as (_ & [(-> & -> & G1) | (-> & -> & _ & G1 & _)]);
      [ | | simpl; lia | simpl in *; lia];
      (apply extract_exact in H2
        as (_ & [(-> & -> & G2) | (-> & -> & _ & G2 & _)]);
        [ | | simpl; lia | simpl in *; lia]); try congruence.
    + done.
    + rewrite !done_world_column, !done_world_lines, !length_map.
      done.
  - rewrite main_argc in H1, H2 by done. destruct argv; by simplify_eq.
Qed.

End Geometry.

Section Order.

Variable AXI : bool.
Variable log : double -> double.
Variable restore : string -> option (list cell).
Variable interpolate : list cell -> list double -> double -> double -> double.
Variable grants : Z -> bool.


(** The steps of a successful run. *)
Lemma steps_of_successful_run (argv : list string) (w : world) :
  main AXI log restore interpolate grants argv world0 = Some (0, w) ->
  calls w = [StValidate; StPlanGrid; StRegister; StRestore; StCompute;
             StAllocate; StSample; StWrite; StFlush; StClose; StRelease].
Proof.
  intros H. apply main_success in H
    as (a0 & a1 & a2 & a3 & a4 & a5 & a6 & n & _ & _ & _ & _ & -> & _).
  reflexivity.
Qed.

(** C8 (as amended): each bound is the result of [atof], which is zero
    for a token that is not a number; validation then rejects the
    configuration exactly when [ny <= 0] (first message) or
    [xmax <= xmin] or [ymax <= ymin] (second message), and the run ends
    with status 1 and that message alone; otherwise validation passes
    with nothing written. *)
Theorem bounds_read_by_atof (a0 a1 a2 a3 a4 a5 a6 : string) :
  let c :=
    {| filename := snprintf 4096 a1;
       xmin := read_bound a2; ymin := read_bound a3;
       xmax := read_bound a4; ymax := read_bound a5;
       Deltax := Deltax cfg_uninit; Deltay := Deltay cfg_uninit;
       nx := nx cfg_uninit; ny := atoi a6 |} in
  validation_error c
  = (if ny c <=? 0 then Some msg_ny
     else if fle (xmax c) (xmin c) || fle (ymax c) (ymin c)
          then Some msg_bounds else None) /\
  match validation_error c with
  | Some m =>
      main AXI log restore interpolate grants [a0; a1; a2; a3; a4; a5; a6] world0
      = Some (1, emit world0 m [] [StValidate])
  | None =>
      parse_arguments 7 [a0; a1; a2; a3; a4; a5; a6] cfg_uninit world0
      = Some ((1, c), emit world0 [] [] [StValidate])
  end.
Proof.
  cbv zeta. rewrite !read_bound_atof.
  fold (parsed_config a1 a2 a3 a4 a5 a6).
  split; [done|].
  destruct (validation_error _) eqn:E.
  - rewrite main_seven. cbv zeta. by rewrite E.
  - rewrite parse_arguments_seven. cbv zeta. by rewrite E.
Qed.

End Order.

(** ** Runs on the small snapshot *)

(** C10: on the example command line the run ends with status 0 and
    enters its steps in this order: validation, grid planning, field
    registration, snapshot restore, kernels, allocation, sampling,
    writing, flush, close, release.  Registration precedes the
    restore. *)
Theorem register_before_restore :
  exit_status (demo_main true demo_argv) = Some 0 /\
  calls (final_world (demo_main true demo_argv))
  = [StValidate; StPlanGrid; StRegister; StRestore; StCompute;
     StAllocate; StSample; StWrite; StFlush; StClose; StRelease].
Proof. split; vm_compute; reflexivity. Qed.

(** C4: with [xmin] given as [nan], [parse_arguments] returns 1 and
    writes nothing although [xmin < xmax] does not hold; the conversion
    to [int] that follows in [configure_grid] is then undefined. *)
Theorem nan_bound_passes_validation :
  parse_arguments 7 nan_argv cfg_uninit world0
  = Some ((1, parsed_config "snapshot" "nan" "0" "1" "1" "4"),
          emit world0 [] [] [StValidate]) /\
  xmin (parsed_config "snapshot" "nan" "0" "1" "1" "4") = S754_nan /\
  flt (xmin (parsed_config "snapshot" "nan" "0" "1" "1" "4"))
      (xmax (parsed_config "snapshot" "nan" "0" "1" "1" "4")) = false /\
  stderr (emit world0 [] [] [StValidate]) = [] /\
  demo_main true nan_argv = None.
Proof. split_and!; vm_compute; reflexivity. Qed.

(** C8, as stated, fails: with the bound [abc], which is not a number,
    the run ends with status 0 and writes four rows. *)
Lemma non_numeric_bound_accepted :
  numeric "abc" = false /\
  exit_status (demo_main true abc_argv) = Some 0 /\
  length (lines (stderr (final_world (demo_main true abc_argv)))) = 4%nat.
Proof. split_and!; vm_compute; reflexivity. Qed.

(** C1, as stated, fails: for the bounds (0, 0, 1e10, 1) and [ny = 1]
    the floor of the quotient is 10^10, which no [int] holds, and the
    conversion is undefined; for the bounds (0, 0, 1, 1) and [ny = 49],
    [nx] is 49 and [Deltax*nx] is below the x-span. *)
Lemma grid_quotient_beyond_int :
  (let c := parsed_config "snapshot" "0" "0" "1e10" "1" "1" in
   flt (xmin c) (xmax c) = true /\ flt (ymin c) (ymax c) = true /\
   0 < ny c /\
   ffloor (grid_quotient c) = Some 10000000000 /\
   configure_grid c (emit world0 [] [] [StValidate]) = None /\
   demo_main true wide_argv = None) /\
  (let c := parsed_config "snapshot" "0" "0" "1" "1" "49" in
   to_int (grid_quotient c) = Some 49 /\
   fsub (xmax c) (xmin c) = one /\
   fmul (Deltax (planned_config c 49)) (of_int 49)
   = S754_finite false 9007199254740991 (-53) /\
   flt (fmul (Deltax (planned_config c 49)) (of_int 49))
       (fsub (xmax c) (xmin c)) = true).
Proof. split; cbv zeta; split_and!; vm_compute; reflexivity. Qed.

(** C6, as stated, fails: the velocity of a cell whose [u.x[]] is NaN is
    NaN, which is not [>= 0]. *)
Lemma velocity_of_nan :
  velocity_cell nan_cell = S754_nan /\
  fge (velocity_cell nan_cell) zero = false.
Proof. split; vm_compute; reflexivity. Qed.

(** C9, as stated, fails: with [ny = INT_MAX] the sum [ny + 1] of the
    allocation overflows, and with [ny = 2^30 + 1] the buffer is
    allocated but the index [registered_fields*j] overflows during
    sampling. *)
Lemma buffer_index_beyond_int :
  (exit_status (demo_main true tall_argv) = None /\
   ny (run_config tall_argv) = INT_MAX /\
   nx (run_config tall_argv) = 2 /\
   run (allocate_field_buffer demo_grants (run_config tall_argv) 2)
     (ready_world true demo_log demo_restore (run_config tall_argv)) = None) /\
  run (allocate_field_buffer demo_grants tall_cfg 2)
    (ready_world true demo_log demo_restore tall_cfg)
  = Some (Returned (matrix_of (nx tall_cfg) (ny tall_cfg + 1) 16),
          emit (ready_world true demo_log demo_restore tall_cfg) [] []
            [StAllocate]) /\
  sample_fields demo_interpolate tall_cfg
    (matrix_of (nx tall_cfg) (ny tall_cfg + 1) 16) 2
    (emit (ready_world true demo_log demo_restore tall_cfg) [] []
          [StAllocate]) = None.
Proof.
  split_and!.
  - vm_compute; reflexivity.
  - vm_compute; reflexivity.
  - vm_compute; reflexivity.
  - vm_compute; reflexivity.
  - apply allocate_field_buffer_granted; vm_compute; first
      [reflexivity | discriminate].
  - apply sample_fields_index_overflow; [done | done | reflexivity].
Qed.

(** The plan for the bounds (0, 0, 1, 2) and [ny = 4]: two columns, both
    spacings 0.5. *)
Lemma grid_planning_example :
  (flt (atof "0") (atof "1") = true /\ flt (atof "0") (atof "2") = true /\
   0 < atoi "4") /\
  ffloor (fdiv (fsub (atof "1") (atof "0"))
               (fdiv (fsub (atof "2") (atof "0")) (of_int (atoi "4"))))
  = Some 2 /\
  exists cfg,
    configure_grid (parsed_config "snapshot" "0" "0" "1" "2" "4")
      (emit world0 [] [] [StValidate])
    = Some ((1, cfg), emit world0 [] [] [StValidate; StPlanGrid]) /\
    nx cfg = 2 /\ Deltax cfg = atof "0.5" /\ Deltay cfg = atof "0.5".
Proof.
  split; [split_and!; vm_compute; reflexivity|].
  destruct (grid_planning true demo_log demo_restore demo_interpolate
              demo_grants "getData" "snapshot" "0" "0" "1" "2" "4" 2)
    as (_ & Hf & cfg & Hc & Hdy & Hnx & Hdx & _);
    try (vm_compute; reflexivity).
  split; [exact Hf|].
  exists cfg. split_and!; [exact Hc | exact Hnx | |].
  - rewrite Hdx. vm_compute. reflexivity.
  - rewrite Hdy. vm_compute. reflexivity.
Defined.

(** The kernel on the first cell of the small snapshot, with a [log]
    that is 3 everywhere: the product is positive and the value is 3/3. *)
Lemma strain_rate_of_demo_cell :
  ((forall t, fgt t zero = true ->
      valid (flat_log t) = true /\ is_nan (flat_log t) = false /\
      flat_log t <> S754_infinity true) /\
   (valid (flat_log (of_int 10)) = true /\
    is_finite (flat_log (of_int 10)) = true /\
    fle (of_int 2) (flat_log (of_int 10)) = true)) /\
  D2c_cell true flat_log (demo_cell 1 2) = atof "1" /\
  is_nan (D2c_cell true flat_log (demo_cell 1 2)) = false.
Proof.
  assert (H1 : forall t, fgt t zero = true ->
             valid (flat_log t) = true /\ is_nan (flat_log t) = false /\
             flat_log t <> S754_infinity true)
    by (intros t _; split_and!; closed).
  assert (H2 : valid (flat_log (of_int 10)) = true /\
               is_finite (flat_log (of_int 10)) = true /\
               fle (of_int 2) (flat_log (of_int 10)) = true)
    by (split_and!; closed).
  split; [exact (conj H1 H2)|].
  destruct (strain_rate_kernel true flat_log H1 H2 world0 (demo_cell 1 2))
    as (_ & Hv & Hn & _).
  split; [|exact Hn]. rewrite Hv. closed.
Defined.

(** The example run writes eight rows, at the abscissae 0.25 and 0.75
    and the ordinates 0.25, 0.75, 1.25 and 1.75. *)
Lemma rows_of_demo_run :
  main true demo_log demo_restore demo_interpolate demo_grants demo_argv
    world0
  = Some (0, final_world (main true demo_log demo_restore demo_interpolate
                            demo_grants demo_argv world0)) /\
  Z.of_nat (length (lines (stderr (final_world
     (main true demo_log demo_restore demo_interpolate demo_grants
        demo_argv world0)))))
  = nx (run_config demo_argv) * ny (run_config demo_argv) /\
  nx (run_config demo_argv) * ny (run_config demo_argv) = 8 /\
  column 0 (stderr (final_world
     (main true demo_log demo_restore demo_interpolate demo_grants
        demo_argv world0)))
  = map Some [atof "0.25"; atof "0.25"; atof "0.25"; atof "0.25";
              atof "0.75"; atof "0.75"; atof "0.75"; atof "0.75"] /\
  column 1 (stderr (final_world
     (main true demo_log demo_restore demo_interpolate demo_grants
        demo_argv world0)))
  = map Some [atof "0.25"; atof "0.75"; atof "1.25"; atof "1.75";
              atof "0.25"; atof "0.75"; atof "1.25"; atof "1.75"].
Proof.
  assert (E : exit_status (main true demo_log demo_restore demo_interpolate
                             demo_grants demo_argv world0) = Some 0)
    by (vm_compute; reflexivity).
  pose proof (run_shape _ _ E) as H.
  split; [exact H|].
  destruct (rows_of_successful_run true demo_log demo_restore
              demo_interpolate demo_grants demo_argv _ H)
    as (_ & _ & _ & _ & _ & _ & _ & _ & Hlines & Hlen & _).
  split; [exact Hlen|]. split; [vm_compute; reflexivity|].
  unfold column. rewrite Hlines. split; vm_compute; reflexivity.
Defined.

(** The example run in both builds. *)
Lemma velocity_column_of_demo_runs :
  (main true demo_log demo_restore demo_interpolate demo_grants demo_argv
     world0
   = Some (0, final_world (main true demo_log demo_restore demo_interpolate
                             demo_grants demo_argv world0)) /\
   main false demo_log demo_restore demo_interpolate demo_grants demo_argv
     world0
   = Some (0, final_world (main false demo_log demo_restore
                             demo_interpolate demo_grants demo_argv
                             world0))) /\
  column 3 (stderr (final_world
    (main true demo_log demo_restore demo_interpolate demo_grants demo_argv
       world0)))
  = column 3 (stderr (final_world
    (main false demo_log demo_restore demo_interpolate demo_grants demo_argv
       world0))).
Proof.
  assert (E1 : exit_status (main true demo_log demo_restore demo_interpolate
                              demo_grants demo_argv world0) = Some 0)
    by (vm_compute; reflexivity).
  assert (E2 : exit_status (main false demo_log demo_restore
                              demo_interpolate demo_grants demo_argv world0)
               = Some 0)
    by (vm_compute; reflexivity).
  pose proof (run_shape _ _ E1) as H1. pose proof (run_shape _ _ E2) as H2.
  split; [exact (conj H1 H2)|].
  destruct (velocity_column_geometry_independent demo_log demo_restore
              demo_interpolate demo_grants demo_argv _ _ _ _ H1 H2)
    as (_ & Hc & _).
  exact Hc.
Defined.

(** The buffer of the example run. *)
Lemma buffer_of_demo_run :
  (0 <= nx (run_config demo_argv) /\ 0 <= ny (run_config demo_argv) /\
   0 < list_len [D2c; vel] <= INT_MAX /\
   ny (run_config demo_argv) + 1 <= INT_MAX /\
   nx (run_config demo_argv) * (ny (run_config demo_argv) + 1) <= INT_MAX /\
   list_len [D2c; vel] * ny (run_config demo_argv) - 1 <= INT_MAX /\
   nx (run_config demo_argv) * (ny (run_config demo_argv) + 1)
   * (list_len [D2c; vel] * 8) < 2 ^ 64 /\
   demo_grants (size_t (nx (run_config demo_argv) * 8)) = true /\
   demo_grants (size_t (nx (run_config demo_argv)
                        * (ny (run_config demo_argv) + 1)
                        * (list_len [D2c; vel] * 8))) = true) /\
  exists b0 b w3,
    run (allocate_field_buffer demo_grants (run_config demo_argv) 2)
      (ready_world true demo_log demo_restore (run_config demo_argv))
    = Some (Returned b0,
            emit (ready_world true demo_log demo_restore
                    (run_config demo_argv)) [] [] [StAllocate]) /\
    m_stride b0 = 10 /\ length (m_data b0) = 20%nat /\
    unassigned b 1 9 /\
    length (touched w3) = 32%nat.
Proof.
  assert (H1 : 0 <= nx (run_config demo_argv)) by closed.
  assert (H2 : 0 <= ny (run_config demo_argv)) by closed.
  assert (H3 : 0 < list_len [D2c; vel] <= INT_MAX) by (split; closed).
  assert (H4 : ny (run_config demo_argv) + 1 <= INT_MAX) by closed.
  assert (H5 : nx (run_config demo_argv) * (ny (run_config demo_argv) + 1)
               <= INT_MAX) by closed.
  assert (H6 : list_len [D2c; vel] * ny (run_config demo_argv) - 1
               <= INT_MAX) by closed.
  assert (H7 : nx (run_config demo_argv) * (ny (run_config demo_argv) + 1)
               * (list_len [D2c; vel] * 8) < 2 ^ 64) by closed.
  assert (H8 : demo_grants (size_t (nx (run_config demo_argv) * 8)) = true)
    by reflexivity.
  assert (H9 : demo_grants (size_t (nx (run_config demo_argv)
                                    * (ny (run_config demo_argv) + 1)
                                    * (list_len [D2c; vel] * 8))) = true)
    by reflexivity.
  split;
    [exact (conj H1 (conj H2 (conj H3 (conj H4 (conj H5 (conj H6
              (conj H7 (conj H8 H9))))))))|].
  destruct (buffer_accesses_in_bounds demo_interpolate demo_grants
              (run_config demo_argv)
              (ready_world true demo_log demo_restore (run_config demo_argv))
              H1 H2 H3 H4 H5 H6 H7 H8 H9)
    as (b0 & b & w3 & Ha & _ & Hs & Hl & _ & _ & Ht & _ & Hu).
  exists b0, b, w3. split_and!.
  - exact Ha.
  - rewrite Hs. vm_compute. reflexivity.
  - apply Nat2Z.inj. rewrite Hl. vm_compute. reflexivity.
  - assert (E9 : list_len
                   (field_list
                      (ready_world true demo_log demo_restore
                         (run_config demo_argv)))
                 * ny (run_config demo_argv) + 1 = 9) by closed.
    rewrite <- E9. apply (Hu 1 1); split; closed.
  - rewrite Ht. vm_compute. reflexivity.
Defined.

(** ** Runs: failures, limits and order *)

(** NaN goes through the subtraction and the division. *)
Lemma fsub_not_nan a b :
  is_nan (fsub a b) = false -> is_nan a = false /\ is_nan b = false.
Proof. destruct a, b; try done; by intros _. Qed.

Lemma fdiv_not_nan a b :
  is_nan (fdiv a b) = false -> is_nan a = false /\ is_nan b = false.
Proof. destruct a, b; try done; by intros _. Qed.

Lemma to_int_not_nan a n : to_int a = Some n -> is_nan a = false.
Proof. by destruct a. Qed.

(** The bounds behind a quotient that converts are numbers. *)
Lemma grid_quotient_not_nan c n :
  to_int (grid_quotient c) = Some n ->
  is_nan (xmin c) = false /\ is_nan (ymin c) = false /\
  is_nan (xmax c) = false /\ is_nan (ymax c) = false.
Proof.
  intros H. apply to_int_not_nan in H. unfold grid_quotient, grid_Deltay in H.
  apply fdiv_not_nan in H as [Hx Hd].
  apply fsub_not_nan in Hx as [? ?].
  apply fdiv_not_nan in Hd as [Hy _].
  apply fsub_not_nan in Hy as [? ?]. done.
Qed.

Lemma in_int_bounds z : in_int z = true -> INT_MIN <= z <= INT_MAX.
Proof. unfold in_int. intros [? ?]%andb_prop. lia. Qed.

Lemma to_int_bounds a n : to_int a = Some n -> INT_MIN <= n <= INT_MAX.
Proof.
  unfold to_int. destruct (ftrunc a) as [z|]; [|done].
  destruct (in_int z) eqn:E; [|done]. intros [= <-]. by apply in_int_bounds.
Qed.

(** Row [i] of [m] rows of a list laid out row after row. *)
Lemma lookup_flat_map_rows {A B} (f : A -> list B) (m : nat) (l : list A) :
  (forall a, a ∈ l -> length (f a) = m) ->
  forall (i j : nat) a,
    l !! i = Some a -> (j < m)%nat ->
    flat_map f l !! (i * m + j)%nat = f a !! j.
Proof.
  induction l as [|a0 l IH]; intros Hm i j a Hi Hj; [done|]. simpl.
  destruct i as [|i]; simpl in *.
  - injection Hi as ->. apply lookup_app_l. rewrite Hm by left. done.
  - rewrite lookup_app_r; rewrite Hm by left; [|lia].
    replace (m + i * m + j - m)%nat with (i * m + j)%nat by lia.
    apply IH; [|done..]. intros a' Ha'. apply Hm. by right.
Qed.

Lemma lookup_grid_points cfg i j :
  0 <= i < nx cfg -> 0 <= j < ny cfg ->
  grid_points cfg !! Z.to_nat (i * ny cfg + j) = Some (i, j).
Proof.
  intros Hi Hj. unfold grid_points.
  replace (Z.to_nat (i * ny cfg + j))
    with (Z.to_nat i * Z.to_nat (ny cfg) + Z.to_nat j)%nat by nia.
  rewrite (lookup_flat_map_rows _ (Z.to_nat (ny cfg)) _) with (a := i).
  - rewrite list_lookup_fmap, lookup_seqZ_lt by lia. simpl. f_equal.
    f_equal. lia.
  - intros a _. by rewrite length_map, length_seqZ.
  - rewrite lookup_seqZ_lt by lia. f_equal. lia.
  - lia.
Qed.


(** After validation the quotient that gives [nx] is not negative. *)
Lemma grid_quotient_signed c :
  valid (xmin c) = true -> valid (ymin c) = true ->
  valid (xmax c) = true -> valid (ymax c) = true ->
  flt (xmin c) (xmax c) = true -> flt (ymin c) (ymax c) = true ->
  0 < ny c ->
  is_nan (grid_quotient c) = true \/ signed false (grid_quotient c).
Proof.
  intros Vx0 Vy0 Vx1 Vy1 Hx Hy Hn.
  pose proof (fsub_signed _ _ Vx0 Vx1 Hx) as Sx.
  pose proof (fsub_signed _ _ Vy0 Vy1 Hy) as Sy.
  pose proof (of_int_signed (ny c) ltac:(lia)) as Sn.
  unfold grid_quotient, grid_Deltay.
  destruct (fdiv_signed _ _ Sy Sn) as [Hnan|Sd].
  - left. destruct (fdiv (fsub (ymax c) (ymin c)) (of_int (ny c))); try done.
    by destruct (fsub (xmax c) (xmin c)).
  - by apply fdiv_signed.
Qed.

Lemma signed_to_int a n : signed false a -> to_int a = Some n -> 0 <= n.
Proof.
  unfold to_int. intros Hs H.
  destruct a as [s|s| |s m e]; simpl in *; try done.
  - by injection H as <-.
  - subst s. simpl in H. destruct (in_int _); [|done]. injection H as <-.
    apply Z.shiftl_nonneg. lia.
Qed.

(** A quotient with a positive integral part has finite operands, and a
    finite difference or quotient comes from finite numbers. *)
Lemma fdiv_positive_parts a b n :
  to_int (fdiv a b) = Some n -> 0 < n ->
  is_finite a = true /\ is_finite b = true.
Proof.
  destruct a as [sa|sa| |sa ma ea], b as [sb|sb| |sb mb eb]; try done;
    intros [= <-]; lia.
Qed.

Lemma fdiv_finite_num a b : is_finite (fdiv a b) = true -> is_finite a = true.
Proof. by destruct a, b. Qed.

Lemma fsub_finite_parts a b :
  is_finite (fsub a b) = true -> is_finite a = true /\ is_finite b = true.
Proof.
  destruct a as [sa|sa| |sa ma ea], b as [sb|sb| |sb mb eb]; try done.
  by destruct sa, sb.
Qed.

Lemma grid_quotient_finite c n :
  to_int (grid_quotient c) = Some n -> 0 < n ->
  is_finite (xmin c) = true /\ is_finite (ymin c) = true /\
  is_finite (xmax c) = true /\ is_finite (ymax c) = true.
Proof.
  intros H Hn. unfold grid_quotient, grid_Deltay in H.
  apply fdiv_positive_parts in H as [Hx Hd]; [|done].
  apply fsub_finite_parts in Hx as [? ?].
  apply fdiv_finite_num, fsub_finite_parts in Hd as [? ?]. done.
Qed.

Section RunExtras.

Variable AXI : bool.
Variable log : double -> double.
Variable restore : string -> option (list cell).
Variable interpolate : list cell -> list double -> double -> double -> double.
Variable grants : Z -> bool.

(** X1: with an argument count other than seven the run ends with status
    1 after writing the two lines of the usage message, which names the
    program as it was called; the snapshot is not restored, no field is
    registered and no buffer is touched. *)
Theorem usage_on_wrong_argument_count (a0 : string) (rest : list string) :
  length (a0 :: rest) ≠ 7%nat ->
  exists w,
    main AXI log restore interpolate grants (a0 :: rest) world0 = Some (1, w) /\
    stderr w
    = [Text ("Error: Expected 6 arguments" ++ nl);
       Text "Usage: "; Text a0;
       Text (" <filename> <xmin> <ymin> <xmax> <ymax> <ny>" ++ nl)] /\
    calls w = [StValidate] /\ grid w = [] /\ field_list w = [] /\
    touched w = [].
Proof.
  intros H. rewrite main_argc by done. eexists. split; [reflexivity|].
  by split_and!.
Qed.


(** X3: a run can only end with status 0 on seven arguments whose bounds
    are finite numbers with [xmin < xmax] and [ymin < ymax], with
    [0 < ny < INT_MAX], and with a quotient [(xmax-xmin)/Deltay] whose
    integral part is the positive [int] that [nx] is. *)
Theorem successful_run_bounds (argv : list string) (w : world) :
  main AXI log restore interpolate grants argv world0 = Some (0, w) ->
  exists a0 a1 a2 a3 a4 a5 a6,
    argv = [a0; a1; a2; a3; a4; a5; a6] /\
    is_finite (atof a2) = true /\ is_finite (atof a3) = true /\
    is_finite (atof a4) = true /\ is_finite (atof a5) = true /\
    flt (atof a2) (atof a4) = true /\ flt (atof a3) (atof a5) = true /\
    0 < atoi a6 < INT_MAX /\
    ny (run_config argv) = atoi a6 /\
    0 < nx (run_config argv) <= INT_MAX /\
    to_int (grid_quotient (parsed_config a1 a2 a3 a4 a5 a6))
    = Some (nx (run_config argv)).
Proof.
  intros H. apply main_success in H
    as (a0 & a1 & a2 & a3 & a4 & a5 & a6 & n & -> & Hv & Hq & Hn & _ & Hny
        & _).
  exists a0, a1, a2, a3, a4, a5, a6. split; [done|].
  destruct (grid_quotient_not_nan _ _ Hq) as (N1 & N2 & N3 & N4).
  destruct (grid_quotient_finite _ _ Hq Hn) as (F1 & F2 & F3 & F4).
  simpl in N1, N2, N3, N4, F1, F2, F3, F4. unfold validation_error in Hv.
  destruct (Z.leb_spec (ny (parsed_config a1 a2 a3 a4 a5 a6)) 0) as [|Hy];
    [done|].
  destruct (fle _ _ || fle _ _) eqn:Hb; [done|].
  apply orb_false_elim in Hb as [Hbx Hby]. simpl in Hbx, Hby, Hy.
  rewrite fle_false_flt in Hbx, Hby by done.
  apply negb_false_iff in Hbx, Hby.
  apply in_int_bounds in Hny. pose proof (to_int_bounds _ _ Hq).
  unfold run_config. rewrite Hq. simpl.
  split_and!; try done; lia.
Qed.

(** X4: for six arguments with [xmin < xmax], [ymin < ymax],
    [0 < ny <= 2^30], a quotient whose integral part [n] is a positive
    [int] with [n*(ny+1)] within [int], a snapshot that [restore]
    accepts and a buffer whose two requests the allocator grants, the
    run is defined and ends with status 0 after all its steps, on the
    restored mesh, having written [n*ny] lines. *)
Theorem run_succeeds_within_limits (a0 a1 a2 a3 a4 a5 a6 : string) (n : Z)
    (g : list cell) :
  let c := parsed_config a1 a2 a3 a4 a5 a6 in
  flt (xmin c) (xmax c) = true -> flt (ymin c) (ymax c) = true ->
  0 < ny c <= 1073741824 ->
  to_int (grid_quotient c) = Some n -> 0 < n ->
  n * (ny c + 1) <= INT_MAX ->
  restore (filename c) = Some g ->
  granted grants (planned_config c n) = true ->
  exists w,
    main AXI log restore interpolate grants [a0; a1; a2; a3; a4; a5; a6] world0
    = Some (0, w) /\
    Z.of_nat (length (lines (stderr w))) = n * ny c /\
    grid w = g /\
    calls w = [StValidate; StPlanGrid; StRegister; StRestore; StCompute;
               StAllocate; StSample; StWrite; StFlush; StClose; StRelease].
Proof.
  intros c Hx Hy Hn Hq Hpos Hmax Hg Hgr.
  pose proof (validation_error_None c ltac:(lia) Hx Hy) as Hv.
  exists (done_world AXI log restore interpolate (planned_config c n)).
  split_and!.
  - rewrite main_seven. cbv zeta. fold c. rewrite Hv, Hq, Hg.
    destruct (Z.leb_spec n 0); [lia|].
    apply extract_defined;
      [change (0 <= n) | change (0 <= ny c) | change (ny c <= 1073741824)
       | change (n * (ny c + 1) <= INT_MAX) | exact Hgr]; lia.
  - rewrite done_world_lines, length_map.
    change (n * ny c) with (nx (planned_config c n) * ny (planned_config c n)).
    apply length_grid_points; [change (0 <= n) | change (0 <= ny c)]; lia.
  - change (grid _) with (snapshot restore (filename c)).
    unfold snapshot. by rewrite Hg.
  - done.
Qed.

(** X5: for six arguments that pass validation and planning, [ny] above
    [2^30] never lets the run end with status 0, and makes it undefined
    as soon as the snapshot is restored and the buffer granted: the
    product [registered_fields*j] of the buffer index leaves the range
    of [int], if [ny + 1] or the product [nx*(ny+1)] did not already. *)
Theorem run_undefined_beyond_index_range (a0 a1 a2 a3 a4 a5 a6 : string)
    (n : Z) :
  let c := parsed_config a1 a2 a3 a4 a5 a6 in
  flt (xmin c) (xmax c) = true -> flt (ymin c) (ymax c) = true ->
  1073741824 < ny c ->
  to_int (grid_quotient c) = Some n -> 0 < n ->
  (forall w,
     main AXI log restore interpolate grants [a0; a1; a2; a3; a4; a5; a6]
       world0 <> Some (0, w)) /\
  (restore (filename c) <> None ->
   granted grants (planned_config c n) = true ->
   main AXI log restore interpolate grants [a0; a1; a2; a3; a4; a5; a6] world0
   = None).
Proof.
  intros c Hx Hy Hn Hq Hpos.
  pose proof (validation_error_None c ltac:(lia) Hx Hy) as Hv.
  assert (E : forall r,
    extract interpolate grants (planned_config c n)
      (ready_world AXI log restore (planned_config c n)) = Some r ->
    r.1 = 1 /\ granted grants (planned_config c n) = false).
  { intros [r w] H. rewrite extract_eq in H. unfold granted.
    destruct (in_int (ny _ + 1)); [|done].
    destruct (grants (size_t (nx _ * sizeof_pointer))).
    2:{ by injection H as <- <-. }
    destruct (in_int (nx _ * _)); [|done].
    destruct (grants (size_t (nx _ * _ * 16))).
    2:{ by injection H as <- <-. }
    rewrite (sample_fields_index_overflow interpolate (planned_config c n))
      in H; done. }
  split.
  - intros w. rewrite main_seven. cbv zeta. fold c. rewrite Hv, Hq.
    destruct (Z.leb_spec n 0); [lia|].
    destruct (restore _); [|done].
    intros He. by apply E in He as [? _].
  - intros Hr Hgr. rewrite main_seven. cbv zeta. fold c. rewrite Hv, Hq.
    destruct (Z.leb_spec n 0); [lia|].
    destruct (restore _); [|done].
    destruct (extract _ _ _ _) as [r|] eqn:He; [|done].
    destruct (E r eq_refl) as [_ Hf]. congruence.
Qed.

(** X6: in a run that ends with status 0, line number [i*ny + j] of the
    stream, counted from 0, is the row of grid point [(i, j)]: the
    coordinates [x = Deltax*(i + 0.5) + xmin] and
    [y = Deltay*(j + 0.5) + ymin] in binary64 arithmetic, then [D2c] and
    [vel], the kernels' values on the restored mesh, interpolated at
    [(x, y)]. *)
Theorem row_of_grid_point (argv : list string) (w : world) (i j : Z) :
  main AXI log restore interpolate grants argv world0 = Some (0, w) ->
  let cfg := run_config argv in
  let centre := fun (Delta : double) (i : Z) (min : double) =>
    SFadd 53 1024
      (SFmul 53 1024 Delta
         (SFadd 53 1024 (binary_normalize 53 1024 i 0 false)
            (S754_finite false 4503599627370496 (-53))))
      min in
  let x := centre (Deltax cfg) i (xmin cfg) in
  let y := centre (Deltay cfg) j (ymin cfg) in
  0 <= i < nx cfg -> 0 <= j < ny cfg ->
  lines (stderr w) !! Z.to_nat (i * ny cfg + j)
  = Some [Num x; Text " "; Num y; Text " ";
          Num (interpolate (grid w)
                 (map (D2c_cell AXI log) (grid w)) x y); Text " ";
          Num (interpolate (grid w) (map velocity_cell (grid w)) x y)] /\
  S754_finite false 4503599627370496 (-53) = atof "0.5".
Proof.
  intros H. apply main_success in H
    as (a0 & a1 & a2 & a3 & a4 & a5 & a6 & n & -> & _ & Hq & _ & -> & _).
  cbv zeta. unfold run_config. rewrite Hq. intros Hi Hj.
  split; [|vm_compute; reflexivity].
  rewrite done_world_lines, list_lookup_fmap, lookup_grid_points by done.
  reflexivity.
Qed.



(** X16: for six arguments with [xmin < xmax], [ymin < ymax] and
    [ny > 0], the number of columns that [configure_grid] computes is
    never negative, and the run stops with the message about [nx]
    exactly when that number is 0, the x-span being shorter than one
    [Deltay]. *)
Theorem planned_columns_not_negative (a0 a1 a2 a3 a4 a5 a6 : string) (n : Z) :
  let c := parsed_config a1 a2 a3 a4 a5 a6 in
  flt (xmin c) (xmax c) = true -> flt (ymin c) (ymax c) = true ->
  0 < ny c -> to_int (grid_quotient c) = Some n ->
  0 <= n /\
  (main AXI log restore interpolate grants [a0; a1; a2; a3; a4; a5; a6] world0
   = Some (1, emit world0 msg_nx [] [StValidate; StPlanGrid]) <-> n = 0).
Proof.
  intros c Hx Hy Hn Hq.
  pose proof (validation_error_None c Hn Hx Hy) as Hv.
  assert (H0 : 0 <= n).
  { destruct (grid_quotient_signed c) as [N|S]; try done;
      try apply atof_valid.
    - apply to_int_not_nan in Hq. congruence.
    - by apply (signed_to_int _ _ S). }
  split; [done|]. rewrite main_seven. cbv zeta. fold c. rewrite Hv, Hq.
  destruct (Z.leb_spec n 0).
  - split; [lia | done].
  - split; [|lia]. destruct (restore _); [|done].
    intros He. rewrite extract_eq in He.
    destruct (in_int (ny _ + 1)); [|done].
    destruct (grants (size_t (nx _ * sizeof_pointer))); [|done].
    destruct (in_int (nx _ * _)); [|done].
    destruct (grants (size_t (nx _ * _ * 16))); [|done].
    destruct (sample_fields _ _ _ _ _) as [[b w2]|]; [|done].
    by destruct (write_fields _ _ _ _) as [[[] w3]|].
Qed.

End RunExtras.

(** ** The sample buffer for any list of registered fields *)

(** X9: in a buffer that [allocate_field_buffer] was granted, of a size
    in bytes that [size_t] holds, the slots [[i][fieldCount*j + k]] of
    different triples [(i, j, k)] with [0 <= i < nx], [0 <= j <= ny] and
    [0 <= k < fieldCount] exist and are different: no sample shares its
    slot with another one. *)
Theorem sample_slots_distinct (grants : Z -> bool) (cfg : extraction_config)
    (R : Z) (w w' : world) (b : matrix) (i j k i' j' k' : Z) :
  run (allocate_field_buffer grants cfg R) w = Some (Returned b, w') ->
  0 < R <= INT_MAX ->
  nx cfg * (ny cfg + 1) * (R * 8) < 2 ^ 64 ->
  0 <= i < nx cfg -> 0 <= j <= ny cfg -> 0 <= k < R ->
  0 <= i' < nx cfg -> 0 <= j' <= ny cfg -> 0 <= k' < R ->
  is_Some (matrix_slot b i (R * j + k)) /\
  (matrix_slot b i (R * j + k) = matrix_slot b i' (R * j' + k') ->
   i = i' /\ j = j' /\ k = k').
Proof.
  intros Ha HR Hbytes Hi Hj Hk Hi' Hj' Hk'.
  rewrite allocate_field_buffer_eq in Ha.
  assert (E8 : size_t (R * sizeof_double) = R * 8).
  { unfold size_t, sizeof_double. apply Z.mod_small. unfold INT_MAX in HR.
    change (2 ^ 64) with 18446744073709551616. lia. }
  rewrite E8 in Ha.
  destruct (in_int _); [|done]. destruct (grants _); [|done].
  destruct (in_int _); [|done]. destruct (grants _); [|done].
  injection Ha as <- <-.
  assert (0 <= nx cfg * (ny cfg + 1)) by nia.
  rewrite block_matrix_of; [| nia | by exists R].
  assert (Hs : R * 8 / 8 = R) by (apply Z.div_mul; lia).
  rewrite !matrix_of_slot; rewrite ?Hs; try nia. split; [done|].
  intros [= E]. apply Z2Nat.inj in E; try nia.
  apply position_inj in E as [-> E]; try nia.
  rewrite (Z.mul_comm R j), (Z.mul_comm R j') in E.
  apply position_inj in E as [-> ->]; done.
Qed.

Section RoundTrip.

Variable interpolate : list cell -> list double -> double -> double -> double.

(** What is read back from the sampled buffer is what was interpolated,
    for any list of fields. *)
Lemma written_rows_sampled cfg w size :
  size / 8 = Z.of_nat (length (field_list w)) ->
  written_rows w cfg
    (store_all (matrix_of (nx cfg) (ny cfg + 1) size)
               (sample_writes interpolate w cfg
                  (Z.of_nat (length (field_list w)))))
    (Z.of_nat (length (field_list w)))
  = output_rows interpolate w cfg.
Proof.
  intros Hsize. unfold written_rows, output_rows, grid_points.
  rewrite (flat_map_pairs (output_row interpolate w cfg)).
  apply flat_map_ext_elem. intros i Hi. apply elem_of_seqZ in Hi.
  apply flat_map_ext_elem. intros j Hj. apply elem_of_seqZ in Hj.
  unfold written_row, output_row. do 2 f_equal.
  apply flat_map_slot_columns. intros t s Ht. simpl. do 3 f_equal.
  apply holds_peek.
  exact (sampled_holds interpolate w cfg size i j t s Hsize
           ltac:(lia) ltac:(lia) Ht).
Qed.

(** X10: for any non-empty list of registered fields, a list of any
    length over the scalars [D2c] and [vel], when [ny+1], [nx*(ny+1)]
    and the last index [fieldCount*ny - 1] stay within [int], the size
    of the block stays within [size_t] and the allocator grants the two
    requests, allocation, sampling and writing are all defined, and what
    [write_fields] appends to the stream is, for every grid point, [i]
    outer and [j] inner, one line: [x = Deltax*(i + 0.5) + xmin] and
    [y = Deltay*(j + 0.5) + ymin] in binary64 arithmetic, then each
    registered field interpolated at [(x, y)], in registration order. *)
Theorem sample_write_round_trip (grants : Z -> bool)
    (cfg : extraction_config) (w : world) :
  let centre := fun (Delta : double) (i : Z) (min : double) =>
    SFadd 53 1024
      (SFmul 53 1024 Delta
         (SFadd 53 1024 (binary_normalize 53 1024 i 0 false)
            (S754_finite false 4503599627370496 (-53))))
      min in
  let x := fun i => centre (Deltax cfg) i (xmin cfg) in
  let y := fun j => centre (Deltay cfg) j (ymin cfg) in
  let row := fun i j =>
    [Num (x i); Text " "; Num (y j)]
    ++ flat_map (fun s =>
         [Text " "; Num (interpolate (grid w) (values w s) (x i) (y j))])
         (field_list w) in
  0 <= nx cfg -> 0 <= ny cfg -> 0 < list_len (field_list w) <= INT_MAX ->
  ny cfg + 1 <= INT_MAX -> nx cfg * (ny cfg + 1) <= INT_MAX ->
  list_len (field_list w) * ny cfg - 1 <= INT_MAX ->
  nx cfg * (ny cfg + 1) * (list_len (field_list w) * 8) < 2 ^ 64 ->
  grants (size_t (nx cfg * 8)) = true ->
  grants (size_t (nx cfg * (ny cfg + 1) * (list_len (field_list w) * 8)))
  = true ->
  exists b0 w1 b w2 w3 rows,
    run (allocate_field_buffer grants cfg (list_len (field_list w))) w
    = Some (Returned b0, w1) /\
    sample_fields interpolate cfg b0 (list_len (field_list w)) w1
    = Some (b, w2) /\
    write_fields cfg b (list_len (field_list w)) w2 = Some (tt, w3) /\
    stderr w3 = stderr w ++ rows /\
    rows
    = flat_map (fun i =>
        flat_map (fun j =>
          row i j ++ [Text (String (ascii_of_nat 10) EmptyString)])
          (seqZ 0 (ny cfg)))
        (seqZ 0 (nx cfg)) /\
    lines rows
    = flat_map (fun i => map (fun j => row i j) (seqZ 0 (ny cfg)))
        (seqZ 0 (nx cfg)) /\
    Z.of_nat (length (lines rows)) = nx cfg * ny cfg.
Proof.
  cbv zeta.
  unfold list_len, INT_MAX. set (R := Z.of_nat (length (field_list w))).
  intros Hx Hy HR Hp Hnp Hidx Hbytes G1 G2.
  assert (Hint : forall z, 0 <= z <= 2147483647 -> in_int z = true).
  { intros z Hz. unfold in_int, INT_MIN, INT_MAX.
    apply andb_true_intro. split; apply Z.leb_le; lia. }
  assert (E8 : size_t (R * sizeof_double) = R * 8).
  { unfold size_t, sizeof_double. apply Z.mod_small.
    change (2 ^ 64) with 18446744073709551616. lia. }
  assert (Hsize : R * 8 / 8 = R) by (apply Z.div_mul; lia).
  set (b0 := matrix_of (nx cfg) (ny cfg + 1) (R * 8)).
  assert (Hne : field_list w <> []).
  { intros E. unfold R in HR. rewrite E in HR. simpl in HR. lia. }
  assert (Hlines :
    lines (output_rows interpolate w cfg)
    = map (fun p =>
             [Num (grid_x cfg p.1); Text " "; Num (grid_y cfg p.2)]
             ++ flat_map (fun s =>
                  [Text " "; Num (sample_value interpolate w cfg p.1 p.2 s)])
                  (field_list w))
          (grid_points cfg)).
  { unfold output_rows. rewrite <- lines_rows.
    - reflexivity.
    - intros p _. apply Forall_app. split; [by repeat constructor|].
      generalize (field_list w). clear. intros l.
      induction l as [|s l IH]; simpl; [constructor|].
      repeat (constructor; [done|]). exact IH. }
  exists b0, (emit w [] [] [StAllocate]).
  do 3 eexists. exists (output_rows interpolate w cfg). split_and!.
  - rewrite allocate_field_buffer_eq, E8. unfold sizeof_pointer.
    rewrite G1, G2, !Hint by nia.
    rewrite block_matrix_of; [done | nia | by exists R].
  - apply sample_fields_defined; [|done].
    intros i j t Hi Hj Ht. cbn [field_list emit] in Ht. fold R in Ht.
    split_and!; try (apply Hint; nia).
    unfold b0. rewrite matrix_of_slot; rewrite ?Hsize; [done | done | nia].
  - apply write_fields_defined; [|done].
    intros i j t Hi Hj Ht. cbn [field_list emit] in Ht. fold R in Ht.
    split_and!; try (apply Hint; nia).
    assert (exists s, field_list w !! Z.to_nat t = Some s) as [s Hs].
    { apply lookup_lt_is_Some. unfold R in Ht. lia. }
    eexists.
    pose proof (sampled_holds interpolate w cfg (R * 8) i j
                  (Z.to_nat t) s Hsize Hi Hj Hs) as H.
    rewrite Z2Nat.id in H by lia. exact H.
  - cbn [stderr emit]. rewrite !app_nil_r. f_equal.
    exact (written_rows_sampled cfg w _ Hsize).
  - unfold output_rows, grid_points.
    rewrite (flat_map_pairs (output_row interpolate w cfg)).
    unfold output_row. apply flat_map_ext_elem. intros i _.
    apply flat_map_ext_elem. intros j _.
    by rewrite <- app_assoc.
  - rewrite Hlines. unfold grid_points. rewrite map_flat_map_pairs.
    reflexivity.
  - rewrite Hlines, length_map. by apply length_grid_points.
Qed.

End RoundTrip.

(** ** The kernels *)

Lemma sq_nan_or_signed a : is_nan (sq a) = true \/ signed false (sq a).
Proof.
  destruct (is_nan a) eqn:E; [|right; by apply sq_signed].
  left. by destruct a.
Qed.

Lemma fadd_nan_or_signed a b :
  is_nan a = true \/ signed false a -> is_nan b = true \/ signed false b ->
  is_nan (fadd a b) = true \/ signed false (fadd a b).
Proof.
  intros [Ha|Ha] [Hb|Hb].
  - left. by destruct a.
  - left. by destruct a.
  - left. destruct b; try done. by destruct a.
  - right. by apply fadd_signed.
Qed.

Lemma fmul_nan_or_signed a b :
  is_nan a = true \/ signed false a -> is_nan b = true \/ signed false b ->
  is_nan (fmul a b) = true \/ signed false (fmul a b).
Proof.
  intros [Ha|Ha] [Hb|Hb].
  - left. by destruct a.
  - left. by destruct a.
  - left. destruct b; try done. by destruct a.
  - unfold fmul.
    destruct a as [sa|sa| |sa ma ea], b as [sb|sb| |sb mb eb]; simpl in *;
      try done; subst; simpl; auto.
    right. by apply binary_round_aux_signed.
Qed.

(** The square of a number is not the negative zero, so adding [0.] to it
    changes nothing. *)
Lemma fadd_sq_zero a : fadd (sq a) zero = sq a.
Proof.
  destruct (sq_nan_or_signed a) as [H|H]; destruct (sq a) as [s|s| |s m e];
    try done.
  simpl in H. by subst.
Qed.

Section Kernels.

Variable log : double -> double.

(** X11: the second invariant [D2] of a cell is never negative, in both
    builds: it is NaN or it is [>= 0]. *)
Theorem second_invariant_not_negative (AXI : bool) (c : cell) :
  is_nan (D2 AXI c) = true \/ fge (D2 AXI c) zero = true.
Proof.
  assert (H : is_nan (D2 AXI c) = true \/ signed false (D2 AXI c)).
  { assert (H2 : is_nan two = true \/ signed false two) by (by right).
    unfold D2. destruct AXI;
      repeat first [exact H2 | apply sq_nan_or_signed
                   | apply fadd_nan_or_signed | apply fmul_nan_or_signed]. }
  destruct H as [H|H]; [by left|]. right. by apply signed_fle_zero.
Qed.

(** X12: in a cell whose ordinate does not exceed the threshold [1e-10],
    the axis in particular, the axisymmetric build computes the same
    second invariant and stores the same value of [D2c] as the planar
    build. *)
Theorem strain_rate_on_axis (c : cell) :
  fgt (cell_y c) axis_eps = false ->
  D22 c = zero /\ D2 true c = D2 false c /\
  D2c_cell true log c = D2c_cell false log c.
Proof.
  intros H.
  assert (E22 : D22 c = zero) by (unfold D22; by rewrite H).
  assert (E : D2 true c = D2 false c).
  { unfold D2. rewrite E22. change (sq zero) with zero.
    by rewrite fadd_sq_zero. }
  split_and!; [done | done |]. unfold D2c_cell. by rewrite E.
Qed.

(** X13: the viscosity ratio is 1 where the volume fraction is 1 and
    [2e-2] where it is 0. *)
Theorem viscosity_ratio_of_pure_phases (c : cell) :
  cell_f c = one \/ cell_f c = zero ->
  mu_r c = (if fgt (cell_f c) zero then one else mu_gas).
Proof. unfold mu_r. by intros [-> | ->]; vm_compute. Qed.

End Kernels.

(** ** The C library on decimal numerals *)

Lemma append_cons c s r : (String c s ++ r)%string = String c (s ++ r)%string.
Proof. reflexivity. Qed.

Lemma read_digits_stop acc n r :
  digit_head r = false -> read_digits digit_of 10 r acc n = (acc, n, r).
Proof.
  destruct r as [|c r]; [done|]. simpl.
  destruct (digit_of c); [done|]. done.
Qed.

Ltac read_digit :=
  rewrite append_cons; cbn [read_digits];
  match goal with
  | |- context [digit_of ?c] =>
      let v := eval vm_compute in (digit_of c) in
      change (digit_of c) with v
  end; cbv iota beta.

Lemma read_digits_uint_acc d r :
  digit_head r = false ->
  forall acc n,
    read_digits digit_of 10 (NilEmpty.string_of_uint d ++ r)%string
      (Z.pos acc) n
    = (Z.pos (Pos.of_uint_acc d acc), n + Z.of_nat (Decimal.nb_digits d), r).
Proof.
  intros Hr. induction d as [|d IH|d IH|d IH|d IH|d IH|d IH|d IH|d IH|d IH|d IH];
    intros acc n;
    [ rewrite read_digits_stop by done; simpl; do 2 f_equal; lia
    | cbn [NilEmpty.string_of_uint Pos.of_uint_acc Decimal.nb_digits];
      read_digit .. ];
    match goal with
    | |- read_digits _ _ _ ?a _ = _ =>
        match goal with
        | |- _ = (Z.pos (Pos.of_uint_acc _ ?p), _, _) =>
            replace a with (Z.pos p) by lia
        end
    end; rewrite IH; do 2 f_equal; lia.
Qed.

Lemma read_digits_uint d r :
  digit_head r = false ->
  forall n,
    read_digits digit_of 10 (NilEmpty.string_of_uint d ++ r)%string 0 n
    = (Z.of_N (Pos.of_uint d), n + Z.of_nat (Decimal.nb_digits d), r).
Proof.
  intros Hr. induction d as [|d IH|d IH|d IH|d IH|d IH|d IH|d IH|d IH|d IH|d IH];
    intros n;
    [ rewrite read_digits_stop by done; simpl; do 2 f_equal; lia
    | cbn [NilEmpty.string_of_uint Pos.of_uint Decimal.nb_digits];
      read_digit .. ].
  1: { change (10 * 0 + 0) with 0. rewrite IH. do 2 f_equal. lia. }
  all: match goal with
         | |- read_digits _ _ _ ?a _
              = (Z.of_N (N.pos (Pos.of_uint_acc _ ?p)), _, _) =>
             change a with (Z.pos p)
       end; rewrite (read_digits_uint_acc d r Hr); simpl Z.of_N;
       do 2 f_equal; lia.
Qed.

Lemma append_empty s : (s ++ "")%string = s.
Proof.
  induction s as [|c s IH]; [done|]. rewrite append_cons. by f_equal.
Qed.

(** A numeral that is not empty begins with a digit: no white space, no
    sign, and none of the words that [strtod] knows. *)
Lemma uint_head d r :
  d <> Decimal.Nil ->
  exists c s,
    (NilEmpty.string_of_uint d ++ r)%string = String c s /\
    isspace c = false /\
    read_sign (String c s) = (false, String c s) /\
    strip_prefix_ci "inf" (String c s) = None /\
    strip_prefix_ci "nan" (String c s) = None /\
    0 < Z.of_nat (Decimal.nb_digits d).
Proof.
  intros Hd. destruct d; [done|..];
    cbn [NilEmpty.string_of_uint Decimal.nb_digits]; rewrite append_cons;
    eexists _, _; (split; [reflexivity|]); split_and!;
    try reflexivity; lia.
Qed.

Lemma uint_not_hex d :
  strip_prefix_ci "0x" (NilEmpty.string_of_uint d) = None.
Proof. destruct d as [|d| | | | | | | | |]; try done. by destruct d. Qed.

Lemma nilzero_uint d :
  d <> Decimal.Nil -> NilZero.string_of_uint d = NilEmpty.string_of_uint d.
Proof. by destruct d. Qed.

(** The numeral of [z]: a sign and the digits of its absolute value. *)
Lemma numeral_shape z :
  exists d, d <> Decimal.Nil /\ Z.of_N (Pos.of_uint d) = Z.abs z /\
    NilZero.string_of_int (Z.to_int z)
    = (if z <? 0 then String "-" (NilEmpty.string_of_uint d)
       else NilEmpty.string_of_uint d).
Proof.
  destruct z as [|p|p].
  - exists (Decimal.D0 Decimal.Nil). done.
  - exists (Pos.to_uint p). pose proof (DecimalPos.Unsigned.to_uint_nonnil p).
    rewrite DecimalPos.Unsigned.of_to. split_and!; [done | done |].
    simpl. by apply nilzero_uint.
  - exists (Pos.to_uint p). pose proof (DecimalPos.Unsigned.to_uint_nonnil p).
    rewrite DecimalPos.Unsigned.of_to. split_and!; [done | done |].
    simpl. f_equal. by apply nilzero_uint.
Qed.

Lemma strtol10_uint d r :
  d <> Decimal.Nil -> digit_head r = false ->
  strtol10 (NilEmpty.string_of_uint d ++ r)
  = Z.max LONG_MIN (Z.min LONG_MAX (Z.of_N (Pos.of_uint d))) /\
  strtol10 (String "-" (NilEmpty.string_of_uint d ++ r))
  = Z.max LONG_MIN (Z.min LONG_MAX (- Z.of_N (Pos.of_uint d))).
Proof.
  intros Hd Hr. pose proof (read_digits_uint d r Hr 0) as Hv.
  destruct (uint_head d r Hd) as (c & s & E & Hsp & Hsg & _).
  unfold strtol10. split.
  - rewrite E in *. cbn [skip_space]. rewrite Hsp, Hsg. cbv beta iota.
    by rewrite Hv.
  - cbn [skip_space]. change (isspace "-") with false. cbv iota.
    change (read_sign (String "-" ?x)) with (true, x). cbv beta iota.
    by rewrite Hv.
Qed.

(** X14: [atoi] reads the decimal numeral of every [int] as that number,
    whatever follows the numeral as long as it is not one more digit; so
    [ny] is the number written on the command line. *)
Theorem atoi_of_numeral (z : Z) (r : string) :
  INT_MIN <= z <= INT_MAX -> digit_head r = false ->
  atoi (NilZero.string_of_int (Z.to_int z) ++ r) = z /\
  forall a0 a1 a2 a3 a4 a5 w,
    exists ok cfg w',
      parse_arguments 7
        [a0; a1; a2; a3; a4; a5;
         (NilZero.string_of_int (Z.to_int z) ++ r)%string] cfg_uninit w
      = Some ((ok, cfg), w') /\
      ny cfg = z.
Proof.
  intros Hz Hr.
  assert (E : atoi (NilZero.string_of_int (Z.to_int z) ++ r) = z);
    [|split; [done|]; intros a0 a1 a2 a3 a4 a5 w;
      rewrite parse_arguments_seven; cbv zeta;
      destruct (validation_error _); eexists _, _, _; by split].
  destruct (numeral_shape z) as (d & Hd & Habs & ->).
  destruct (strtol10_uint d r Hd Hr) as [Hp Hn].
  unfold atoi, wrap_int, INT_MIN, INT_MAX, LONG_MIN, LONG_MAX in *.
  destruct (Z.ltb_spec z 0).
  - rewrite append_cons, Hn, Habs.
    rewrite Z.max_r, Z.min_r by lia.
    rewrite Z.mod_small by lia. lia.
  - rewrite Hp, Habs.
    rewrite Z.max_r, Z.min_r by lia.
    rewrite Z.mod_small by lia. lia.
Qed.

Lemma strtod_uint neg d :
  d <> Decimal.Nil ->
  strtod_hex neg (NilEmpty.string_of_uint d) = None /\
  strtod_dec neg (NilEmpty.string_of_uint d)
  = Some (decimal_to_double neg (Z.of_N (Pos.of_uint d)) 0).
Proof.
  intros Hd. split.
  - unfold strtod_hex. by rewrite uint_not_hex.
  - pose proof (read_digits_uint d "" eq_refl 0) as Hv.
    destruct (uint_head d "" Hd) as (_ & _ & _ & _ & _ & _ & _ & Hn).
    rewrite append_empty in Hv.
    unfold strtod_dec, read_significand. rewrite Hv.
    destruct (Z.ltb_spec 0 (0 + Z.of_nat (Decimal.nb_digits d))); [|lia].
    done.
Qed.

Lemma decimal_to_double_integer neg z :
  0 <= z ->
  decimal_to_double neg z 0
  = (if z =? 0 then S754_zero neg
     else binary_round prec emax neg (Z.to_pos z) 0).
Proof.
  intros Hz. destruct z as [|p|p]; [done | | lia].
  unfold decimal_to_double. simpl (0 <=? 0). cbv iota.
  change (10 ^ 0) with 1. by rewrite Z.mul_1_r.
Qed.

(** X15: [atof] reads the decimal numeral of every integer as that
    integer, rounded to [double] as the conversion from an integer type
    rounds it; so a bound written as an integer is that integer. *)
Theorem atof_of_numeral (z : Z) :
  atof (NilZero.string_of_int (Z.to_int z)) = of_int z /\
  is_nan (atof (NilZero.string_of_int (Z.to_int z))) = false /\
  forall a0 a1 a3 a4 a5 a6 w,
    exists ok cfg w',
      parse_arguments 7
        [a0; a1; NilZero.string_of_int (Z.to_int z); a3; a4; a5; a6]
        cfg_uninit w
      = Some ((ok, cfg), w') /\
      xmin cfg = of_int z.
Proof.
  assert (E : atof (NilZero.string_of_int (Z.to_int z)) = of_int z).
  { destruct (numeral_shape z) as (d & Hd & Habs & ->).
    destruct (uint_head d "" Hd) as (c & s & E & Hsp & Hsg & Hinf & Hnan & _).
    rewrite append_empty in E.
    assert (Hsk : skip_space (NilEmpty.string_of_uint d)
                  = NilEmpty.string_of_uint d).
    { rewrite E. cbn [skip_space]. by rewrite Hsp. }
    rewrite <- E in Hsg, Hinf, Hnan. clear E Hsp.
    unfold atof. destruct (Z.ltb_spec z 0).
    - cbn [skip_space]. change (isspace "-") with false. cbv iota.
      change (read_sign (String "-" ?x)) with (true, x). cbv beta iota.
      destruct (strtod_uint true d Hd) as [Hh Hdec].
      rewrite Hinf, Hnan, Hh, Hdec.
      rewrite Habs, decimal_to_double_integer by lia.
      destruct z as [|p|p]; try lia. reflexivity.
    - destruct (strtod_uint false d Hd) as [Hh Hdec].
      rewrite Hsk, Hsg. cbv beta iota.
      rewrite Hinf, Hnan, Hh, Hdec.
      rewrite Habs, decimal_to_double_integer by lia.
      destruct z as [|p|p]; try lia; reflexivity. }
  split_and!; [exact E | |
    intros a0 a1 a3 a4 a5 a6 w; rewrite parse_arguments_seven; cbv zeta;
    destruct (validation_error _); eexists _, _, _; by split].
  rewrite E.
  pose proof (of_int_valid z) as V. unfold of_int in *.
  destruct z as [|p|p]; [done | |];
    pose proof (binary_round_signed false p 0) as S1;
    pose proof (binary_round_signed true p 0) as S2;
    unfold binary_normalize; simpl.
  - by destruct (binary_round prec emax false p 0).
  - by destruct (binary_round prec emax true p 0).
Qed.

(** ** A flow without deformation *)

Lemma fsub_diag a : is_finite a = true -> fsub a a = zero.
Proof.
  destruct a as [s|s| |s m e]; try done.
  - by destruct s.
  - intros _. unfold fsub, SFsub. by rewrite Z.sub_diag.
Qed.

Lemma fadd_zero_sub a : is_finite a = true -> fsub (fadd zero a) a = zero.
Proof.
  destruct a as [s|s| |s m e]; try done.
  - by destruct s.
  - intros _. change (fadd zero (S754_finite s m e)) with (S754_finite s m e).
    by apply fsub_diag.
Qed.

Lemma fdiv_zero_positive d : fgt d zero = true -> fdiv zero d = zero.
Proof. destruct d as [s|s| |s m e]; try done; by destruct s. Qed.

Lemma fmul_zero_not_positive a : fgt (fmul a zero) zero = false.
Proof. destruct a as [s|s| |s m e]; try done; by destruct s. Qed.

Section Uniform.

Variable log : double -> double.

(** X17: in a cell whose neighbourhood has one finite velocity, with
    [2*Delta > 0], every difference of the stencil is zero: the planar
    build finds [D2 = 0] and stores the floor value [-10], and so does
    the axisymmetric build when the axial velocity is zero. *)
Theorem uniform_flow_gets_floor (c : cell) (ux uy : double) :
  is_finite ux = true -> is_finite uy = true ->
  (forall i j, u_x c i j = ux) -> (forall i j, u_y c i j = uy) ->
  fgt (fmul (of_int 2) (Delta c)) zero = true ->
  D11 c = zero /\ D33 c = zero /\ D13 c = zero /\
  D2 false c = zero /\ D2c_cell false log c = floor_value /\
  (uy = zero -> D2 true c = zero /\ D2c_cell true log c = floor_value).
Proof.
  intros Fx Fy Hx Hy Hd.
  assert (E11 : D11 c = zero).
  { unfold D11. rewrite !Hy, fsub_diag by done. by apply fdiv_zero_positive. }
  assert (E33 : D33 c = zero).
  { unfold D33. rewrite !Hx, fsub_diag by done. by apply fdiv_zero_positive. }
  assert (E13 : D13 c = zero).
  { unfold D13. rewrite !Hx, !Hy, fsub_diag, fadd_zero_sub by done.
    by rewrite fdiv_zero_positive. }
  assert (E2 : D2 false c = zero).
  { unfold D2. by rewrite E11, E33, E13. }
  split_and!; try done.
  - unfold D2c_cell. by rewrite E2, fmul_zero_not_positive.
  - intros ->.
    assert (E22 : D22 c = zero).
    { unfold D22. rewrite Hy. destruct (fgt (cell_y c) axis_eps) eqn:G; [|done].
      apply fdiv_zero_positive. by apply above_eps_positive. }
    assert (E2' : D2 true c = zero).
    { unfold D2. by rewrite E11, E22, E33, E13. }
    split; [done|]. unfold D2c_cell. by rewrite E2', fmul_zero_not_positive.
Qed.

End Uniform.

(** The uniform cell. *)
Lemma uniform_cell_gets_floor :
  (is_finite (of_int 3) = true /\ is_finite zero = true /\
   fgt (fmul (of_int 2) (Delta uniform_cell)) zero = true) /\
  D2c_cell false demo_log uniform_cell = floor_value /\
  D2c_cell true demo_log uniform_cell = floor_value.
Proof.
  assert (H1 : is_finite (of_int 3) = true) by closed.
  assert (H2 : is_finite zero = true) by closed.
  assert (H3 : fgt (fmul (of_int 2) (Delta uniform_cell)) zero = true)
    by closed.
  split; [exact (conj H1 (conj H2 H3))|].
  destruct (uniform_flow_gets_floor demo_log uniform_cell (of_int 3) zero
              H1 H2 (fun _ _ => eq_refl) (fun _ _ => eq_refl) H3)
    as (_ & _ & _ & _ & Hp & Ha).
  split; [exact Hp|]. destruct (Ha eq_refl) as [_ Hc]. exact Hc.
Defined.

(** ** More runs on the small snapshot *)

(** Two arguments only. *)
Lemma usage_on_two_arguments :
  length ("getData" :: ["snapshot"])%string ≠ 7%nat /\
  exists w,
    main true demo_log demo_restore demo_interpolate demo_grants
      ("getData" :: ["snapshot"])%string world0 = Some (1, w) /\
    calls w = [StValidate] /\ touched w = [].
Proof.
  assert (H : length ("getData" :: ["snapshot"])%string ≠ 7%nat) by closed.
  split; [exact H|].
  destruct (usage_on_wrong_argument_count true demo_log demo_restore
              demo_interpolate demo_grants "getData" ["snapshot"%string] H)
    as (w & Hm & _ & Hc & _ & _ & Ht).
  exists w. exact (conj Hm (conj Hc Ht)).
Defined.


(** The bounds of the example run. *)
Lemma bounds_of_demo_run :
  main true demo_log demo_restore demo_interpolate demo_grants demo_argv world0
  = Some (0, final_world (main true demo_log demo_restore demo_interpolate demo_grants
                            demo_argv world0)) /\
  0 < nx (run_config demo_argv) <= INT_MAX.
Proof.
  assert (E : exit_status (main true demo_log demo_restore demo_interpolate demo_grants
                             demo_argv world0) = Some 0) by closed.
  pose proof (run_shape _ _ E) as H.
  split; [exact H|].
  destruct (successful_run_bounds true demo_log demo_restore
              demo_interpolate demo_grants demo_argv _ H)
    as (a0 & a1 & a2 & a3 & a4 & a5 & a6 & _ & _ & _ & _ & _ & _ & _ & _ & _
        & Hnx & _).
  exact Hnx.
Defined.

(** The example run is within the limits. *)
Lemma demo_run_succeeds :
  (flt (xmin (parsed_config "snapshot" "0" "0" "1" "2" "4"))
       (xmax (parsed_config "snapshot" "0" "0" "1" "2" "4")) = true /\
   flt (ymin (parsed_config "snapshot" "0" "0" "1" "2" "4"))
       (ymax (parsed_config "snapshot" "0" "0" "1" "2" "4")) = true /\
   0 < ny (parsed_config "snapshot" "0" "0" "1" "2" "4") <= 1073741824 /\
   to_int (grid_quotient (parsed_config "snapshot" "0" "0" "1" "2" "4"))
   = Some 2 /\ 0 < 2 /\
   2 * (ny (parsed_config "snapshot" "0" "0" "1" "2" "4") + 1) <= INT_MAX /\
   demo_restore (filename (parsed_config "snapshot" "0" "0" "1" "2" "4"))
   = Some [demo_cell 1 2; demo_cell 3 0] /\
   granted demo_grants
     (planned_config (parsed_config "snapshot" "0" "0" "1" "2" "4") 2)
   = true) /\
  exists w,
    main true demo_log demo_restore demo_interpolate demo_grants
      ["getData"; "snapshot"; "0"; "0"; "1"; "2"; "4"]%string world0
    = Some (0, w) /\
    Z.of_nat (length (lines (stderr w))) = 8 /\
    grid w = [demo_cell 1 2; demo_cell 3 0].
Proof.
  assert (H1 : flt (xmin (parsed_config "snapshot" "0" "0" "1" "2" "4"))
                   (xmax (parsed_config "snapshot" "0" "0" "1" "2" "4"))
               = true) by closed.
  assert (H2 : flt (ymin (parsed_config "snapshot" "0" "0" "1" "2" "4"))
                   (ymax (parsed_config "snapshot" "0" "0" "1" "2" "4"))
               = true) by closed.
  assert (H3 : 0 < ny (parsed_config "snapshot" "0" "0" "1" "2" "4")
               <= 1073741824) by (split; closed).
  assert (H4 : to_int (grid_quotient
                         (parsed_config "snapshot" "0" "0" "1" "2" "4"))
               = Some 2) by closed.
  assert (H5 : 0 < 2) by lia.
  assert (H6 : 2 * (ny (parsed_config "snapshot" "0" "0" "1" "2" "4") + 1)
               <= INT_MAX) by closed.
  assert (H7 : demo_restore
                 (filename (parsed_config "snapshot" "0" "0" "1" "2" "4"))
               = Some [demo_cell 1 2; demo_cell 3 0]) by reflexivity.
  assert (H8 : granted demo_grants
                 (planned_config
                    (parsed_config "snapshot" "0" "0" "1" "2" "4") 2)
               = true) by reflexivity.
  split;
    [exact (conj H1 (conj H2 (conj H3 (conj H4 (conj H5 (conj H6
              (conj H7 H8)))))))|].
  destruct (run_succeeds_within_limits true demo_log demo_restore
              demo_interpolate demo_grants "getData" "snapshot" "0" "0" "1"
              "2" "4" 2 _ H1 H2 H3 H4 H5 H6 H7 H8) as (w & Hm & Hl & Hg & _).
  exists w. split; [exact Hm|]. split; [|exact Hg].
  assert (E8 : 2 * ny (parsed_config "snapshot" "0" "0" "1" "2" "4") = 8)
    by closed.
  rewrite <- E8. exact Hl.
Defined.

(** One column of [2^30 + 1] rows. *)
Lemma deep_run_undefined :
  (flt (xmin (parsed_config "snapshot" "0" "0" "1" "1073741825"
                "1073741825"))
       (xmax (parsed_config "snapshot" "0" "0" "1" "1073741825"
                "1073741825")) = true /\
   flt (ymin (parsed_config "snapshot" "0" "0" "1" "1073741825"
                "1073741825"))
       (ymax (parsed_config "snapshot" "0" "0" "1" "1073741825"
                "1073741825")) = true /\
   1073741824 < ny (parsed_config "snapshot" "0" "0" "1" "1073741825"
                      "1073741825") /\
   to_int (grid_quotient (parsed_config "snapshot" "0" "0" "1" "1073741825"
                            "1073741825")) = Some 1 /\ 0 < 1) /\
  main true demo_log demo_restore demo_interpolate demo_grants
    ["getData"; "snapshot"; "0"; "0"; "1"; "1073741825"; "1073741825"]%string
    world0 = None.
Proof.
  assert (H1 : flt (xmin (parsed_config "snapshot" "0" "0" "1" "1073741825"
                            "1073741825"))
                   (xmax (parsed_config "snapshot" "0" "0" "1" "1073741825"
                            "1073741825")) = true) by closed.
  assert (H2 : flt (ymin (parsed_config "snapshot" "0" "0" "1" "1073741825"
                            "1073741825"))
                   (ymax (parsed_config "snapshot" "0" "0" "1" "1073741825"
                            "1073741825")) = true) by closed.
  assert (H3 : 1073741824 < ny (parsed_config "snapshot" "0" "0" "1"
                                  "1073741825" "1073741825")) by closed.
  assert (H4 : to_int (grid_quotient (parsed_config "snapshot" "0" "0" "1"
                                        "1073741825" "1073741825"))
               = Some 1) by closed.
  assert (H5 : 0 < 1) by lia.
  split; [exact (conj H1 (conj H2 (conj H3 (conj H4 H5))))|].
  destruct (run_undefined_beyond_index_range true demo_log demo_restore
              demo_interpolate demo_grants "getData" "snapshot" "0" "0" "1"
              "1073741825" "1073741825" 1 H1 H2 H3 H4 H5) as [_ Hu].
  apply Hu; [discriminate | reflexivity].
Defined.

(** Line 6 of the example run is the row of grid point (1, 2), at
    x = 0.75 and y = 1.25. *)
Lemma row_of_demo_run :
  (main true demo_log demo_restore demo_interpolate demo_grants demo_argv
     world0
   = Some (0, final_world (main true demo_log demo_restore demo_interpolate
                             demo_grants demo_argv world0)) /\
   0 <= 1 < nx (run_config demo_argv) /\
   0 <= 2 < ny (run_config demo_argv)) /\
  lines (stderr (final_world
           (main true demo_log demo_restore demo_interpolate demo_grants
              demo_argv world0))) !! 6%nat
  = Some [Num (atof "0.75"); Text " "; Num (atof "1.25"); Text " ";
          Num (S754_finite false 5598224536800825 (-50)); Text " ";
          Num (S754_finite false 6724027315385512 (-51))].
Proof.
  assert (E : exit_status (main true demo_log demo_restore demo_interpolate
                             demo_grants demo_argv world0) = Some 0)
    by closed.
  pose proof (run_shape _ _ E) as H.
  assert (H1 : 0 <= 1 < nx (run_config demo_argv)) by (split; closed).
  assert (H2 : 0 <= 2 < ny (run_config demo_argv)) by (split; closed).
  split; [exact (conj H (conj H1 H2))|].
  destruct (row_of_grid_point true demo_log demo_restore demo_interpolate
              demo_grants demo_argv _ 1 2 H H1 H2) as [Hrow _].
  assert (E6 : Z.to_nat (1 * ny (run_config demo_argv) + 2) = 6%nat)
    by closed.
  rewrite E6 in Hrow. rewrite Hrow. vm_compute. reflexivity.
Defined.



(** Two slots of the buffer of the example run. *)
Lemma slots_of_demo_buffer :
  (run (allocate_field_buffer demo_grants (run_config demo_argv) 2) world0
   = Some (Returned (matrix_of 2 5 16), emit world0 [] [] [StAllocate]) /\
   0 < 2 <= INT_MAX /\
   nx (run_config demo_argv) * (ny (run_config demo_argv) + 1) * (2 * 8)
   < 2 ^ 64 /\
   0 <= 0 < nx (run_config demo_argv) /\
   0 <= 1 <= ny (run_config demo_argv) /\ 0 <= 0 < 2 /\
   0 <= 1 < nx (run_config demo_argv) /\
   0 <= 4 <= ny (run_config demo_argv) /\ 0 <= 1 < 2) /\
  is_Some (matrix_slot (matrix_of 2 5 16) 0 (2 * 1 + 0)) /\
  matrix_slot (matrix_of 2 5 16) 0 (2 * 1 + 0)
  <> matrix_slot (matrix_of 2 5 16) 1 (2 * 4 + 1).
Proof.
  assert (Ha : run (allocate_field_buffer demo_grants (run_config demo_argv)
                      2) world0
               = Some (Returned (matrix_of 2 5 16),
                       emit world0 [] [] [StAllocate]))
    by closed.
  assert (HR : 0 < 2 <= INT_MAX) by (split; closed).
  assert (Hb : nx (run_config demo_argv) * (ny (run_config demo_argv) + 1)
               * (2 * 8) < 2 ^ 64) by closed.
  assert (Hi : 0 <= 0 < nx (run_config demo_argv)) by (split; closed).
  assert (Hj : 0 <= 1 <= ny (run_config demo_argv)) by (split; closed).
  assert (Hk : 0 <= 0 < 2) by lia.
  assert (Hi' : 0 <= 1 < nx (run_config demo_argv)) by (split; closed).
  assert (Hj' : 0 <= 4 <= ny (run_config demo_argv)) by (split; closed).
  assert (Hk' : 0 <= 1 < 2) by lia.
  split;
    [exact (conj Ha (conj HR (conj Hb (conj Hi (conj Hj (conj Hk (conj Hi'
              (conj Hj' Hk'))))))))|].
  destruct (sample_slots_distinct demo_grants (run_config demo_argv) 2
              world0 _ _ 0 1 0 1 4 1 Ha HR Hb Hi Hj Hk Hi' Hj' Hk')
    as [Hs Hd].
  split; [exact Hs|]. intros He. destruct (Hd He) as (Hf & _). lia.
Defined.

(** Sampling and writing the two fields of the example run: eight
    lines, the first one at x = 0.25 and y = 0.25. *)
Lemma round_trip_of_demo_fields :
  (0 <= nx (run_config demo_argv) /\ 0 <= ny (run_config demo_argv) /\
   0 < list_len (field_list (ready_world true demo_log demo_restore
                               (run_config demo_argv))) <= INT_MAX /\
   ny (run_config demo_argv) + 1 <= INT_MAX /\
   nx (run_config demo_argv) * (ny (run_config demo_argv) + 1) <= INT_MAX /\
   list_len (field_list (ready_world true demo_log demo_restore
                           (run_config demo_argv)))
   * ny (run_config demo_argv) - 1 <= INT_MAX /\
   nx (run_config demo_argv) * (ny (run_config demo_argv) + 1)
   * (list_len (field_list (ready_world true demo_log demo_restore
                              (run_config demo_argv))) * 8) < 2 ^ 64 /\
   demo_grants (size_t (nx (run_config demo_argv) * 8)) = true /\
   demo_grants
     (size_t (nx (run_config demo_argv) * (ny (run_config demo_argv) + 1)
              * (list_len (field_list (ready_world true demo_log
                                         demo_restore
                                         (run_config demo_argv))) * 8)))
   = true) /\
  exists rows,
    Z.of_nat (length (lines rows)) = 8 /\
    lines rows !! 0%nat
    = Some [Num (atof "0.25"); Text " "; Num (atof "0.25"); Text " ";
            Num (S754_finite false 5035274583379513 (-50)); Text " ";
            Num (S754_finite false 5598127408542888 (-51))].
Proof.
  assert (H1 : 0 <= nx (run_config demo_argv)) by closed.
  assert (H2 : 0 <= ny (run_config demo_argv)) by closed.
  assert (H3 : 0 < list_len (field_list (ready_world true demo_log
                               demo_restore (run_config demo_argv)))
               <= INT_MAX) by (split; closed).
  assert (H4 : ny (run_config demo_argv) + 1 <= INT_MAX) by closed.
  assert (H5 : nx (run_config demo_argv) * (ny (run_config demo_argv) + 1)
               <= INT_MAX) by closed.
  assert (H6 : list_len (field_list (ready_world true demo_log demo_restore
                                       (run_config demo_argv)))
               * ny (run_config demo_argv) - 1 <= INT_MAX) by closed.
  assert (H7 : nx (run_config demo_argv) * (ny (run_config demo_argv) + 1)
               * (list_len (field_list (ready_world true demo_log
                                          demo_restore
                                          (run_config demo_argv))) * 8)
               < 2 ^ 64) by closed.
  assert (H8 : demo_grants (size_t (nx (run_config demo_argv) * 8)) = true)
    by reflexivity.
  assert (H9 : demo_grants
                 (size_t (nx (run_config demo_argv)
                          * (ny (run_config demo_argv) + 1)
                          * (list_len (field_list (ready_world true demo_log
                                                     demo_restore
                                                     (run_config demo_argv)))
                             * 8)))
               = true) by reflexivity.
  split;
    [exact (conj H1 (conj H2 (conj H3 (conj H4 (conj H5 (conj H6
              (conj H7 (conj H8 H9))))))))|].
  destruct (sample_write_round_trip demo_interpolate demo_grants
              (run_config demo_argv)
              (ready_world true demo_log demo_restore (run_config demo_argv))
              H1 H2 H3 H4 H5 H6 H7 H8 H9)
    as (b0 & w1 & b & w2 & w3 & rows & _ & _ & _ & _ & _ & Hlines & Hlen).
  exists rows. split.
  - assert (E8 : nx (run_config demo_argv) * ny (run_config demo_argv) = 8)
      by closed.
    rewrite <- E8. exact Hlen.
  - rewrite Hlines. vm_compute. reflexivity.
Defined.

(** The second cell of the small snapshot lies on the axis. *)
Lemma strain_rate_on_demo_axis :
  fgt (cell_y (demo_cell 3 0)) axis_eps = false /\
  D2c_cell true demo_log (demo_cell 3 0)
  = D2c_cell false demo_log (demo_cell 3 0).
Proof.
  assert (H : fgt (cell_y (demo_cell 3 0)) axis_eps = false) by closed.
  split; [exact H|].
  destruct (strain_rate_on_axis demo_log (demo_cell 3 0) H) as (_ & _ & Hc).
  exact Hc.
Defined.

(** The cells of the small snapshot are liquid. *)
Lemma viscosity_ratio_of_demo_cell :
  (cell_f (demo_cell 1 2) = one \/ cell_f (demo_cell 1 2) = zero) /\
  mu_r (demo_cell 1 2)
  = (if fgt (cell_f (demo_cell 1 2)) zero then one else mu_gas).
Proof.
  assert (H : cell_f (demo_cell 1 2) = one \/ cell_f (demo_cell 1 2) = zero)
    by (left; reflexivity).
  split; [exact H|].
  exact (viscosity_ratio_of_pure_phases (demo_cell 1 2) H).
Defined.

(** [ny] written as [400], also with a unit after it. *)
Lemma atoi_of_400 :
  (INT_MIN <= 400 <= INT_MAX /\ digit_head "px" = false) /\
  (NilZero.string_of_int (Z.to_int 400) ++ "px")%string = "400px"%string /\
  atoi (NilZero.string_of_int (Z.to_int 400) ++ "px") = 400.
Proof.
  assert (H1 : INT_MIN <= 400 <= INT_MAX) by (split; closed).
  assert (H2 : digit_head "px" = false) by closed.
  split; [exact (conj H1 H2)|]. split; [closed|].
  destruct (atoi_of_numeral 400 "px" H1 H2) as [Ha _]. exact Ha.
Defined.

(** An x-span of 1 with rows of height 2: no column. *)
Lemma thin_span_has_no_column :
  (flt (xmin (parsed_config "snapshot" "0" "0" "1" "4" "2"))
       (xmax (parsed_config "snapshot" "0" "0" "1" "4" "2")) = true /\
   flt (ymin (parsed_config "snapshot" "0" "0" "1" "4" "2"))
       (ymax (parsed_config "snapshot" "0" "0" "1" "4" "2")) = true /\
   0 < ny (parsed_config "snapshot" "0" "0" "1" "4" "2") /\
   to_int (grid_quotient (parsed_config "snapshot" "0" "0" "1" "4" "2"))
   = Some 0) /\
  main true demo_log demo_restore demo_interpolate demo_grants
    ["getData"; "snapshot"; "0"; "0"; "1"; "4"; "2"]%string world0
  = Some (1, emit world0 msg_nx [] [StValidate; StPlanGrid]).
Proof.
  assert (H1 : flt (xmin (parsed_config "snapshot" "0" "0" "1" "4" "2"))
                   (xmax (parsed_config "snapshot" "0" "0" "1" "4" "2"))
               = true) by closed.
  assert (H2 : flt (ymin (parsed_config "snapshot" "0" "0" "1" "4" "2"))
                   (ymax (parsed_config "snapshot" "0" "0" "1" "4" "2"))
               = true) by closed.
  assert (H3 : 0 < ny (parsed_config "snapshot" "0" "0" "1" "4" "2"))
    by closed.
  assert (H4 : to_int (grid_quotient
                         (parsed_config "snapshot" "0" "0" "1" "4" "2"))
               = Some 0) by closed.
  split; [exact (conj H1 (conj H2 (conj H3 H4)))|].
  destruct (planned_columns_not_negative true demo_log demo_restore
              demo_interpolate demo_grants "getData" "snapshot" "0" "0" "1" "4" "2" 0
              H1 H2 H3 H4) as [_ [_ Hz]].
  exact (Hz eq_refl).
Defined.
